(** * FCX-Circus: time normalisation, slant-range projection and writers

    A shallow embedding of [timeutils.py], [campaign_granule.py],
    [converters/point_cloud_converter.py],
    [czml_writer/point_cloud_czml.py], [CZMLWriter.write] of
    [czml_writer/czml_writer.py] and [zarr_writer/point_cloud_zarr.py],
    followed by the properties of the time-format resolver, the time
    normaliser, the rollover correction, the date-hint extractor, the
    file-name generator, the granule adapter, the point-cloud converter
    and the CZML and Zarr conversions.

    Modelling conventions.
    - Python exceptions are values of [exn]; a function that may raise
      returns [result A].  [try ... except ValueError: pass] is [try_value].
    - Floating-point numbers of the time module are exact rationals
      ([Q]): rounding, NaN and infinities are not represented.
    - An integer array holds whole numbers of the range of its dtype,
      embedded in [Q], and carries its item size.  [values * 3600] is
      taken as NumPy 2 computes it: on an integer array in the dtype of
      the array, where it raises [OverflowError] on one byte, 3600 being
      out of bounds, and wraps around on two bytes or more.  Differences
      and comparisons are exact.
    - [np.float64] numbers of the projector are real numbers ([R]) with the
      Standard Library's [sin] and [cos]; reflectivity cells, which the code
      only moves around and tests with [np.isfinite], are [cell]s that can
      also be NaN or infinite.
    - [np.datetime64] instants are integer tick counts ([Z]) with a unit;
      NaT and the 64-bit overflow of their arithmetic are not
      represented.
    - Library functions whose body is not part of the repository
      ([np.argsort], the parsing of a [units] attribute, the ISO 8601
      text of an instant, the rounding to [float32]) are parameters of
      the sections that use them.
    - The clock and the random number generator are arguments of
      [generate_timestamped_filename].
    - A CZML document is a list of [json] values; a Zarr group is the
      record of the arrays created in it, of the data assigned to them
      and of its attributes.
    - Module loading is not modelled: a function is embedded as its body
      is written, whatever the [import] statements of its file resolve
      to.
    - The parts that only touch the file system ([CZMLWriter.write_to_file],
      [ZarrWriter.write]) and the accessors of [CampaignGranule]
      ([__getitem__], [to_czml], [close]) are not embedded. *)

From Stdlib Require Import ZArith QArith Qround Reals Lra Lia List Bool.
From Stdlib Require Import Ascii String Sorting.Permutation Sorting.Sorted Psatz.
From stdpp Require Import base option strings gmap.

Import ListNotations.
Local Open Scope string_scope.
Local Open Scope Z_scope.

(** ** Exceptions *)

(** A [KeyError] carries the key that was looked up, whatever the
    wording that the library puts around it. *)
Inductive exn : Type :=
| ValueError (msg : string)
| KeyError (key : string)
| AttributeError (msg : string)
| IndexError (msg : string)
| TypeError (msg : string)
| OverflowError (msg : string).

Inductive result (A : Type) : Type :=
| Ok (a : A)
| Raise (e : exn).

Arguments Ok {A} a.
Arguments Raise {A} e.

#[export] Instance result_ret : MRet result := fun _ a => Ok a.
#[export] Instance result_bind : MBind result := fun _ _ k r =>
  match r with
  | Ok a => k a
  | Raise e => Raise e
  end.

Definition is_ValueError (e : exn) : bool :=
  match e with ValueError _ => true | _ => false end.

(** [try: return body / except ValueError: pass], followed by [rest]. *)
Definition try_value {A : Type} (body : result A) (rest : result A) : result A :=
  match body with
  | Ok a => Ok a
  | Raise e => if is_ValueError e then rest else Raise e
  end.

(** ** Strings as Python uses them here *)

Definition is_digit (c : ascii) : bool :=
  let n := N_of_ascii c in (48 <=? n)%N && (n <=? 57)%N.

Definition digit_val (c : ascii) : Z := Z.of_N (N_of_ascii c) - 48.

(** [re.sub(r"[^0-9]", "", s)] *)
Fixpoint re_sub_nondigits (s : string) : string :=
  match s with
  | EmptyString => EmptyString
  | String c s' =>
      if is_digit c then String c (re_sub_nondigits s') else re_sub_nondigits s'
  end.

(** [s[i:j]] and [s[i:]] for non-negative indices. *)
Definition slice (i j : nat) (s : string) : string := substring i (j - i) s.
Definition slice_from (i : nat) (s : string) : string :=
  substring i (String.length s - i) s.

(** [n] leading decimal digits of [s]: [\d{n}] at the start of [s]. *)
Fixpoint digits_prefix (n : nat) (s : string) : option string :=
  match n with
  | O => Some s
  | S n' =>
      match s with
      | String c s' => if is_digit c then digits_prefix n' s' else None
      | EmptyString => None
      end
  end.

Definition expect_char (c : ascii) (s : string) : option string :=
  match s with
  | String c' s' => if Ascii.eqb c c' then Some s' else None
  | EmptyString => None
  end.

(** [$] of a Python pattern: the end of the string, or just before a final
    newline. *)
Definition at_dollar (s : string) : bool :=
  match s with
  | EmptyString => true
  | String c EmptyString => Ascii.eqb c "010"%char
  | _ => false
  end.

(** [\d{4}-\d{2}-\d{2}$] at the start of [s]. *)
Definition dashed_date_here (s : string) : bool :=
  match s1 ← digits_prefix 4 s; s2 ← expect_char "-" s1;
        s3 ← digits_prefix 2 s2; s4 ← expect_char "-" s3; digits_prefix 2 s4 with
  | Some rest => at_dollar rest
  | None => false
  end.

(** [re.match(r"^\d{4}-\d{2}-\d{2}$", s)] is a match. *)
Definition re_match_dashed (s : string) : bool := dashed_date_here s.

(** [(?:20|19)] at the start of [s]. *)
Definition century_here (s : string) : bool :=
  match s with
  | String a (String b _) =>
      (Ascii.eqb a "2" && Ascii.eqb b "0") || (Ascii.eqb a "1" && Ascii.eqb b "9")
  | _ => false
  end.

(** [(?:20|19)\d{6}] at the start of [s]. *)
Definition ymd8_here (s : string) : bool :=
  century_here s &&
  match digits_prefix 8 s with Some _ => true | None => false end.

(** [re.search(r"((?:20|19)\d{6})", s)]: group 1 of the leftmost match. *)
Fixpoint re_search_ymd8 (s : string) : option string :=
  if ymd8_here s then Some (substring 0 8 s)
  else match s with
       | EmptyString => None
       | String _ s' => re_search_ymd8 s'
       end.

(** [re.search(r"^((?:20|19)\d{2}-\d{2}-\d{2})$", s)]: group 1. *)
Definition re_search_dashed (s : string) : option string :=
  if century_here s && dashed_date_here s then Some (substring 0 10 s) else None.

(** ** Calendar dates: [np.datetime64] with unit [D] *)

Record date : Type := mkdate { year : Z; month : Z; day : Z }.

Definition is_leapyear (y : Z) : bool :=
  (y mod 4 =? 0) && (negb (y mod 100 =? 0) || (y mod 400 =? 0)).

Definition days_per_month (leap : bool) (m : Z) : Z :=
  if m =? 2 then (if leap then 29 else 28)
  else if (m =? 4) || (m =? 6) || (m =? 9) || (m =? 11) then 30
  else 31.

(** Days from 1970-01-01 to the given date (proleptic Gregorian). *)
Definition days_from_civil (d : date) : Z :=
  let y := if month d <=? 2 then year d - 1 else year d in
  let era := y / 400 in
  let yoe := y - era * 400 in
  let mp := if month d <=? 2 then month d + 9 else month d - 3 in
  let doy := (153 * mp + 2) / 5 + day d - 1 in
  let doe := yoe * 365 + yoe / 4 - yoe / 100 + doy in
  era * 146097 + doe - 719468.

(** The leading decimal digits of [s] as a number, and what follows. *)
Fixpoint read_number (acc : Z) (s : string) : Z * string :=
  match s with
  | String c s' => if is_digit c then read_number (10 * acc + digit_val c) s' else (acc, s)
  | EmptyString => (acc, s)
  end.

Definition read_two_digits (s : string) : option (Z * string) :=
  match s with
  | String a (String b rest) =>
      if is_digit a && is_digit b then Some (10 * digit_val a + digit_val b, rest)
      else None
  | _ => None
  end.

Definition parse_error : exn := ValueError "Error parsing datetime string".

(** [np.datetime64(s)] for a calendar-date string [YYYY-MM-DD], following
    NumPy's ISO 8601 reader: the year is a run of digits, month and day are
    two digits each and are range-checked against the calendar; every
    failure is a [ValueError].  Strings that stop after the year or the
    month, or that carry a time of day, have other units than [D];
    [get_date_hint] never builds one and they are reported as a parse error
    here. *)
Definition np_datetime64 (s : string) : result date :=
  match s with
  | EmptyString => Raise parse_error
  | String c _ =>
      if negb (is_digit c) then Raise parse_error
      else
        let '(y, s1) := read_number 0 s in
        match s1' ← expect_char "-" s1; read_two_digits s1' with
        | None => Raise parse_error
        | Some (m, s2) =>
            if (m <? 1) || (12 <? m) then
              Raise (ValueError "Month out of range in datetime string")
            else
              match s2' ← expect_char "-" s2; read_two_digits s2' with
              | None => Raise parse_error
              | Some (d, s3) =>
                  if (d <? 1) || (days_per_month (is_leapyear y) m <? d) then
                    Raise (ValueError "Day out of range in datetime string")
                  else
                    match s3 with
                    | EmptyString => Ok (mkdate y m d)
                    | _ => Raise parse_error
                    end
              end
        end
  end.

(** [f"{date_str[:4]}-{date_str[4:6]}-{date_str[6:]}"] *)
Definition dash_ymd (date_str : string) : string :=
  slice 0 4 date_str ++ "-" ++ slice 4 6 date_str ++ "-" ++ slice_from 6 date_str.

(** ** [get_date_hint] *)

(** The fallback of [get_date_hint]: the date is read from the file name. *)
Definition date_from_filename (filename : string) : result (option date) :=
  match re_search_ymd8 filename with
  | Some date_str =>
      try_value (d ← np_datetime64 (dash_ymd date_str); Ok (Some d)) (Ok None)
  | None =>
      match re_search_dashed filename with
      | Some date_str =>
          try_value (d ← np_datetime64 (dash_ymd date_str); Ok (Some d)) (Ok None)
      | None => Ok None
      end
  end.

(** [attrs] maps an attribute name to [str(value)]. *)
Definition get_date_hint (attrs : gmap string string) (filename : string)
  : result (option date) :=
  match attrs !! "date" with
  | Some v =>
      let date_str := re_sub_nondigits v in
      if Nat.eqb (String.length date_str) 8 then
        try_value (d ← np_datetime64 (dash_ymd date_str); Ok (Some d))
                  (date_from_filename filename)
      else if re_match_dashed date_str then
        (* [year, month, day = map(int, m.groups())]: the pattern has no
           group, so the unpacking raises, outside any [try]. *)
        Raise (ValueError "not enough values to unpack (expected 3, got 0)")
      else date_from_filename filename
  | None => date_from_filename filename
  end.

(** ** Time arrays *)

(** Units of a [datetime64] dtype with a fixed length in seconds. *)
Inductive dt_unit : Type :=
| unit_D | unit_h | unit_m | unit_s | unit_ms | unit_us | unit_ns.

(** [.astype("datetime64[s]")] on one tick count: exact towards finer
    units, rounded down to the second from finer ones. *)
Definition to_seconds (u : dt_unit) (t : Z) : Z :=
  match u with
  | unit_D => t * 86400
  | unit_h => t * 3600
  | unit_m => t * 60
  | unit_s => t
  | unit_ms => t / 1000
  | unit_us => t / 1000000
  | unit_ns => t / 1000000000
  end.

(** [dtype.kind] of a numeric array: float, signed or unsigned integer. *)
Inductive num_kind : Type := kind_f | kind_i | kind_u.

(** [dtype.itemsize] of a numeric array, in bytes. *)
Inductive itemsize : Type := size1 | size2 | size4 | size8.

Definition bits (s : itemsize) : Z :=
  match s with size1 => 8 | size2 => 16 | size4 => 32 | size8 => 64 end.

(** [DataArray.values], flattened.  An integer array holds whole numbers
    of the range of its dtype.  [NonNumeric] stands for the dtypes on
    which arithmetic raises (strings, objects). *)
Inductive ndarray : Type :=
| Datetime64 (u : dt_unit) (ticks : list Z)
| Numeric (k : num_kind) (s : itemsize) (vals : list Q)
| NonNumeric.

Inductive attr : Type :=
| AttrStr (s : string)
| AttrBool (b : bool).

Record DataArray : Type := mkDataArray {
  values : ndarray;
  dims : list string;
  attrs : gmap string attr
}.

Definition Qlt_bool (a b : Q) : bool := negb (Qle_bool b a).

(** [np.diff]: [out[i] = a[i+1] - a[i]]. *)
Definition np_diff (a : list Q) : list Q :=
  match a with
  | [] => []
  | _ :: t => zip_with Qminus t a
  end.

Definition has_wraparound (time_array : list Q) : bool :=
  existsb (fun d => Qlt_bool d 0) (np_diff time_array).

(** [float -> timedelta64[s]]: the fractional part is cut off. *)
Definition Qtrunc (q : Q) : Z :=
  if Qle_bool 0 q then Qfloor q else Qceiling q.

(** What an integer array of kind [k] and item size [s] holds for the
    exact result [z] of an operation: integer arithmetic on arrays wraps
    around. *)
Definition wrap_int (k : num_kind) (s : itemsize) (z : Z) : Z :=
  match k with
  | kind_u => z mod 2 ^ bits s
  | _ => (z + 2 ^ (bits s - 1)) mod 2 ^ bits s - 2 ^ (bits s - 1)
  end.

Definition overflow_error (k : num_kind) : exn :=
  OverflowError ("Python integer 3600 out of bounds for "
                 ++ match k with kind_u => "uint8" | _ => "int8" end).

(** [values * 3600] as NumPy 2 computes it: in floating point on a float
    array; in the dtype of the array on an integer array, where the
    Python integer 3600 has to fit the dtype, which it does not with one
    byte, and where the products wrap around. *)
Definition times_3600 (k : num_kind) (s : itemsize) (vals : list Q) : result (list Q) :=
  match k, s with
  | kind_f, _ => Ok (map (fun x => x * 3600)%Q vals)
  | _, size1 => Raise (overflow_error k)
  | _, _ => Ok (map (fun x => inject_Z (wrap_int k s (Qtrunc x * 3600))) vals)
  end.

(** [np.where(mask)[0]] *)
Definition np_where (mask : list bool) : list nat :=
  omap (fun '(i, b) => if b : bool then Some i else None)
       (zip (seq 0 (length mask)) mask).

(** [a[k:] += 1] *)
Definition incr_from (k : nat) (a : list Z) : list Z :=
  imap (fun i x => if (k <=? i)%nat then x + 1 else x) a.

Definition midnight (d : date) : Z := days_from_civil d * 86400.

Definition resolve_time_hours (hr : list Q) (base_date : date) : list Z :=
  let diff := np_diff hr in
  let wrap_points := np_where (map (fun d => Qlt_bool d 0) diff) in
  let hr' :=
    if (0 <? length wrap_points)%nat then
      let day_shifts :=
        fold_left (fun ds wrap_index => incr_from (wrap_index + 1) ds)
                  wrap_points (repeat 0 (length hr)) in
      zip_with (fun h s => (h + inject_Z (s * 24))%Q) hr day_shifts
    else hr in
  let delta := map (fun h => Qtrunc (h * 3600)) hr' in
  map (fun d => midnight base_date + d) delta.

(** The seven values of [info["type"]]. *)
Inductive time_type : Type :=
| datetime64_type
| hours_since
| seconds_since
| hours_since_midnight
| seconds_since_midnight
| numeric_time
| unknown.

Definition type_name (t : time_type) : string :=
  match t with
  | datetime64_type => "datetime64"
  | hours_since => "hours-since"
  | seconds_since => "seconds-since"
  | hours_since_midnight => "hours-since-midnight"
  | seconds_since_midnight => "seconds-since-midnight"
  | numeric_time => "numeric-time"
  | unknown => "unknown"
  end.

(** The dict returned by [detect_time_var_type].  [base_time] is kept as
    the instant in seconds that [normalize_timestamps] reads from it; the
    [time_array] entry, which no caller reads, is left out. *)
Record time_info : Type := mkinfo {
  type : time_type;
  base_time : option Z;
  wrapped : bool
}.

Inductive since_unit : Type := since_seconds | since_hours.


Definition lower_char (c : ascii) : ascii :=
  let n := N_of_ascii c in
  if (65 <=? n)%N && (n <=? 90)%N then ascii_of_N (n + 32) else c.

(** [str.lower] on ASCII text. *)
Fixpoint lower (s : string) : string :=
  match s with
  | EmptyString => EmptyString
  | String c s' => String (lower_char c) (lower s')
  end.

Definition zero_size_error : exn :=
  ValueError "zero-size array to reduction operation maximum which has no identity".

(** [np.max] *)
Definition np_max (a : list Q) : result Q :=
  match a with
  | [] => Raise zero_size_error
  | x :: t => Ok (fold_left (fun m y => if Qlt_bool m y then y else m) t x)
  end.

Definition missing_date_hint : exn :=
  ValueError "Missing date_hint for relative time array".

Definition unsupported_format (t : time_type) : exn :=
  ValueError ("Cannot normalize time array: unrecognized or unsupported time format ("
              ++ type_name t ++ ").").

Section TimeFormat.

(** The reading of a lower-cased [units] attribute (lines 116-122):
    [Some (u, base)] when it contains [<seconds|hours> since <timestamp>],
    the timestamp is accepted by [np.datetime64] and can be added to a
    [timedelta64[s]]; [base] is that instant in seconds. *)
Variable units_reference : string -> option (since_unit * Z).

(** Case 3 of [detect_time_var_type]; [bt] is the [base_time] entry left
    by case 2. *)
Definition detect_numeric (v : ndarray) (ndim : nat) (bt : option Z)
  : result time_info :=
  match v with
  | Numeric k _ vals =>
      if (match k with kind_f | kind_i => true | kind_u => false end)
         && Nat.eqb ndim 1 then
        let w := has_wraparound vals in
        m ← np_max vals;
        if Qlt_bool m 25 then Ok (mkinfo hours_since_midnight bt w)
        else if Qlt_bool m 86400 then Ok (mkinfo seconds_since_midnight bt w)
        else Ok (mkinfo numeric_time bt w)
      else Ok (mkinfo unknown bt false)
  | _ => Ok (mkinfo unknown bt false)
  end.

(** [time_var.attrs.get("units", "").lower()] *)
Definition units_attr (time_var : DataArray) : result string :=
  match attrs time_var !! "units" with
  | None => Ok ""
  | Some (AttrStr s) => Ok (lower s)
  | Some (AttrBool _) =>
      Raise (AttributeError "'bool' object has no attribute 'lower'")
  end.

(** In case 2 the offsets are computed inside a [try]: when the
    multiplication by 3600 raises, case 3 goes on with the [base_time]
    that case 2 has left. *)
Definition detect_time_var_type (time_var : DataArray) : result time_info :=
  match values time_var with
  | Datetime64 _ _ => Ok (mkinfo datetime64_type None false)
  | v =>
      units ← units_attr time_var;
      match units_reference units with
      | Some (u, base) =>
          match v, u with
          | Numeric k s vals, since_hours =>
              match times_3600 k s vals with
              | Ok _ => Ok (mkinfo hours_since (Some base) false)
              | Raise _ => detect_numeric v (length (dims time_var)) (Some base)
              end
          | Numeric _ _ _, since_seconds => Ok (mkinfo seconds_since (Some base) false)
          | _, _ => detect_numeric v (length (dims time_var)) (Some base)
          end
      | None => detect_numeric v (length (dims time_var)) None
      end
  end.

(** [wrap] of [normalize_timestamps]: same dims, the attributes copied
    and marked. *)
Definition wrap (time_array : DataArray) (result : list Z) : DataArray :=
  mkDataArray (Datetime64 unit_s result) (dims time_array)
              (<["normalized" := AttrBool true]> (attrs time_array)).

(** ["hour" in info["type"]] *)
Definition mentions_hour (t : time_type) : bool :=
  match t with hours_since | hours_since_midnight => true | _ => false end.

(** [.astype("timedelta64[s]")] on one number: a float is cut to a whole
    number; an integer is taken as a signed integer of eight bytes, which
    changes the unsigned ones from [2 ^ 63] on. *)
Definition astype_timedelta (k : num_kind) (x : Q) : Z :=
  match k with
  | kind_u => wrap_int kind_i size8 (Qtrunc x)
  | _ => Qtrunc x
  end.

(** [(values * 3600).astype("timedelta64[s]")] or
    [values.astype("timedelta64[s]")] *)
Definition delta_seconds (t : time_type) (v : ndarray) : result (list Z) :=
  match v with
  | Numeric k s vals =>
      if mentions_hour t then
        products ← times_3600 k s vals; Ok (map (astype_timedelta k) products)
      else Ok (map (astype_timedelta k) vals)
  | _ => Raise (TypeError "unsupported operand type(s)")
  end.

Definition normalize_timestamps (time_array : DataArray) (date_hint : option date)
  : result DataArray :=
  info ← detect_time_var_type time_array;
  match values time_array with
  | Datetime64 u ticks => Ok (wrap time_array (map (to_seconds u) ticks))
  | v =>
      match type info, base_time info with
      | (hours_since | seconds_since), Some base =>
          delta ← delta_seconds (type info) v;
          Ok (wrap time_array (map (fun d => base + d) delta))
      | (hours_since_midnight | seconds_since_midnight), _ =>
          match date_hint with
          | None => Raise missing_date_hint
          | Some d =>
              delta ← delta_seconds (type info) v;
              Ok (wrap time_array (map (fun x => midnight d + x) delta))
          end
      | _, _ => Raise (unsupported_format (type info))
      end
  end.

End TimeFormat.

(** ** Datasets and granules *)

(** Reflectivity cells: a finite value, or one of the non-finite floats. *)
Inductive cell : Type :=
| Finite (r : R)
| NaN
| PosInf
| NegInf.

Definition np_isfinite (c : cell) : bool :=
  match c with Finite _ => true | _ => false end.

(** A 2-D array: its [shape] and its cells in row-major order. *)
Record grid : Type := mkgrid {
  num_col : nat;
  num_row : nat;
  cells : list cell
}.

(** An [xr.Dataset] as the code reads it: the 1-D float variables by name,
    the reflectivity grid [ref], the raw [time] variable, the size of each
    dimension and the global attributes (each as [str(value)]). *)
Record Dataset : Type := mkDataset {
  variables : gmap string (list R);
  ref : option grid;
  time : option DataArray;
  sizes : gmap string nat;
  ds_attrs : gmap string string
}.

Record CampaignGranule : Type := mkGranule {
  file_path : string;
  ds : Dataset;
  dimensions : gmap string nat;
  granule_attrs : gmap string string;
  normal_time : DataArray
}.

(** [s.rfind("/")] *)
Fixpoint rfind_slash (s : string) : option nat :=
  match s with
  | EmptyString => None
  | String c s' =>
      match rfind_slash s' with
      | Some i => Some (S i)
      | None => if Ascii.eqb c "/" then Some O else None
      end
  end.

(** [os.path.basename] (POSIX) *)
Definition basename (p : string) : string :=
  match rfind_slash p with
  | Some i => slice_from (S i) p
  | None => p
  end.

Section Granule.

Variable units_reference : string -> option (since_unit * Z).

(** The file name handed to [get_date_hint] by [__init__]. *)
Definition hint_filename (attrs : gmap string string) (file_path : string) : string :=
  match attrs !! "filename" with
  | Some f => basename f
  | None => basename file_path
  end.

(** [CampaignGranule.__init__]; [loader] stands for [xr.open_dataset] or
    the injected loader with its parameters. *)
Definition CampaignGranule_init (file_path : string)
    (loader : string -> result Dataset)
    (preprocessors : list (Dataset -> Dataset)) : result CampaignGranule :=
  loaded ← loader file_path;
  let ds := fold_left (fun d preprocessor => preprocessor d) preprocessors loaded in
  let attrs := ds_attrs ds in
  let filename := hint_filename attrs file_path in
  date_hint ← get_date_hint attrs filename;
  time_var ← match time ds with
             | Some t => Ok t
             | None => Raise (KeyError "time")
             end;
  normal_time ← normalize_timestamps units_reference time_var date_hint;
  Ok (mkGranule file_path ds (sizes ds) attrs normal_time).

End Granule.

(** ** The point-cloud converter *)

Local Open Scope R_scope.

(** NumPy's element-wise binary operations on 1-D arrays, with
    broadcasting of a length-1 operand. *)
Definition broadcast {A B C : Type} (f : A -> B -> C) (a : list A) (b : list B)
  : result (list C) :=
  if Nat.eqb (length a) (length b) then Ok (zip_with f a b)
  else match a, b with
       | [x], _ => Ok (map (f x) b)
       | _, [y] => Ok (map (fun x => f x y) a)
       | _, _ => Raise (ValueError "operands could not be broadcast together")
       end.

Definition np_multiply := broadcast Rmult.
Definition np_add := broadcast Rplus.
Definition np_divide := broadcast Rdiv.

(** [np.repeat(a, n)] and [np.tile(a, n)] *)
Definition np_repeat {A : Type} (a : list A) (n : nat) : list A :=
  x ← a; replicate n x.
Definition np_tile {A : Type} (a : list A) (n : nat) : list A :=
  mjoin (replicate n a).

Definition down_vector (roll pitch head : list R)
  : result (list R * list R * list R) :=
  x1 ← np_multiply (map sin roll) (map cos head);
  x2 ← np_multiply (map cos roll) (map sin pitch);
  x3 ← np_multiply x2 (map sin head);
  x ← np_add x1 x3;
  y1 ← np_multiply (map Ropp (map sin roll)) (map sin head);
  y2 ← np_multiply (map cos roll) (map sin pitch);
  y3 ← np_multiply y2 (map cos head);
  y ← np_add y1 y3;
  z ← np_multiply (map Ropp (map cos roll)) (map cos pitch);
  Ok (x, y, z).

Record PointCloud : Type := mkPointCloud {
  pc_lat : list R;
  pc_lon : list R;
  pc_alt : list R;
  pc_ref : list cell;
  pc_time : list Z;
  pc_point : list nat;
  pc_granule : option CampaignGranule;
  pc_attrs : gmap string string
}.

(** [ds[name].values] *)
Definition getitem (d : Dataset) (name : string) : result (list R) :=
  match variables d !! name with
  | Some v => Ok v
  | None => Raise (KeyError name)
  end.

Definition deg2rad (a : list R) : list R := map (fun v => v * PI / 180) a.

(** [a[idx]] for an integer index array. *)
Fixpoint take {A : Type} (a : list A) (idx : list nat) : result (list A) :=
  match idx with
  | [] => Ok []
  | i :: idx' =>
      match a !! i with
      | Some x => r ← take a idx'; Ok (x :: r)
      | None => Raise (IndexError "index out of bounds")
      end
  end.

(** [a[mask]] for a boolean mask. *)
Definition compress {A : Type} (a : list A) (mask : list bool) : result (list A) :=
  if Nat.eqb (length a) (length mask) then
    Ok (omap (fun '(x, b) => if b : bool then Some x else None) (zip a mask))
  else Raise (IndexError "boolean index did not match indexed array").

Definition Rgtb (a b : R) : bool := if Rlt_dec b a then true else false.

(** The five flattened arrays before sorting: [(lon, lat, alt, ref, time)]. *)
Definition flat_arrays : Type := list R * list R * list R * list cell * list Z.

(** [(normal_time.astype("datetime64[s]").values - epoch).astype("int64")];
    [__init__] always stores a [datetime64[s]] array there, a numeric one
    would be cast. *)
Definition time_unix (normal_time : DataArray) : result (list Z) :=
  match values normal_time with
  | Datetime64 u ticks => Ok (map (to_seconds u) ticks)
  | Numeric _ _ vals => Ok (map Qtrunc vals)
  | NonNumeric => Raise (TypeError "cannot cast to datetime64[s]")
  end.

(** The arrays read from the granule (lines 35-45), the attitude already
    in radians. *)
Record raw_arrays : Type := mkraw {
  raw_time : list Z;
  raw_ref : grid;
  raw_lat : list R;
  raw_lon : list R;
  raw_alt : list R;
  raw_roll : list R;
  raw_pitch : list R;
  raw_head : list R;
  raw_range : list R
}.

(** Lines 35-45 of [convert]. *)
Definition load (granule : CampaignGranule) : result raw_arrays :=
  let d := ds granule in
  time_unix ← time_unix (normal_time granule);
  ref ← match ref d with Some g => Ok g | None => Raise (KeyError "ref") end;
  lat ← getitem d "lat";
  lon ← getitem d "lon";
  alt ← match variables d !! "height" with
        | Some h => Ok h
        | None =>
            match variables d !! "alt" with
            | Some a => Ok a
            | None => Raise (AttributeError "'NoneType' object has no attribute 'values'")
            end
        end;
  roll ← getitem d "roll";
  pitch ← getitem d "pitch";
  head ← getitem d "head";
  rad_range ← getitem d "range";
  Ok (mkraw time_unix ref lat lon alt (deg2rad roll) (deg2rad pitch) (deg2rad head)
        rad_range).

(** Lines 47-66 of [convert]: flattening and projecting. *)
Definition project (raw : raw_arrays) : result flat_arrays :=
  let num_col := num_col (raw_ref raw) in
  let num_row := num_row (raw_ref raw) in
  let time := np_repeat (raw_time raw) num_row in
  let lon := np_repeat (raw_lon raw) num_row in
  let lat := np_repeat (raw_lat raw) num_row in
  let alt := np_repeat (raw_alt raw) num_row in
  let roll := np_repeat (raw_roll raw) num_row in
  let pitch := np_repeat (raw_pitch raw) num_row in
  let head := np_repeat (raw_head raw) num_row in
  let rad_range := np_tile (raw_range raw) num_col in
  let ref := cells (raw_ref raw) in
  '(x, y, z) ← down_vector roll pitch head;
  sx ← np_divide rad_range (map (fun l => 111000 * cos (l * PI / 180)) lat);
  x ← np_multiply x sx;
  y ← np_multiply y (map (fun r => r / 111000) rad_range);
  z ← np_multiply z rad_range;
  lon ← np_add (map Ropp x) lon;
  lat ← np_add (map Ropp y) lat;
  alt ← np_add z alt;
  Ok (lon, lat, alt, ref, time).

Section Converter.

(** [np.argsort] with its default [kind]: some ordering of the indices
    of its argument. *)
Variable argsort : list Z -> list nat.

Definition convert (granule : CampaignGranule) : result PointCloud :=
  raw ← load granule;
  '(lon, lat, alt, ref, time) ← project raw;
  let sort_idx := argsort time in
  lon ← take lon sort_idx;
  lat ← take lat sort_idx;
  alt ← take alt sort_idx;
  ref ← take ref sort_idx;
  time ← take time sort_idx;
  mask ← broadcast andb (map np_isfinite ref) (map (fun a => Rgtb a 0) alt);
  lon ← compress lon mask;
  lat ← compress lat mask;
  alt ← compress alt mask;
  ref ← compress ref mask;
  time ← compress time mask;
  Ok (mkPointCloud lat lon alt ref time (seq 0 (length time)) (Some granule)
        {[ "converted_by" := "PointCloudConverter"; "projection" := "slant-range" ]}).

End Converter.

Local Close Scope R_scope.

(** Two sorting routines that [argsort] can stand for, both by insertion:
    [before x y] tells whether an index of value [x] goes in front of an
    index of value [y] met when scanning the sorted indices.  With [<=]
    equal values keep their order (a stable sort); with [<] they come out
    in reverse order. *)
Fixpoint insert_index (before : Z -> Z -> bool) (a : list Z) (i : nat)
    (idx : list nat) : list nat :=
  match idx with
  | [] => [i]
  | j :: idx' =>
      if before (a !!! i) (a !!! j) then i :: idx
      else j :: insert_index before a i idx'
  end.

Definition argsort_by (before : Z -> Z -> bool) (a : list Z) : list nat :=
  foldr (insert_index before a) [] (seq 0 (length a)).

Definition stable_argsort : list Z -> list nat := argsort_by Z.leb.
Definition reversing_argsort : list Z -> list nat := argsort_by Z.ltb.

(** The kinds of the specification's TimeClassification. *)
Inductive kind : Type :=
| AbsoluteInstant
| OffsetSinceReference
| HoursSinceMidnight
| SecondsSinceMidnight
| NumericUnrecognized.

Definition classification (t : time_type) : kind :=
  match t with
  | datetime64_type => AbsoluteInstant
  | hours_since | seconds_since => OffsetSinceReference
  | hours_since_midnight => HoursSinceMidnight
  | seconds_since_midnight => SecondsSinceMidnight
  | numeric_time | unknown => NumericUnrecognized
  end.

(** ** Vocabulary of the properties *)

(** Every character of [s] is a decimal digit. *)
Fixpoint all_digits (s : string) : bool :=
  match s with
  | EmptyString => true
  | String c s' => is_digit c && all_digits s'
  end.

(** What the [try] around [np.datetime64] amounts to. *)
Definition valid_date (date_str : string) : option date :=
  match np_datetime64 (dash_ymd date_str) with
  | Ok d => Some d
  | Raise _ => None
  end.

(** The date carried by the [date] attribute, if it is usable. *)
Definition date_of_attrs (attrs : gmap string string) : option date :=
  v ← attrs !! "date";
  let date_str := re_sub_nondigits v in
  if Nat.eqb (String.length date_str) 8 then valid_date date_str else None.

(** The date carried by the file name, if it is usable. *)
Definition date_of_filename (filename : string) : option date :=
  date_str ← re_search_ymd8 filename; valid_date date_str.

(** A dataset whose [filename] attribute carries another date than the
    path it is opened from. *)
Definition leg1_dataset : Dataset :=
  mkDataset ∅ None
    (Some (mkDataArray (Numeric kind_f size8 [1; 2.5]%Q) ["time"] ∅))
    {[ "time" := 2%nat ]}
    {[ "filename" := "/archive/20170517_leg1.nc" ]}.

(** Hours of the day that pass midnight once. *)
Definition rollover_hours : DataArray :=
  mkDataArray (Numeric kind_f size8 [23.9; 0.1; 0.5]%Q) ["time"] ∅.

(** Hours of the day held in one-byte signed integers. *)
Definition int8_hours : DataArray :=
  mkDataArray (Numeric kind_i size1 [1; 2]%Q) ["time"] ∅.

(** Whole hours of the day that pass midnight once, as [int32]. *)
Definition whole_hours : DataArray :=
  mkDataArray (Numeric kind_i size4 (map inject_Z [23; 0; 1])) ["time"] ∅.

(** Whole hours of the day as [int16]. *)
Definition int16_hours : DataArray :=
  mkDataArray (Numeric kind_i size2 (map inject_Z [9; 20])) ["time"] ∅.


(** Seconds of the day as signed integers, with a backward step. *)
Definition morning_seconds : DataArray :=
  mkDataArray (Numeric kind_i size8 [3600; 7200; 60]%Q) ["time"]
    {[ "units" := AttrStr "s" ]}.

Local Open Scope R_scope.

(** The arrays of a granule whose shapes agree: one entry per along-track
    sample in the per-sample vectors, one per range bin in [range]. *)
Record well_shaped (raw : raw_arrays) : Prop := mk_well_shaped {
  ws_time : length (raw_time raw) = num_col (raw_ref raw);
  ws_lat : length (raw_lat raw) = num_col (raw_ref raw);
  ws_lon : length (raw_lon raw) = num_col (raw_ref raw);
  ws_alt : length (raw_alt raw) = num_col (raw_ref raw);
  ws_roll : length (raw_roll raw) = num_col (raw_ref raw);
  ws_pitch : length (raw_pitch raw) = num_col (raw_ref raw);
  ws_head : length (raw_head raw) = num_col (raw_ref raw);
  ws_range : length (raw_range raw) = num_row (raw_ref raw);
  ws_cells : length (cells (raw_ref raw))
             = (num_col (raw_ref raw) * num_row (raw_ref raw))%nat
}.

(** The down-vector of one sample. *)
Definition down_x (r p h : R) : R := sin r * cos h + cos r * sin p * sin h.
Definition down_y (r p h : R) : R := - sin r * sin h + cos r * sin p * cos h.
Definition down_z (r p h : R) : R := - cos r * cos p.

(** The flattened arrays that [project] computes on well-shaped input. *)
Definition projected_lon (raw : raw_arrays) : list R :=
  let n := num_row (raw_ref raw) in
  let rng := np_tile (raw_range raw) (num_col (raw_ref raw)) in
  let x := zip_with Rplus
             (zip_with Rmult (map sin (np_repeat (raw_roll raw) n))
                             (map cos (np_repeat (raw_head raw) n)))
             (zip_with Rmult
                (zip_with Rmult (map cos (np_repeat (raw_roll raw) n))
                                (map sin (np_repeat (raw_pitch raw) n)))
                (map sin (np_repeat (raw_head raw) n))) in
  zip_with Rplus
    (map Ropp (zip_with Rmult x
       (zip_with Rdiv rng
          (map (fun l => 111000 * cos (l * PI / 180)) (np_repeat (raw_lat raw) n)))))
    (np_repeat (raw_lon raw) n).

Definition projected_lat (raw : raw_arrays) : list R :=
  let n := num_row (raw_ref raw) in
  let rng := np_tile (raw_range raw) (num_col (raw_ref raw)) in
  let y := zip_with Rplus
             (zip_with Rmult (map Ropp (map sin (np_repeat (raw_roll raw) n)))
                             (map sin (np_repeat (raw_head raw) n)))
             (zip_with Rmult
                (zip_with Rmult (map cos (np_repeat (raw_roll raw) n))
                                (map sin (np_repeat (raw_pitch raw) n)))
                (map cos (np_repeat (raw_head raw) n))) in
  zip_with Rplus
    (map Ropp (zip_with Rmult y (map (fun r => r / 111000) rng)))
    (np_repeat (raw_lat raw) n).

Definition projected_alt (raw : raw_arrays) : list R :=
  let n := num_row (raw_ref raw) in
  let rng := np_tile (raw_range raw) (num_col (raw_ref raw)) in
  let z := zip_with Rmult (map Ropp (map cos (np_repeat (raw_roll raw) n)))
                          (map cos (np_repeat (raw_pitch raw) n)) in
  zip_with Rplus (zip_with Rmult z rng) (np_repeat (raw_alt raw) n).

(** The entries of [a] at the indices [idx], where they exist. *)
Definition gather {A : Type} (a : list A) (idx : list nat) : list A :=
  omap (fun i => a !! i) idx.

(** A sample is kept when its reflectivity is finite and its corrected
    altitude positive. *)
Definition valid (ref : list cell) (alt : list R) (i : nat) : bool :=
  match ref !! i, alt !! i with
  | Some c, Some a => np_isfinite c && Rgtb a 0
  | _, _ => false
  end.

(** Every index of [idx] points into [a]. *)
Definition in_range {A : Type} (a : list A) (idx : list nat) : Prop :=
  Forall (fun i => (i < length a)%nat) idx.

(** The point cloud built from the flattened arrays and the indices kept. *)
Definition cloud (granule : CampaignGranule) (arrays : flat_arrays) (kept : list nat)
  : PointCloud :=
  let '(lon, lat, alt, ref, time) := arrays in
  mkPointCloud (gather lat kept) (gather lon kept) (gather alt kept)
    (gather ref kept) (gather time kept) (seq 0 (length (gather time kept)))
    (Some granule)
    {[ "converted_by" := "PointCloudConverter"; "projection" := "slant-range" ]}.

(** [np.argsort] returns a permutation of the indices that puts the
    values in non-decreasing order. *)
Definition sorts (argsort : list Z -> list nat) : Prop :=
  forall a, Permutation (argsort a) (seq 0 (length a)) /\
            Sorted Z.le (gather a (argsort a)).

(** The order of two indices by the values they point at. *)
Definition key_le (a : list Z) (i j : nat) : Prop := (a !!! i <= a !!! j)%Z.






(** One along-track sample: its time, position and attitude (radians) and
    its row of the reflectivity grid. *)
Record sample : Type := mksample {
  s_time : Z;
  s_lat : R;
  s_lon : R;
  s_alt : R;
  s_roll : R;
  s_pitch : R;
  s_head : R;
  s_row : list cell
}.

(** The arrays of a granule made of the samples [ss], in that order. *)
Definition raw_of_samples (rng : list R) (ss : list sample) : raw_arrays :=
  mkraw (map s_time ss) (mkgrid (length ss) (length rng) (ss ≫= s_row))
    (map s_lat ss) (map s_lon ss) (map s_alt ss)
    (map s_roll ss) (map s_pitch ss) (map s_head ss) rng.

(** A point: latitude, longitude, altitude, reflectivity, time. *)
Abbreviation point := (R * R * R * cell * Z)%type.

(** Five parallel sequences as one sequence of points. *)
Definition zip5 (lat lon alt : list R) (ref : list cell) (time : list Z) : list point :=
  zip (zip (zip (zip lat lon) alt) ref) time.

(** The points of a cloud, in order. *)
Definition points (pc : PointCloud) : list point :=
  zip5 (pc_lat pc) (pc_lon pc) (pc_alt pc) (pc_ref pc) (pc_time pc).

(** The test of the filtering step on one point. *)
Definition valid_point (p : point) : bool :=
  let '(_, _, alt, ref, _) := p in np_isfinite ref && Rgtb alt 0.

(** The points of one sample, one per range bin. *)
Definition project_sample (rng : list R) (s : sample) : list point :=
  zip_with
    (fun r c =>
       (s_lat s - r * down_y (s_roll s) (s_pitch s) (s_head s) / 111000,
        s_lon s - r * down_x (s_roll s) (s_pitch s) (s_head s)
                  / (111000 * cos (s_lat s * PI / 180)),
        s_alt s + r * down_z (s_roll s) (s_pitch s) (s_head s),
        c, s_time s))
    rng (s_row s).

(** Every sample has one reflectivity cell per range bin. *)
Definition uniform_rows (rng : list R) (ss : list sample) : Prop :=
  Forall (fun s => length (s_row s) = length rng) ss.

(** The order of two points by time. *)
Definition time_le (p q : point) : Prop := (p.2 <= q.2)%Z.

(** Invariance of the output under a reordering of the samples, as the
    specification asks it of the converter. *)
Definition time_permutation_invariant (argsort : list Z -> list nat) : Prop :=
  forall g1 g2 rng ss1 ss2 pc1 pc2,
    load g1 = Ok (raw_of_samples rng ss1) ->
    load g2 = Ok (raw_of_samples rng ss2) ->
    uniform_rows rng ss1 ->
    Permutation ss1 ss2 ->
    convert argsort g1 = Ok pc1 ->
    convert argsort g2 = Ok pc2 ->
    points pc1 = points pc2.

(** Zero degrees as [convert] turns them into radians. *)
Definition nadir : R := 0 * PI / 180.

(** The attributes of a normalised time variable. *)
Definition attrs_normalized : gmap string attr := {[ "normalized" := AttrBool true ]}.

(** Two samples one minute apart, two range bins, one NaN cell. *)
Definition grid_2x2_granule : CampaignGranule :=
  mkGranule "20170517_flight.nc"
    (mkDataset
       {[ "lat" := [10; 11]; "lon" := [20; 21]; "height" := [1000; 1000];
          "roll" := [0; 0]; "pitch" := [0; 0]; "head" := [0; 0];
          "range" := [100; 200] ]}
       (Some (mkgrid 2 2 [Finite 1; NaN; Finite 3; Finite 4]))
       (Some (mkDataArray (Datetime64 unit_s [0; 60]%Z) ["time"] ∅))
       {[ "time" := 2%nat; "range" := 2%nat ]} ∅)
    {[ "time" := 2%nat; "range" := 2%nat ]} ∅
    (mkDataArray (Datetime64 unit_s [0; 60]%Z) ["time"] attrs_normalized).

(** What [load] reads from [grid_2x2_granule]. *)
Definition grid_2x2_raw : raw_arrays :=
  mkraw [0; 60]%Z (mkgrid 2 2 [Finite 1; NaN; Finite 3; Finite 4])
    [10; 11] [20; 21] [1000; 1000] [nadir; nadir] [nadir; nadir] [nadir; nadir]
    [100; 200].







(** Two samples taken at the same second. *)
Definition sample_a : sample := mksample 0 10 20 1000 nadir nadir nadir [Finite 1].
Definition sample_b : sample := mksample 0 11 21 1000 nadir nadir nadir [Finite 2].

(** The granule of two samples over one range bin of 100 m. *)
Definition tied_granule (first second : sample) : CampaignGranule :=
  mkGranule "20170517_flight.nc"
    (mkDataset
       {[ "lat" := [s_lat first; s_lat second]; "lon" := [s_lon first; s_lon second];
          "alt" := [s_alt first; s_alt second];
          "roll" := [0; 0]; "pitch" := [0; 0]; "head" := [0; 0]; "range" := [100] ]}
       (Some (mkgrid 2 1 (s_row first ++ s_row second)))
       (Some (mkDataArray (Datetime64 unit_s [s_time first; s_time second]) ["time"] ∅))
       {[ "time" := 2%nat; "range" := 1%nat ]} ∅)
    {[ "time" := 2%nat; "range" := 1%nat ]} ∅
    (mkDataArray (Datetime64 unit_s [s_time first; s_time second]) ["time"]
       attrs_normalized).

(** A float time variable of a granule without samples. *)
Definition empty_hours : DataArray := mkDataArray (Numeric kind_f size8 []) ["time"] ∅.


Local Close Scope R_scope.

(** The number of backward steps among the first [i] differences of [a],
    that is, between the entries [0] to [i]. *)
Definition steps_before (a : list Q) (i : nat) : nat :=
  length (List.filter (fun d => Qlt_bool d 0) (firstn i (np_diff a))).

(** The number of entries of an array. *)
Definition array_length (v : ndarray) : nat :=
  match v with
  | Datetime64 _ ticks => length ticks
  | Numeric _ _ vals => length vals
  | NonNumeric => O
  end.

(** Hours of the day: at least 0 and less than 24. *)
Definition hours_of_day (a : list Q) : Prop :=
  Forall (fun h => (0 <= h)%Q /\ (h < 24)%Q) a.

(** [np.where] on the part of a mask that starts at index [k]. *)
Definition np_where_from (k : nat) (mask : list bool) : list nat :=
  omap (fun '(i, b) => if b : bool then Some i else None)
       (zip (seq k (length mask)) mask).



(** ** File names with a time stamp *)

(** The character of the decimal digit [k mod 10]. *)
Definition digit_char (k : Z) : ascii := ascii_of_N (Z.to_N (48 + k mod 10)).

(** The [w] low decimal digits of [n], in front of [acc]. *)
Fixpoint digits_acc (w : nat) (n : Z) (acc : string) : string :=
  match w with
  | O => acc
  | S w' => digits_acc w' (n / 10) (String (digit_char n) acc)
  end.

(** The number of decimal digits of [n >= 0]; [fuel] bounds the search. *)
Fixpoint num_digits (fuel : nat) (n : Z) : nat :=
  match fuel with
  | O => 1
  | S fuel' => if n <? 10 then 1 else S (num_digits fuel' (n / 10))
  end.

(** [f"{n:0{w}d}"] and the numeric fields of [strftime], for [n >= 0]:
    the decimal digits of [n], with zeros in front up to [w] characters. *)
Definition zero_padded (w : nat) (n : Z) : string :=
  digits_acc (Nat.max w (num_digits (Z.to_nat n) n)) n "".

(** A [datetime.datetime], to the second. *)
Record datetime : Type := mkdatetime {
  dt_date : date;
  dt_hour : Z;
  dt_minute : Z;
  dt_second : Z
}.

(** [strftime("%Y%m%d")] *)
Definition strftime_ymd (d : date) : string :=
  zero_padded 4 (year d) ++ zero_padded 2 (month d) ++ zero_padded 2 (day d).

(** [strftime("%Y%m%d_%H%M%S")] *)
Definition strftime (now : datetime) : string :=
  strftime_ymd (dt_date now) ++ "_" ++ zero_padded 2 (dt_hour now)
  ++ zero_padded 2 (dt_minute now) ++ zero_padded 2 (dt_second now).

(** [s.lstrip('.')] *)
Fixpoint lstrip_dots (s : string) : string :=
  match s with
  | String c s' => if Ascii.eqb c "." then lstrip_dots s' else s
  | EmptyString => EmptyString
  end.

(** [generate_timestamped_filename]; [now] is the value of
    [datetime.datetime.now()] and [uid] the one of
    [random.randint(0, 99999999)]. *)
Definition generate_timestamped_filename (now : datetime) (uid : Z)
    (prefix extension : string) : string :=
  let timestamp := strftime now in
  let uid := zero_padded 8 uid in
  let base_name := prefix ++ "_" ++ timestamp ++ "_" ++ uid in
  match extension with
  | EmptyString => base_name
  | _ => base_name ++ "." ++ lstrip_dots extension
  end.

(** A date of the calendar: the month from 1 to 12, the day within the
    month. *)
Definition calendar_date (d : date) : Prop :=
  1 <= month d <= 12 /\
  1 <= day d <= days_per_month (is_leapyear (year d)) (month d).

(** Eight characters. *)
Definition string8 (a b c d e f g h : ascii) : string :=
  String a (String b (String c (String d (String e (String f (String g
    (String h EmptyString))))))).

(** The date that eight digits spell. *)
Definition date_of_digits (a b c d e f g h : ascii) : date :=
  mkdate (10 * (10 * (10 * (10 * 0 + digit_val a) + digit_val b) + digit_val c)
          + digit_val d)
         (10 * digit_val e + digit_val f) (10 * digit_val g + digit_val h).



Local Open Scope R_scope.

(** The granule with the variable [name] of its dataset set to [v]. *)
Definition with_variable (name : string) (v : list R) (granule : CampaignGranule)
  : CampaignGranule :=
  let d := ds granule in
  mkGranule (file_path granule)
    (mkDataset (<[name := v]> (variables d)) (ref d) (time d) (sizes d) (ds_attrs d))
    (dimensions granule) (granule_attrs granule) (normal_time granule).

(** The same 2 x 2 granule as [grid_2x2_granule] with no finite cell. *)
Definition blank_granule : CampaignGranule :=
  mkGranule "20170517_flight.nc"
    (mkDataset
       {[ "lat" := [10; 11]; "lon" := [20; 21]; "height" := [1000; 1000];
          "roll" := [0; 0]; "pitch" := [0; 0]; "head" := [0; 0];
          "range" := [100; 200] ]}
       (Some (mkgrid 2 2 [NaN; NaN; PosInf; NegInf]))
       (Some (mkDataArray (Datetime64 unit_s [0; 60]%Z) ["time"] ∅))
       {[ "time" := 2%nat; "range" := 2%nat ]} ∅)
    {[ "time" := 2%nat; "range" := 2%nat ]} ∅
    (mkDataArray (Datetime64 unit_s [0; 60]%Z) ["time"] attrs_normalized).

(** What [load] reads from [blank_granule]. *)
Definition blank_raw : raw_arrays :=
  mkraw [0; 60]%Z (mkgrid 2 2 [NaN; NaN; PosInf; NegInf])
    [10; 11] [20; 21] [1000; 1000] [nadir; nadir] [nadir; nadir] [nadir; nadir]
    [100; 200].

Local Close Scope R_scope.

(** ** The CZML writer *)

#[local] Set Warnings "-register-all".

(** The JSON values that the writer builds: Python strings, ints, floats,
    lists and dicts, the latter with their keys in insertion order. *)
Inductive json : Type :=
| JStr (s : string)
| JInt (n : Z)
| JFloat (x : R)
| JList (items : list json)
| JDict (fields : list (string * json)).

Definition zero_size_min : exn :=
  ValueError "zero-size array to reduction operation minimum which has no identity".

(** [np.min] *)
Definition np_min (a : list Z) : result Z :=
  match a with
  | [] => Raise zero_size_min
  | x :: t => Ok (fold_left Z.min t x)
  end.

Definition document_packet : json :=
  JDict [("id", JStr "document"); ("version", JStr "1.0")].

Definition path_packet (epoch : string) (coords : list json) : json :=
  JDict
    [("id", JStr "pointcloud-path");
     ("position", JDict [("epoch", JStr epoch); ("cartographicDegrees", JList coords)]);
     ("path",
      JDict
        [("material",
          JDict
            [("solidColor",
              JDict [("color", JDict [("rgba", JList [JInt 0; JInt 255; JInt 255; JInt 255])])])]);
         ("width", JInt 1)])].

Definition point_packet (i : nat) (time_str : string) (lo la al : R) : json :=
  JDict
    [("id", JStr ("point-" ++ zero_padded 6 (Z.of_nat i)));
     ("availability", JStr (time_str ++ "/" ++ time_str));
     ("position", JDict [("cartographicDegrees", JList [JFloat lo; JFloat la; JFloat al])]);
     ("point",
      JDict
        [("pixelSize", JInt 4);
         ("color", JDict [("rgba", JList [JInt 255; JInt 0; JInt 0; JInt 255])])])].

(** [zip(a, b, c, d)]: as long as the shortest of the four. *)
Definition zip4 {A B C D : Type} (a : list A) (b : list B) (c : list C) (d : list D)
  : list (A * B * C * D) :=
  zip (zip (zip a b) c) d.

Section Czml.

(** The ISO 8601 text of an instant given in seconds, as
    [np.datetime_as_string(t, unit='s')] and [astype(str)] on a
    [datetime64[s]] write it. *)
Variable datetime_as_string : Z -> string.

(** [PointCloudToCZMLConverter.convert_to_czml] *)
Definition convert_to_czml (cloud : PointCloud) (mode : string) : result (list json) :=
  let packets := [document_packet] in
  let times := pc_time cloud in
  let lon := pc_lon cloud in
  let lat := pc_lat cloud in
  let alt := pc_alt cloud in
  first ← np_min times;
  let epoch := datetime_as_string first in
  first ← np_min times;
  let seconds := map (fun t => t - first) times in
  if String.eqb mode "path" then
    let coords :=
      zip4 seconds lon lat alt
      ≫= (fun '(t, lo, la, al) => [JInt t; JFloat lo; JFloat la; JFloat al]) in
    Ok (packets ++ [path_packet epoch coords])%list
  else if String.eqb mode "points" then
    Ok (packets
        ++ imap (fun i '(t, lo, la, al) =>
                   point_packet i (datetime_as_string t) lo la al)
                (zip4 times lon lat alt))%list
  else Ok packets.

(** A [CZMLWriter] holds its conversion strategy. *)
Record CZMLWriter : Type := mkCZMLWriter {
  strategy : PointCloud -> string -> result (list json)
}.

(** [CZMLWriter.write] *)
Definition write (self : CZMLWriter) (data : PointCloud) (mode : string)
  : result (list json) :=
  strategy self data mode.

End Czml.

(** The value of the key [id] of a packet. *)
Definition packet_id (packet : json) : option string :=
  match packet with
  | JDict (("id", JStr s) :: _) => Some s
  | _ => None
  end.

(** The coordinates of a path packet. *)
Definition path_coords (packet : json) : list json :=
  match packet with
  | JDict [_; (_, JDict [_; (_, JList coords)]); _] => coords
  | _ => []
  end.

(** The four entries that a point adds to the coordinates of a path. *)
Definition path_entry (p : Z * R * R * R) : list json :=
  let '(t, lo, la, al) := p in [JInt t; JFloat lo; JFloat la; JFloat al].

(** The clouds whose four coordinate sequences have one length. *)
Definition aligned (cloud : PointCloud) : Prop :=
  length (pc_lon cloud) = length (pc_time cloud) /\
  length (pc_lat cloud) = length (pc_time cloud) /\
  length (pc_alt cloud) = length (pc_time cloud).

(** A cloud of two points, the later one first. *)
Definition two_points : PointCloud :=
  mkPointCloud [10; 11]%R [20; 21]%R [900; 800]%R [Finite 1; Finite 2] [60; 0]
    [0; 1]%nat None ∅.

(** A cloud without points. *)
Definition no_points : PointCloud := mkPointCloud [] [] [] [] [] [] None ∅.

(** A rendering of instants for the examples: the number of seconds in
    decimal. *)
Definition seconds_text (t : Z) : string := zero_padded 1 t.

(** ** The Zarr writer *)

(** [.astype(np.int32)] on a 64-bit count: the low 32 bits, signed. *)
Definition int32 (z : Z) : Z := (z + 2147483648) mod 4294967296 - 2147483648.

(** What an array of the store holds: rows of three [float32] values,
    [int32] values or [float32] values. *)
Inductive zvalues : Type :=
| Locations (rows : list (cell * cell * cell))
| Int32s (vals : list Z)
| Float32s (vals : list cell).

(** An array of a Zarr group: the arguments of [create_array], its
    [_ARRAY_DIMENSIONS] attribute and the data assigned to it, if any;
    [z_chunks] is [None] when the chunks are left to the library. *)
Record zarray : Type := mkzarray {
  z_shape : list nat;
  z_chunks : option (list nat);
  z_dtype : string;
  z_dims : list string;
  z_data : option zvalues
}.

(** A Zarr group: its arrays, the arrays of its subgroup [internal], if
    that one was made, and its attributes. *)
Record zgroup : Type := mkzgroup {
  z_arrays : gmap string zarray;
  z_internal : option (gmap string zarray);
  z_attrs : gmap string json
}.

(** The state of the group when [convert_to_zarr] ends, and the
    exception that ended it, if any. *)
Record outcome : Type := mkoutcome {
  store : zgroup;
  raised : option exn
}.

Definition zero_size_fmin : exn :=
  ValueError "zero-size array to reduction operation fmin which has no identity".

(** [np.nanmin] on instants; NaT is not represented. *)
Definition np_nanmin (a : list Z) : result Z :=
  match a with
  | [] => Raise zero_size_fmin
  | x :: t => Ok (fold_left Z.min t x)
  end.

(** [np.stack([a, b, c], axis=-1)] *)
Definition np_stack3 {A : Type} (a b c : list A) : result (list (A * A * A)) :=
  if Nat.eqb (length a) (length b) && Nat.eqb (length b) (length c) then
    Ok (zip (zip a b) c)
  else Raise (ValueError "all input arrays must have the same shape").

(** [z[:] = value] on an array of [n] rows: the value has to have [n]
    rows as well. *)
Definition assign {A : Type} (n : nat) (value : list A) : result (list A) :=
  if Nat.eqb (length value) n then Ok value
  else Raise (ValueError "parameter 'value': expected array with matching shape").

(** [np.arange(0, stop, step)] for a positive step: [ceil(stop / step)]
    multiples of the step. *)
Definition np_arange (stop step : nat) : list nat :=
  map (fun i => (i * step)%nat) (seq 0 ((stop + step - 1) / step)).

(** [d.get(key, "unknown")] *)
Definition get_or_unknown (d : gmap string string) (key : string) : string :=
  match d !! key with Some v => v | None => "unknown" end.

Section Zarr.

(** The rounding of a [float64] to [float32], which may overflow to an
    infinity. *)
Variable float32 : R -> cell.

(** [.astype(np.float32)] on a cell *)
Definition cast_float32 (c : cell) : cell :=
  match c with Finite r => float32 r | other => other end.

(** [PointCloudToZarrConverter.convert_to_zarr] on the empty group that
    [ZarrWriter.write] hands over; [chunk] is [chunk_size].  An
    assignment to a [float32] array rounds each number, here before the
    three coordinates are stacked; the table [chunk_id] of lines 38 to 41
    is computed and then only its shape is used. *)
Definition convert_to_zarr (cloud : PointCloud) (chunk : positive) : outcome :=
  let n_points := length (pc_time cloud) in
  let chunk := Pos.to_nat chunk in
  let z_location :=
    mkzarray [n_points; 3%nat] (Some [chunk; 3%nat]) "float32" ["point"; "xyz"] None in
  let z_time := mkzarray [n_points] (Some [chunk]) "int32" ["point"] None in
  let z_ref := mkzarray [n_points] (Some [chunk]) "float32" ["point"] None in
  let created : gmap string zarray :=
    {[ "location" := z_location; "time" := z_time; "ref" := z_ref ]} in
  match stacked ← np_stack3 (map float32 (pc_lon cloud)) (map float32 (pc_lat cloud))
                    (map float32 (pc_alt cloud));
        assign n_points stacked with
  | Raise e => mkoutcome (mkzgroup created None ∅) (Some e)
  | Ok rows =>
      let z_location :=
        mkzarray [n_points; 3%nat] (Some [chunk; 3%nat]) "float32" ["point"; "xyz"]
          (Some (Locations rows)) in
      let arrays := <["location" := z_location]> created in
      match np_nanmin (pc_time cloud) with
      | Raise e => mkoutcome (mkzgroup arrays None ∅) (Some e)
      | Ok base_time =>
          let delta_time := map (fun t => t - base_time) (pc_time cloud) in
          let times := map int32 delta_time in
          let z_time :=
            mkzarray [n_points] (Some [chunk]) "int32" ["point"] (Some (Int32s times)) in
          let arrays := <["time" := z_time]> arrays in
          match assign n_points (map cast_float32 (pc_ref cloud)) with
          | Raise e => mkoutcome (mkzgroup arrays None ∅) (Some e)
          | Ok refs =>
              let z_ref :=
                mkzarray [n_points] (Some [chunk]) "float32" ["point"]
                  (Some (Float32s refs)) in
              let arrays := <["ref" := z_ref]> arrays in
              let idx := np_arange n_points chunk in
              match take times idx with
              | Raise e => mkoutcome (mkzgroup arrays None ∅) (Some e)
              | Ok starts =>
                  let chunk_id := zip idx starts in
                  let z_chunk_id :=
                    mkzarray [length chunk_id; 2%nat] None "int64" ["chunk"; "meta"]
                      None in
                  let internal : gmap string zarray := {[ "chunk_id" := z_chunk_id ]} in
                  match np_min (pc_time cloud) with
                  | Raise e => mkoutcome (mkzgroup arrays (Some internal) ∅) (Some e)
                  | Ok epoch =>
                      mkoutcome
                        (mkzgroup arrays (Some internal)
                           {[ "format" := JStr "point-cloud";
                              "converted_by" :=
                                JStr (get_or_unknown (pc_attrs cloud) "converted_by");
                              "projection" :=
                                JStr (get_or_unknown (pc_attrs cloud) "projection");
                              "epoch" := JInt epoch ]})
                        None
                  end
              end
          end
      end
  end.

End Zarr.

(** The data of the array [name] of a group, if the array exists. *)
Definition array_data (g : zgroup) (name : string) : option (option zvalues) :=
  z_data <$> z_arrays g !! name.

(** A stand-in for the rounding to [float32] that keeps every number. *)
Definition exact_float32 (r : R) : cell := Finite r.

(** The clouds whose five sequences have one length. *)
Definition fully_aligned (cloud : PointCloud) : Prop :=
  aligned cloud /\ length (pc_ref cloud) = length (pc_time cloud).

(** The number of chunks of [n] points in chunks of [chunk] points. *)
Definition num_chunks (n : nat) (chunk : positive) : nat :=
  ((n + Pos.to_nat chunk - 1) / Pos.to_nat chunk)%nat.

(** * Properties *)

(** ** The date-hint extractor *)

Lemma re_sub_nondigits_digits (s : string) : all_digits (re_sub_nondigits s) = true.
Proof.
  induction s as [|c s IH]; simpl; [reflexivity|].
  destruct (is_digit c) eqn:E; simpl; [rewrite E|]; auto.
Qed.

Lemma digits_prefix_all_digits (n : nat) (s rest : string) :
  all_digits s = true -> digits_prefix n s = Some rest -> all_digits rest = true.
Proof.
  revert s; induction n as [|n IH]; intros s Hs H; simpl in H.
  - congruence.
  - destruct s as [|c s]; [discriminate|].
    simpl in Hs. apply andb_true_iff in Hs as [Hc Hs].
    rewrite Hc in H. eauto.
Qed.

Lemma expect_dash_digits (s : string) :
  all_digits s = true -> expect_char "-" s = None.
Proof.
  destruct s as [|c s]; [reflexivity|].
  cbn [all_digits expect_char].
  intros H. apply andb_true_iff in H as [Hc _].
  destruct (Ascii.eqb "-" c) eqn:E; [|reflexivity].
  apply Ascii.eqb_eq in E. subst c. discriminate.
Qed.

(** The second pattern of the attribute branch never matches what
    [re.sub] leaves. *)
Lemma re_match_dashed_stripped (v : string) :
  re_match_dashed (re_sub_nondigits v) = false.
Proof.
  unfold re_match_dashed, dashed_date_here.
  destruct (digits_prefix 4 (re_sub_nondigits v)) as [s1|] eqn:E; [|reflexivity].
  simpl.
  rewrite (expect_dash_digits s1); [reflexivity|].
  eapply digits_prefix_all_digits; [apply re_sub_nondigits_digits|exact E].
Qed.

Lemma np_datetime64_raises_ValueError (s : string) (e : exn) :
  np_datetime64 s = Raise e -> is_ValueError e = true.
Proof.
  unfold np_datetime64, parse_error. intros H.
  repeat (match type of H with
          | context [match ?x with _ => _ end] => destruct x eqn:?
          end; try discriminate);
  inversion H; reflexivity.
Qed.

Lemma try_parse (date_str : string) (rest : result (option date)) :
  try_value (d ← np_datetime64 (dash_ymd date_str); Ok (Some d)) rest
  = match valid_date date_str with Some d => Ok (Some d) | None => rest end.
Proof.
  unfold valid_date.
  destruct (np_datetime64 (dash_ymd date_str)) as [d|e] eqn:E; simpl; [reflexivity|].
  now rewrite (np_datetime64_raises_ValueError _ _ E).
Qed.

Lemma digits_prefix_S (n : nat) (s rest : string) :
  digits_prefix (S n) s = Some rest ->
  exists c s', s = String c s' /\ is_digit c = true /\ digits_prefix n s' = Some rest.
Proof.
  cbn [digits_prefix]. destruct s as [|c s']; [discriminate|].
  destruct (is_digit c) eqn:E; [|discriminate]. eauto.
Qed.

Lemma expect_char_Some (c : ascii) (s rest : string) :
  expect_char c s = Some rest -> s = String c rest.
Proof.
  destruct s as [|c' s']; cbn [expect_char]; [discriminate|].
  destruct (Ascii.eqb c c') eqn:E; [|discriminate].
  apply Ascii.eqb_eq in E. congruence.
Qed.

Lemma dashed_date_here_inv (s : string) :
  dashed_date_here s = true ->
  exists a b c d e f g h rest,
    s = String a (String b (String c (String d (String "-" (String e (String f
          (String "-" (String g (String h rest))))))))) /\
    is_digit a = true /\ is_digit b = true /\ is_digit c = true /\ is_digit d = true.
Proof.
  unfold dashed_date_here. intros H.
  destruct (_ ≫= _) as [rest|] eqn:E in H; [|discriminate].
  apply bind_Some in E as (s1 & E1 & E).
  apply bind_Some in E as (s2 & E2 & E).
  apply bind_Some in E as (s3 & E3 & E).
  apply bind_Some in E as (s4 & E4 & E5).
  apply expect_char_Some in E2, E4. subst s1 s3.
  apply digits_prefix_S in E1 as (a & ? & -> & Ha & E1).
  apply digits_prefix_S in E1 as (b & ? & -> & Hb & E1).
  apply digits_prefix_S in E1 as (c & ? & -> & Hc & E1).
  apply digits_prefix_S in E1 as (d & ? & -> & Hd & E1).
  cbn in E1. injection E1 as ->.
  apply digits_prefix_S in E3 as (e & ? & -> & He & E3).
  apply digits_prefix_S in E3 as (f & ? & -> & Hf & E3).
  cbn in E3. injection E3 as ->.
  apply digits_prefix_S in E5 as (g & ? & -> & Hg & E5).
  apply digits_prefix_S in E5 as (h & ? & -> & Hh & E5).
  cbn in E5. injection E5 as ->.
  repeat eexists; eauto.
Qed.

(** The sliced-and-dashed form of a [YYYY-MM-DD] match is not a date. *)
Lemma re_search_dashed_invalid (filename date_str : string) :
  re_search_dashed filename = Some date_str -> valid_date date_str = None.
Proof.
  unfold re_search_dashed. intros H.
  destruct (century_here filename); [|discriminate]. cbn [andb] in H.
  destruct (dashed_date_here filename) eqn:E; [|discriminate].
  apply dashed_date_here_inv in E
    as (a & b & c & d & e & f & g & h & rest & -> & Ha & Hb & Hc & Hd).
  injection H as <-.
  unfold valid_date, dash_ymd, slice, slice_from, np_datetime64.
  cbn [substring String.length Nat.sub].
  assert (E0 : substring 0 0 rest = "") by (destruct rest; reflexivity).
  rewrite E0. cbv [String.append]. cbn [negb read_number].
  rewrite Ha. cbn [negb]. rewrite Hb, Hc, Hd. reflexivity.
Qed.

Lemma date_from_filename_eq (filename : string) :
  date_from_filename filename
  = Ok (date_str ← re_search_ymd8 filename; valid_date date_str).
Proof.
  unfold date_from_filename.
  destruct (re_search_ymd8 filename) as [s|]; simpl.
  - rewrite try_parse. destruct (valid_date s); reflexivity.
  - destruct (re_search_dashed filename) as [s|] eqn:E; [|reflexivity].
    rewrite try_parse, (re_search_dashed_invalid _ _ E). reflexivity.
Qed.

Lemma get_date_hint_eq (attrs : gmap string string) (filename : string) :
  get_date_hint attrs filename
  = Ok (match date_of_attrs attrs with
        | Some d => Some d
        | None => date_of_filename filename
        end).
Proof.
  unfold get_date_hint, date_of_attrs, date_of_filename.
  destruct (attrs !! "date") as [v|]; simpl; [|apply date_from_filename_eq].
  destruct (Nat.eqb _ 8).
  - rewrite try_parse. destruct (valid_date _); [reflexivity|apply date_from_filename_eq].
  - rewrite re_match_dashed_stripped. apply date_from_filename_eq.
Qed.

(** C7. [get_date_hint] returns for every attribute mapping and file
    name, never raising: its result is the date of the [date] attribute
    when that one is usable, otherwise the date found in the file name,
    otherwise [None].  In particular an empty mapping with
    ["20170517_flight.nc"] gives 2017-05-17, the attribute ["2017-05-17"]
    gives 2017-05-17 whatever the file name, and a file name without
    digits together with no [date] attribute gives [None]. *)
Theorem get_date_hint_total :
  (forall attrs filename, exists r, get_date_hint attrs filename = Ok r) /\
  (forall attrs filename,
      get_date_hint attrs filename
      = Ok (match date_of_attrs attrs with
            | Some d => Some d
            | None => date_of_filename filename
            end)) /\
  get_date_hint ∅ "20170517_flight.nc" = Ok (Some (mkdate 2017 5 17)) /\
  (forall filename,
      get_date_hint {[ "date" := "2017-05-17" ]} filename = Ok (Some (mkdate 2017 5 17))) /\
  (forall attrs filename,
      date_of_attrs attrs = None -> date_of_filename filename = None ->
      get_date_hint attrs filename = Ok None) /\
  (forall attrs filename,
      attrs !! "date" = None -> re_sub_nondigits filename = "" ->
      get_date_hint attrs filename = Ok None).
Proof.
  split; [|split; [|split; [|split; [|split]]]].
  - intros attrs filename. rewrite get_date_hint_eq. eauto.
  - apply get_date_hint_eq.
  - reflexivity.
  - intros filename. rewrite get_date_hint_eq. reflexivity.
  - intros attrs filename Ha Hf. now rewrite get_date_hint_eq, Ha, Hf.
  - intros attrs filename Ha Hf. rewrite get_date_hint_eq.
    unfold date_of_attrs, date_of_filename. rewrite Ha. simpl.
    assert (Hs : forall s, re_sub_nondigits s = "" -> re_search_ymd8 s = None).
    { clear. induction s as [|c s IH]; [reflexivity|]. intros H.
      simpl in H. destruct (is_digit c) eqn:Hc; [discriminate|].
      cbn [re_search_ymd8]. rewrite (IH H).
      unfold ymd8_here. cbn [digits_prefix]. rewrite Hc.
      now rewrite andb_false_r. }
    now rewrite (Hs _ Hf).
Qed.

(** ** The granule adapter *)

(** C10. At construction the file name given to [get_date_hint] is the
    basename of the [filename] attribute when the (preprocessed) dataset
    has one, and the basename of the constructor path only otherwise; so
    when the attribute's basename carries a date and there is no [date]
    attribute, the time is normalised with that date, whatever date the
    constructor path carries. *)
Theorem init_hint_filename (units_reference : string -> option (since_unit * Z))
    (file_path : string) (loader : string -> result Dataset)
    (preprocessors : list (Dataset -> Dataset)) (loaded : Dataset) (tv : DataArray) :
  loader file_path = Ok loaded ->
  let d := fold_left (fun d p => p d) preprocessors loaded in
  time d = Some tv ->
  CampaignGranule_init units_reference file_path loader preprocessors
  = (hint ← get_date_hint (ds_attrs d)
              (match ds_attrs d !! "filename" with
               | Some f => basename f
               | None => basename file_path
               end);
     nt ← normalize_timestamps units_reference tv hint;
     Ok (mkGranule file_path d (sizes d) (ds_attrs d) nt))
  /\ (forall f dt,
        ds_attrs d !! "filename" = Some f ->
        ds_attrs d !! "date" = None ->
        date_of_filename (basename f) = Some dt ->
        CampaignGranule_init units_reference file_path loader preprocessors
        = (nt ← normalize_timestamps units_reference tv (Some dt);
           Ok (mkGranule file_path d (sizes d) (ds_attrs d) nt))).
Proof.
  intros Hl d Ht.
  assert (E : CampaignGranule_init units_reference file_path loader preprocessors
              = (hint ← get_date_hint (ds_attrs d) (hint_filename (ds_attrs d) file_path);
                 nt ← normalize_timestamps units_reference tv hint;
                 Ok (mkGranule file_path d (sizes d) (ds_attrs d) nt))).
  { unfold CampaignGranule_init. rewrite Hl. cbn [mbind result_bind].
    fold d. rewrite Ht. reflexivity. }
  split; [exact E|].
  intros f dt Hf Hd Hdt. rewrite E. unfold hint_filename. rewrite Hf.
  rewrite get_date_hint_eq. unfold date_of_attrs. rewrite Hd. cbn [mbind option_bind].
  rewrite Hdt. reflexivity.
Qed.

Lemma init_hint_filename_witness :
  CampaignGranule_init (fun _ => None) "/tmp/20180101_copy.nc"
    (fun _ => Ok leg1_dataset) []
  = (nt ← normalize_timestamps (fun _ => None)
            (mkDataArray (Numeric kind_f size8 [1; 2.5]%Q) ["time"] ∅)
            (Some (mkdate 2017 5 17));
     Ok (mkGranule "/tmp/20180101_copy.nc" leg1_dataset {[ "time" := 2%nat ]}
           {[ "filename" := "/archive/20170517_leg1.nc" ]} nt)).
Proof.
  refine (proj2 (init_hint_filename (fun _ => None) "/tmp/20180101_copy.nc"
            (fun _ => Ok leg1_dataset) [] leg1_dataset _ eq_refl eq_refl)
            "/archive/20170517_leg1.nc" (mkdate 2017 5 17) _ _ _);
    reflexivity.
Defined.

(** ** The time normaliser *)

Section TimeProperties.

Variable units_reference : string -> option (since_unit * Z).

Lemma wrap_wrap (a : DataArray) (t t' : list Z) :
  wrap (wrap a t) t' = wrap a t'.
Proof. unfold wrap. cbn. now rewrite insert_insert_eq. Qed.

Lemma to_seconds_unit_s (ticks : list Z) : map (to_seconds unit_s) ticks = ticks.
Proof. induction ticks; cbn; congruence. Qed.

(** C9. On a [datetime64] input of any unit, [normalize_timestamps]
    returns the ticks cut to whole seconds, and applying it to its own
    output returns that output again. *)
Theorem normalize_idempotent (time_array : DataArray) (hint hint' : option date)
    (u : dt_unit) (ticks : list Z) :
  values time_array = Datetime64 u ticks ->
  exists out,
    normalize_timestamps units_reference time_array hint = Ok out /\
    values out = Datetime64 unit_s (map (to_seconds u) ticks) /\
    normalize_timestamps units_reference out hint' = Ok out.
Proof.
  intros Hv. exists (wrap time_array (map (to_seconds u) ticks)).
  unfold normalize_timestamps, detect_time_var_type. rewrite Hv. cbn.
  repeat split. now rewrite to_seconds_unit_s, wrap_wrap.
Qed.

End TimeProperties.

Lemma normalize_idempotent_witness :
  exists out,
    normalize_timestamps (fun _ => None)
      (mkDataArray (Datetime64 unit_ms [1500; -1; 86400000]%Z) ["time"] ∅) None = Ok out /\
    values out = Datetime64 unit_s (map (to_seconds unit_ms) [1500; -1; 86400000]%Z) /\
    normalize_timestamps (fun _ => None) out None = Ok out.
Proof.
  exact (normalize_idempotent (fun _ => None)
           (mkDataArray (Datetime64 unit_ms [1500; -1; 86400000]%Z) ["time"] ∅)
           None None unit_ms [1500; -1; 86400000]%Z eq_refl).
Defined.

(** C1. On the hours [[23.9, 0.1, 0.5]] with the date hint 2017-05-17
    (midnight = 1494979200 s), [normalize_timestamps] returns 23:54, 00:06
    and 00:30 of that same day: no day offset is applied after the backward
    step.  [resolve_time_hours], the function of the same module that
    applies the correction, returns day 0 23:54, day 1 00:06 and day 1
    00:30 on the same input. *)
Theorem normalize_ignores_rollover :
  normalize_timestamps (fun _ => None) rollover_hours (Some (mkdate 2017 5 17))
  = Ok (mkDataArray
          (Datetime64 unit_s [1494979200 + 86040; 1494979200 + 360; 1494979200 + 1800])
          ["time"] {[ "normalized" := AttrBool true ]})
  /\ resolve_time_hours [23.9; 0.1; 0.5]%Q (mkdate 2017 5 17)
     = [1494979200 + 86040; 1494979200 + 86400 + 360; 1494979200 + 86400 + 1800]
  /\ (exists info, detect_time_var_type (fun _ => None) rollover_hours = Ok info /\
                   type info = hours_since_midnight /\ wrapped info = true).
Proof.
  split; [vm_compute; reflexivity|].
  split; [vm_compute; reflexivity|].
  eexists. split; [vm_compute; reflexivity|]. split; reflexivity.
Qed.

(** ** The time-format resolver *)

Lemma Qlt_bool_iff (a b : Q) : Qlt_bool a b = true <-> (a < b)%Q.
Proof.
  unfold Qlt_bool. rewrite negb_true_iff, <- not_true_iff_false, Qle_bool_iff.
  split; [apply Qnot_le_lt|apply Qlt_not_le].
Qed.

Lemma Qlt_bool_false (a b : Q) : Qlt_bool a b = false <-> ~ (a < b)%Q.
Proof. rewrite <- Qlt_bool_iff. now destruct (Qlt_bool a b). Qed.

(** [np.max] returns an element that bounds all the others. *)
Lemma np_max_spec (a : list Q) (m : Q) :
  np_max a = Ok m -> In m a /\ forall x, In x a -> (x <= m)%Q.
Proof.
  destruct a as [|x t]; [discriminate|]. cbn [np_max]. intros [= <-].
  revert x. induction t as [|y t IH]; intros x; cbn [fold_left].
  - split; [now left|]. intros z [<-|[]]. apply Qle_refl.
  - destruct (Qlt_bool x y) eqn:E.
    + destruct (IH y) as [Hin Hle]. split.
      * destruct Hin as [<-|Hin]; [right; now left|now right; right].
      * intros z [<-|Hz]; [|now apply Hle].
        apply Qle_trans with y; [|apply Hle; now left].
        apply Qlt_le_weak. now apply Qlt_bool_iff.
    + destruct (IH x) as [Hin Hle]. split.
      * destruct Hin as [<-|Hin]; [now left|now right; right].
      * intros z [<-|[<-|Hz]].
        -- apply Hle. now left.
        -- apply Qle_trans with x; [|apply Hle; now left].
           apply Qnot_lt_le. now apply Qlt_bool_false.
        -- apply Hle. now right.
Qed.

Lemma np_max_nonempty (a : list Q) : a <> [] -> exists m, np_max a = Ok m.
Proof. destruct a; [congruence|]. cbn. eauto. Qed.


Section Resolver.

Variable units_reference : string -> option (since_unit * Z).


End Resolver.



(** What [normalize_timestamps] returns on hours since midnight: each
    value times 3600, cut to whole seconds, after the hint's midnight,
    whether or not the values step backward. *)
Lemma normalize_hours_pointwise (units_reference : string -> option (since_unit * Z))
    (time_array : DataArray) (k : num_kind) (s : itemsize) (vals products : list Q)
    (units : string) (m : Q) (d : date) :
  values time_array = Numeric k s vals ->
  k = kind_f \/ k = kind_i ->
  length (dims time_array) = 1%nat ->
  units_attr time_array = Ok units ->
  units_reference units = None ->
  np_max vals = Ok m ->
  (m < 25)%Q ->
  times_3600 k s vals = Ok products ->
  normalize_timestamps units_reference time_array (Some d)
  = Ok (wrap time_array (map (fun p => midnight d + Qtrunc p) products)).
Proof.
  intros Hv Hk Hd Hu Hr Hm H25 Hp.
  unfold normalize_timestamps, detect_time_var_type, detect_numeric.
  rewrite Hv, Hu. cbn [mbind result_bind]. rewrite Hr, Hd.
  assert (Hk' : match k with kind_f | kind_i => true | kind_u => false end = true)
    by (destruct Hk; subst; reflexivity).
  rewrite Hk', Hm. cbn [andb Nat.eqb mbind result_bind].
  apply Qlt_bool_iff in H25. rewrite H25.
  cbn [type base_time mbind result_bind delta_seconds mentions_hour].
  rewrite Hp. cbn [mbind result_bind]. rewrite List.map_map.
  now destruct Hk; subst k.
Qed.

(** ** Failures of the normaliser *)

Section NormalizerErrors.

Variable units_reference : string -> option (since_unit * Z).

Lemma detect_numeric_inv (v : ndarray) (n : nat) (bt : option Z) (info : time_info) :
  detect_numeric v n bt = Ok info ->
  base_time info = bt /\
  (type info = unknown \/
   (exists k s vals, v = Numeric k s vals /\ (k = kind_f \/ k = kind_i)) /\
   (type info = hours_since_midnight \/ type info = seconds_since_midnight \/
    type info = numeric_time)).
Proof.
  unfold detect_numeric. destruct v as [u t|k s vals|]; try (intros [= <-]; cbn; auto).
  destruct (_ && _) eqn:Ek; [|intros [= <-]; cbn; auto].
  assert (Hk : k = kind_f \/ k = kind_i) by (destruct k; auto; discriminate).
  destruct (np_max vals) as [m|e]; [|discriminate]. cbn [mbind result_bind].
  destruct (Qlt_bool m 25); [|destruct (Qlt_bool m 86400)];
    intros [= <-]; cbn; split; auto; right; split; eauto 6.
Qed.

(** What a classification tells about the array it was computed from. *)
Lemma detect_time_var_type_inv (time_var : DataArray) (info : time_info) :
  detect_time_var_type units_reference time_var = Ok info ->
  match type info with
  | datetime64_type => exists u t, values time_var = Datetime64 u t
  | hours_since =>
      (exists k s vals products,
         values time_var = Numeric k s vals /\ times_3600 k s vals = Ok products) /\
      exists base, base_time info = Some base
  | seconds_since =>
      (exists k s vals, values time_var = Numeric k s vals) /\
      exists base, base_time info = Some base
  | hours_since_midnight | seconds_since_midnight =>
      exists k s vals,
        values time_var = Numeric k s vals /\ (k = kind_f \/ k = kind_i)
  | numeric_time | unknown => forall u t, values time_var <> Datetime64 u t
  end.
Proof.
  assert (Hnum : forall v n bt,
            detect_numeric v n bt = Ok info ->
            (forall u t, v <> Datetime64 u t) ->
            match type info with
            | datetime64_type | hours_since | seconds_since => False
            | hours_since_midnight | seconds_since_midnight =>
                exists k s vals, v = Numeric k s vals /\ (k = kind_f \/ k = kind_i)
            | numeric_time | unknown => forall u t, v <> Datetime64 u t
            end).
  { intros v n bt H Hv.
    apply detect_numeric_inv in H as [_ [ -> | [Hk [ -> | [ -> | -> ]]]]]; auto. }
  unfold detect_time_var_type.
  destruct (values time_var) as [u t|k s vals|] eqn:Hv.
  - intros [= <-]. cbn. eauto.
  - destruct (units_attr time_var) as [units|e]; [|discriminate].
    cbn [mbind result_bind].
    destruct (units_reference units) as [[su base]|].
    + destruct su.
      * intros [= <-]. cbn. eauto 6.
      * destruct (times_3600 k s vals) as [products|e] eqn:Ep.
        -- intros [= <-]. cbn. eauto 8.
        -- intros H. apply Hnum in H; [|discriminate].
           destruct (type info); auto; contradiction.
    + intros H. apply Hnum in H; [|discriminate].
      destruct (type info); auto; contradiction.
  - destruct (units_attr time_var) as [units|e]; [|discriminate].
    cbn [mbind result_bind].
    destruct (units_reference units) as [[[|] base]|];
      intros H; (apply Hnum in H; [|discriminate]);
      destruct (type info); auto; contradiction.
Qed.

Lemma missing_not_unsupported (t : time_type) : missing_date_hint <> unsupported_format t.
Proof. unfold missing_date_hint, unsupported_format. cbv [String.append]. discriminate. Qed.

(** The multiplication by 3600 raises on the integers of one byte only. *)
Lemma times_3600_result (k : num_kind) (s : itemsize) (vals : list Q) :
  (exists products, times_3600 k s vals = Ok products /\
                    length products = length vals) /\
  ~ (k <> kind_f /\ s = size1) \/
  times_3600 k s vals = Raise (overflow_error k) /\ k <> kind_f /\ s = size1.
Proof.
  destruct k, s; cbn [times_3600];
    first [right; repeat split; (reflexivity || discriminate)
          |left; split; [eexists; split; [reflexivity|now rewrite length_map]
                        |intros [H1 H2]; first [discriminate|now apply H1]]].
Qed.

(** What [normalize_timestamps] does with a classified input. *)
Lemma normalize_classified (time_array : DataArray) (date_hint : option date)
    (info : time_info) :
  detect_time_var_type units_reference time_array = Ok info ->
  let relative :=
    classification (type info) = HoursSinceMidnight \/
    classification (type info) = SecondsSinceMidnight in
  let unrecognized := classification (type info) = NumericUnrecognized in
  let one_byte_hours :=
    classification (type info) = HoursSinceMidnight /\
    exists vals, values time_array = Numeric kind_i size1 vals in
  (normalize_timestamps units_reference time_array date_hint = Raise missing_date_hint
   <-> relative /\ date_hint = None) /\
  (normalize_timestamps units_reference time_array date_hint
   = Raise (unsupported_format (type info)) <-> unrecognized) /\
  (normalize_timestamps units_reference time_array date_hint
   = Raise (overflow_error kind_i) <-> one_byte_hours /\ date_hint <> None) /\
  (~ (relative /\ date_hint = None) -> ~ unrecognized ->
   ~ (one_byte_hours /\ date_hint <> None) ->
   exists ticks,
     normalize_timestamps units_reference time_array date_hint
     = Ok (wrap time_array ticks)).
Proof.
  intros Hd relative unrecognized one_byte_hours.
  subst relative unrecognized one_byte_hours.
  pose proof (detect_time_var_type_inv _ _ Hd) as Hinv.
  pose proof (missing_not_unsupported (type info)) as Hne.
  unfold normalize_timestamps. rewrite Hd. cbn [mbind result_bind].
  destruct (type info) eqn:Ht; cbn [classification] in *.
  - destruct Hinv as (u & t & ->).
    repeat split; try discriminate; try (intros [[|] _]; discriminate);
      try (intros [[? _] _]; discriminate); eauto.
  - destruct Hinv as [(k & s & vals & products & -> & Hp) (base & ->)].
    cbn [delta_seconds mentions_hour]. rewrite Hp. cbn [mbind result_bind].
    repeat split; try discriminate; try (intros [[|] _]; discriminate);
      try (intros [[? _] _]; discriminate); eauto.
  - destruct Hinv as [(k & s & vals & ->) (base & ->)].
    cbn [delta_seconds mentions_hour mbind result_bind].
    repeat split; try discriminate; try (intros [[|] _]; discriminate);
      try (intros [[? _] _]; discriminate); eauto.
  - destruct Hinv as (k & s & vals & -> & Hk). destruct date_hint as [d|].
    + cbn [delta_seconds mentions_hour].
      destruct (times_3600_result k s vals) as [[(products & -> & _) Hno]|(-> & Hkf & ->)];
        cbn [mbind result_bind].
      * repeat split; try discriminate; try (intros [_ ?]; discriminate); eauto.
        intros [[_ (vals' & [= -> -> _])] _]. exfalso. apply Hno.
        split; [discriminate|reflexivity].
      * assert (k = kind_i) as -> by (destruct Hk; [contradiction|assumption]).
        repeat split; try discriminate; try (intros [_ ?]; discriminate); eauto.
        intros _ _ H. exfalso. apply H. repeat split; eauto.
    + repeat split; auto; try discriminate; try congruence.
      * intros [_ H]. now destruct H.
      * intros H. exfalso. apply H. auto.
  - destruct Hinv as (k & s & vals & -> & Hk). destruct date_hint as [d|].
    + cbn [delta_seconds mentions_hour mbind result_bind].
      repeat split; try discriminate; try (intros [_ ?]; discriminate);
        try (intros [[? _] _]; discriminate); eauto.
    + repeat split; auto; try discriminate; try congruence.
      * intros [[? _] _]. discriminate.
      * intros H. exfalso. apply H. auto.
  - assert (E : match values time_array with
                | Datetime64 u ticks => Ok (wrap time_array (map (to_seconds u) ticks))
                | _ => Raise (unsupported_format numeric_time)
                end = Raise (unsupported_format numeric_time)).
    { destruct (values time_array) as [u t| |]; [destruct (Hinv u t)|..]; reflexivity. }
    destruct (base_time info);
      (replace (match values time_array with
                | Datetime64 u ticks => Ok (wrap time_array (map (to_seconds u) ticks))
                | _ => Raise (unsupported_format numeric_time)
                end) with (@Raise DataArray (unsupported_format numeric_time))
         by (destruct (values time_array); (reflexivity || symmetry; exact E)));
      repeat split; auto; try congruence; try discriminate;
      try (intros [= H]; congruence); try (intros [[|] _]; discriminate);
      try (intros [[? _] _]; discriminate);
      intros _ H; now destruct H.
  - assert (E : match values time_array with
                | Datetime64 u ticks => Ok (wrap time_array (map (to_seconds u) ticks))
                | _ => Raise (unsupported_format unknown)
                end = Raise (unsupported_format unknown)).
    { destruct (values time_array) as [u t| |]; [destruct (Hinv u t)|..]; reflexivity. }
    destruct (base_time info);
      (replace (match values time_array with
                | Datetime64 u ticks => Ok (wrap time_array (map (to_seconds u) ticks))
                | _ => Raise (unsupported_format unknown)
                end) with (@Raise DataArray (unsupported_format unknown))
         by (destruct (values time_array); (reflexivity || symmetry; exact E)));
      repeat split; auto; try congruence; try discriminate;
      try (intros [= H]; congruence); try (intros [[|] _]; discriminate);
      try (intros [[? _] _]; discriminate);
      intros _ H; now destruct H.
Qed.

Lemma detect_numeric_Raise (v : ndarray) (n : nat) (bt : option Z) (e : exn) :
  detect_numeric v n bt = Raise e -> e = zero_size_error.
Proof.
  unfold detect_numeric. destruct v as [u t|k s vals|]; try discriminate.
  destruct (_ && _); [|discriminate].
  destruct vals as [|x vals]; cbn; [congruence|].
  destruct (Qlt_bool _ 25); [|destruct (Qlt_bool _ 86400)]; discriminate.
Qed.

(** The resolver raises only on a [units] attribute that is not a
    string and on the maximum of an empty sequence. *)
Lemma detect_time_var_type_Raise (time_var : DataArray) (e : exn) :
  detect_time_var_type units_reference time_var = Raise e ->
  e = zero_size_error \/ exists msg, e = AttributeError msg.
Proof.
  unfold detect_time_var_type, units_attr.
  destruct (values time_var) as [u t|k s vals|]; [discriminate|..];
    (destruct (attrs time_var !! "units") as [[str|b]|]; cbn [mbind result_bind];
     [|intros [= <-]; eauto|]);
    repeat match goal with
           | |- context [units_reference ?u] =>
               destruct (units_reference u) as [[[|] base]|]
           | |- context [times_3600 ?k ?s ?v] => destruct (times_3600 k s v)
           end;
    try discriminate; intros H; left; eapply detect_numeric_Raise; eauto.
Qed.

(** C4, as the code has it.  [normalize_timestamps] raises the
    missing-date-hint error exactly when the resolver classifies the
    input HoursSinceMidnight or SecondsSinceMidnight and no date hint is
    given; it raises the unsupported-format error exactly when the
    resolver classifies the input NumericUnrecognized; it raises an
    [OverflowError] exactly when the resolver classifies a sequence of
    one-byte signed integers HoursSinceMidnight and a date hint is given,
    the factor 3600 being out of the bounds of the dtype; and for every
    other input that the resolver classifies it returns a
    [datetime64[s]] array marked as normalised. *)
Theorem normalize_failures (time_array : DataArray) (date_hint : option date) :
  (normalize_timestamps units_reference time_array date_hint = Raise missing_date_hint
   <-> exists info,
         detect_time_var_type units_reference time_array = Ok info /\
         (classification (type info) = HoursSinceMidnight \/
          classification (type info) = SecondsSinceMidnight) /\
         date_hint = None) /\
  ((exists t, normalize_timestamps units_reference time_array date_hint
              = Raise (unsupported_format t))
   <-> exists info,
         detect_time_var_type units_reference time_array = Ok info /\
         classification (type info) = NumericUnrecognized) /\
  ((exists msg, normalize_timestamps units_reference time_array date_hint
                = Raise (OverflowError msg))
   <-> exists info vals,
         detect_time_var_type units_reference time_array = Ok info /\
         classification (type info) = HoursSinceMidnight /\
         values time_array = Numeric kind_i size1 vals /\
         date_hint <> None) /\
  (forall info,
      detect_time_var_type units_reference time_array = Ok info ->
      ~ ((classification (type info) = HoursSinceMidnight \/
          classification (type info) = SecondsSinceMidnight) /\ date_hint = None) ->
      classification (type info) <> NumericUnrecognized ->
      ~ (classification (type info) = HoursSinceMidnight /\
         (exists vals, values time_array = Numeric kind_i size1 vals) /\
         date_hint <> None) ->
      exists ticks,
        normalize_timestamps units_reference time_array date_hint
        = Ok (wrap time_array ticks)).
Proof.
  destruct (detect_time_var_type units_reference time_array) as [info|e] eqn:Hd.
  - destruct (normalize_classified time_array date_hint info Hd) as (Hm & Hu & Ho & Hok).
    assert (Hcases :
              (classification (type info) = HoursSinceMidnight \/
               classification (type info) = SecondsSinceMidnight) /\ date_hint = None \/
              classification (type info) = NumericUnrecognized \/
              (classification (type info) = HoursSinceMidnight /\
               exists vals, values time_array = Numeric kind_i size1 vals) /\
              date_hint <> None \/
              exists ticks,
                normalize_timestamps units_reference time_array date_hint
                = Ok (wrap time_array ticks)).
    { assert (Hdec : (exists vals, values time_array = Numeric kind_i size1 vals) \/
                     ~ (exists vals, values time_array = Numeric kind_i size1 vals)).
      { destruct (values time_array) as [u t|[| |] [| | |] vals|];
          first [left; eexists; reflexivity | right; intros [? [=]]]. }
      destruct date_hint as [d|], (classification (type info)) eqn:Ec;
        try (left; split; [auto|reflexivity]; fail);
        try (right; left; reflexivity);
        try (right; right; right; apply Hok;
             [intros [[?|?] ?]|intros ?|intros [[? ?] ?]]; discriminate).
      destruct Hdec as [Hv|Hv].
      - right. right. left. repeat split; [exact Hv|discriminate].
      - right. right. right. apply Hok;
          [intros [_ ?]; discriminate|discriminate|intros [[_ ?] _]; contradiction]. }
    split; [|split; [|split]].
    + rewrite Hm. split; [eauto|]. intros (info' & [= <-] & H). exact H.
    + split.
      * intros [t Ht]. exists info. split; [reflexivity|].
        destruct Hcases as [H|[H|[H|[ticks H]]]]; [|exact H|..]; exfalso.
        -- apply Hm in H. rewrite H in Ht. apply (missing_not_unsupported t). congruence.
        -- apply Ho in H. rewrite H in Ht. discriminate.
        -- rewrite H in Ht. discriminate.
      * intros (info' & [= <-] & H). exists (type info). now apply Hu.
    + split.
      * intros [msg Ht]. exists info.
        destruct Hcases as [H|[H|[H|[ticks H]]]].
        -- apply Hm in H. rewrite H in Ht. discriminate.
        -- apply Hu in H. rewrite H in Ht. discriminate.
        -- destruct H as [[Hc [vals Hv]] Hh]. exists vals. auto.
        -- rewrite H in Ht. discriminate.
      * intros (info' & vals & [= <-] & Hc & Hv & Hh). eexists.
        apply Ho. split; [split; [exact Hc|eauto]|exact Hh].
    + intros info' [= <-] H1 H2 H3. apply Hok; auto.
      intros [[Hc Hv] Hh]. apply H3. auto.
  - assert (Hn : normalize_timestamps units_reference time_array date_hint = Raise e).
    { unfold normalize_timestamps. now rewrite Hd. }
    apply detect_time_var_type_Raise in Hd.
    split; [|split; [|split]].
    + split; [|intros (info & ? & _); discriminate].
      rewrite Hn. intros [= ->]. destruct Hd as [?|[? ?]]; discriminate.
    + split; [|intros (info & ? & _); discriminate].
      rewrite Hn. intros [t [= ->]]. destruct Hd as [?|[? ?]]; discriminate.
    + split; [|intros (info & ? & ? & _); discriminate].
      rewrite Hn. intros [msg [= ->]]. destruct Hd as [?|[? ?]]; discriminate.
    + discriminate.
Qed.

End NormalizerErrors.

(** ** Flattening *)

Lemma length_np_repeat {A : Type} (a : list A) (n : nat) :
  length (np_repeat a n) = (length a * n)%nat.
Proof.
  unfold np_repeat. induction a as [|x a IH]; [reflexivity|].
  rewrite bind_cons, length_app, length_replicate, IH. cbn. lia.
Qed.

Lemma lookup_np_repeat {A : Type} (a : list A) (n i j : nat) :
  (j < n)%nat -> np_repeat a n !! (i * n + j)%nat = a !! i.
Proof.
  intros Hj. unfold np_repeat. revert i. induction a as [|x a IH]; intros i.
  - reflexivity.
  - rewrite bind_cons. destruct i as [|i].
    + rewrite lookup_app_l by (rewrite length_replicate; lia).
      cbn. now apply lookup_replicate_2.
    + rewrite lookup_app_r by (rewrite length_replicate; lia).
      rewrite length_replicate.
      replace (S i * n + j - n)%nat with (i * n + j)%nat by lia.
      apply IH.
Qed.

Lemma length_np_tile {A : Type} (a : list A) (n : nat) :
  length (np_tile a n) = (n * length a)%nat.
Proof.
  unfold np_tile. induction n as [|n IH]; [reflexivity|].
  change (mjoin (replicate (S n) a)) with (a ++ mjoin (replicate n a))%list.
  rewrite length_app, IH. lia.
Qed.

Lemma lookup_np_tile {A : Type} (a : list A) (n i j : nat) :
  (i < n)%nat -> (j < length a)%nat -> np_tile a n !! (i * length a + j)%nat = a !! j.
Proof.
  unfold np_tile. revert i. induction n as [|n IH]; intros i Hi Hj; [lia|].
  change (mjoin (replicate (S n) a)) with (a ++ mjoin (replicate n a))%list.
  destruct i as [|i].
  - now rewrite lookup_app_l.
  - rewrite lookup_app_r by lia.
    replace (S i * length a + j - length a)%nat with (i * length a + j)%nat by lia.
    apply IH; lia.
Qed.

Lemma broadcast_same_length {A B C : Type} (f : A -> B -> C) (a : list A) (b : list B) :
  length a = length b -> broadcast f a b = Ok (zip_with f a b).
Proof. intros H. unfold broadcast. now rewrite H, Nat.eqb_refl. Qed.

(** ** The projection *)

Local Open Scope R_scope.

Ltac same_length :=
  repeat first [rewrite length_zip_with | rewrite length_map
               | rewrite length_np_repeat | rewrite length_np_tile];
  repeat match goal with H : well_shaped _ |- _ => destruct H end;
  lia.

Lemma project_well_shaped (raw : raw_arrays) :
  well_shaped raw ->
  project raw
  = Ok (projected_lon raw, projected_lat raw, projected_alt raw,
        cells (raw_ref raw), np_repeat (raw_time raw) (num_row (raw_ref raw))).
Proof.
  intros Hws. unfold project, down_vector, np_multiply, np_add, np_divide.
  repeat (rewrite broadcast_same_length by same_length; cbn [mbind result_bind]).
  reflexivity.
Qed.

Lemma length_projected (raw : raw_arrays) :
  well_shaped raw ->
  let n := (num_col (raw_ref raw) * num_row (raw_ref raw))%nat in
  length (projected_lon raw) = n /\ length (projected_lat raw) = n /\
  length (projected_alt raw) = n /\
  length (np_repeat (raw_time raw) (num_row (raw_ref raw))) = n.
Proof.
  intros Hws n. subst n. unfold projected_lon, projected_lat, projected_alt.
  repeat split; same_length.
Qed.

Lemma lookup_map {A B : Type} (f : A -> B) (l : list A) (i : nat) :
  map f l !! i = f <$> (l !! i).
Proof.
  revert i. induction l as [|x l IH]; intros [|i]; cbn; try reflexivity. apply IH.
Qed.

Lemma down_vector_nadir : (down_x 0 0 0, down_y 0 0 0, down_z 0 0 0) = (0, 0, -1).
Proof.
  unfold down_x, down_y, down_z. rewrite sin_0, cos_0.
  repeat f_equal; ring.
Qed.

(** The flattened index [i * num_row + j] of a well-shaped granule. *)
Lemma projected_lookup (raw : raw_arrays) (i j : nat) (t : Z)
    (lon lat alt r p h rng : R) :
  well_shaped raw ->
  raw_time raw !! i = Some t -> raw_lon raw !! i = Some lon ->
  raw_lat raw !! i = Some lat -> raw_alt raw !! i = Some alt ->
  raw_roll raw !! i = Some r -> raw_pitch raw !! i = Some p ->
  raw_head raw !! i = Some h -> raw_range raw !! j = Some rng ->
  let k := (i * num_row (raw_ref raw) + j)%nat in
  projected_lon raw !! k
  = Some (lon - rng * down_x r p h / (111000 * cos (lat * PI / 180))) /\
  projected_lat raw !! k = Some (lat - rng * down_y r p h / 111000) /\
  projected_alt raw !! k = Some (alt + rng * down_z r p h) /\
  np_repeat (raw_time raw) (num_row (raw_ref raw)) !! k = Some t.
Proof.
  intros Hws Ht Hlon Hlat Halt Hr Hp Hh Hrng k.
  assert (Hj : (j < num_row (raw_ref raw))%nat).
  { rewrite <- (ws_range _ Hws). eauto using lookup_lt_Some. }
  assert (Hi : (i < num_col (raw_ref raw))%nat).
  { rewrite <- (ws_lon _ Hws). eauto using lookup_lt_Some. }
  assert (Hk : np_tile (raw_range raw) (num_col (raw_ref raw)) !! k = Some rng).
  { subst k. rewrite <- (ws_range _ Hws), lookup_np_tile; auto.
    now rewrite (ws_range _ Hws). }
  unfold projected_lon, projected_lat, projected_alt.
  repeat first [rewrite lookup_zip_with | rewrite lookup_map].
  subst k. rewrite !lookup_np_repeat by assumption.
  rewrite Hk, Ht, Hlon, Hlat, Halt, Hr, Hp, Hh. cbn.
  unfold down_x, down_y, down_z, Rdiv.
  repeat split; f_equal; ring.
Qed.

(** C5. On arrays whose shapes agree, [project] returns, and at the
    flattened index [i * num_row + j] of along-track sample [i] and range
    bin [j] the projected longitude is [lon - range * x / (111000 *
    cos (lat * PI / 180))], the projected latitude [lat - range * y /
    111000] and the projected altitude [alt + range * z], where
    [(x, y, z)] is the down-vector of the sample's roll, pitch and heading
    in radians; the reflectivity and time at that index are those of cell
    [(i, j)] and of sample [i].  At roll = pitch = heading = 0 the
    down-vector is [(0, 0, -1)]. *)
Theorem projection_formulas (raw : raw_arrays) :
  well_shaped raw ->
  (exists lon' lat' alt' ref' time',
      project raw = Ok (lon', lat', alt', ref', time') /\
      ref' = cells (raw_ref raw) /\
      forall (i j : nat) (t : Z) (lon lat alt r p h rng : R),
        raw_time raw !! i = Some t ->
        raw_lon raw !! i = Some lon ->
        raw_lat raw !! i = Some lat ->
        raw_alt raw !! i = Some alt ->
        raw_roll raw !! i = Some r ->
        raw_pitch raw !! i = Some p ->
        raw_head raw !! i = Some h ->
        raw_range raw !! j = Some rng ->
        let k := (i * num_row (raw_ref raw) + j)%nat in
        let x := sin r * cos h + cos r * sin p * sin h in
        let y := - sin r * sin h + cos r * sin p * cos h in
        let z := - cos r * cos p in
        lon' !! k = Some (lon - rng * x / (111000 * cos (lat * PI / 180))) /\
        lat' !! k = Some (lat - rng * y / 111000) /\
        alt' !! k = Some (alt + rng * z) /\
        time' !! k = Some t) /\
  down_vector [0] [0] [0] = Ok ([0], [0], [-1]).
Proof.
  intros Hws. split.
  - eexists _, _, _, _, _. split; [apply (project_well_shaped raw Hws)|].
    split; [reflexivity|].
    intros i j t lon lat alt r p h rng Ht Hlon Hlat Halt Hr Hp Hh Hrng k x y z.
    exact (projected_lookup raw i j t lon lat alt r p h rng Hws
             Ht Hlon Hlat Halt Hr Hp Hh Hrng).
  - unfold down_vector, np_multiply, np_add. cbn.
    rewrite sin_0, cos_0. repeat f_equal; ring.
Qed.

(** ** Sorting and filtering *)

Lemma take_inv {A : Type} (a : list A) (idx : list nat) (r : list A) :
  take a idx = Ok r -> in_range a idx /\ r = gather a idx.
Proof.
  revert r. induction idx as [|i idx IH]; intros r; cbn [take].
  - intros [= <-]. split; [constructor|reflexivity].
  - destruct (a !! i) as [x|] eqn:E; [|discriminate].
    destruct (take a idx) as [r'|e]; [|discriminate]. cbn. intros [= <-].
    destruct (IH r' eq_refl) as [Hr ->]. split.
    + constructor; [eauto using lookup_lt_Some|assumption].
    + unfold gather. cbn. now rewrite E.
Qed.

Lemma take_in_range {A : Type} (a : list A) (idx : list nat) :
  in_range a idx -> take a idx = Ok (gather a idx).
Proof.
  induction 1 as [|i idx Hi _ IH]; [reflexivity|].
  cbn [take]. destruct (lookup_lt_is_Some_2 a i Hi) as [x E].
  rewrite E, IH. unfold gather. cbn. now rewrite E.
Qed.

Lemma take_out_of_range {A : Type} (a : list A) (idx : list nat) :
  ~ in_range a idx -> exists msg, take a idx = Raise (IndexError msg).
Proof.
  induction idx as [|i idx IH]; intros H.
  - destruct H. constructor.
  - cbn [take]. destruct (a !! i) as [x|] eqn:E; [|eauto].
    destruct IH as [msg ->]; [|cbn; eauto].
    intros Hr. apply H. constructor; [eauto using lookup_lt_Some|assumption].
Qed.

Lemma length_gather {A : Type} (a : list A) (idx : list nat) :
  in_range a idx -> length (gather a idx) = length idx.
Proof.
  induction 1 as [|i idx Hi _ IH]; [reflexivity|].
  unfold gather in *. cbn. destruct (lookup_lt_is_Some_2 a i Hi) as [x ->].
  cbn. now rewrite IH.
Qed.

Lemma in_range_filter {A : Type} (a : list A) (f : nat -> bool) (idx : list nat) :
  in_range a idx -> in_range a (List.filter f idx).
Proof.
  unfold in_range. rewrite !List.Forall_forall. intros H i Hi.
  apply List.filter_In in Hi. now apply H.
Qed.

Lemma gather_lookup {A : Type} (a : list A) (idx : list nat) (n i : nat) :
  in_range a idx -> idx !! n = Some i -> gather a idx !! n = a !! i.
Proof.
  intros H. revert n. induction H as [|j idx Hj _ IH]; intros n; [discriminate|].
  unfold gather in *. cbn. destruct (lookup_lt_is_Some_2 a j Hj) as [x E].
  rewrite E. destruct n as [|n]; cbn.
  - intros [= ->]. now rewrite E.
  - apply IH.
Qed.

(** The boolean mask of [convert] on gathered arrays. *)
Lemma mask_gather (ref : list cell) (alt : list R) (idx : list nat) :
  in_range ref idx -> in_range alt idx ->
  zip_with andb (map np_isfinite (gather ref idx))
                (map (fun a => Rgtb a 0) (gather alt idx))
  = map (valid ref alt) idx.
Proof.
  intros Hr. induction Hr as [|i idx Hi _ IH]; intros Ha; [reflexivity|].
  inversion Ha as [|? ? Hi' Ha']; subst.
  unfold gather, valid in *. cbn.
  destruct (lookup_lt_is_Some_2 ref i Hi) as [c ->].
  destruct (lookup_lt_is_Some_2 alt i Hi') as [a ->].
  cbn. now rewrite IH.
Qed.

(** Boolean indexing of a gathered array gathers the selected indices. *)
Lemma compress_gather {A : Type} (a : list A) (f : nat -> bool) (idx : list nat) :
  in_range a idx ->
  compress (gather a idx) (map f idx) = Ok (gather a (List.filter f idx)).
Proof.
  intros H. unfold compress.
  rewrite length_gather, length_map, Nat.eqb_refl by assumption. f_equal.
  induction H as [|i idx Hi _ IH]; [reflexivity|].
  unfold gather in *. cbn. destruct (lookup_lt_is_Some_2 a i Hi) as [x E].
  rewrite E. cbn. destruct (f i); cbn; rewrite ?E; cbn; now rewrite IH.
Qed.

Section Sorting.

Variable argsort : list Z -> list nat.

(** [convert] after the projection: every array is indexed by
    [sort_idx], then by the mask. *)
Lemma convert_eq (granule : CampaignGranule) (raw : raw_arrays)
    (lon lat alt : list R) (ref : list cell) (time : list Z) :
  load granule = Ok raw ->
  project raw = Ok (lon, lat, alt, ref, time) ->
  in_range lon (argsort time) -> in_range lat (argsort time) ->
  in_range alt (argsort time) -> in_range ref (argsort time) ->
  in_range time (argsort time) ->
  convert argsort granule
  = Ok (cloud granule (lon, lat, alt, ref, time)
          (List.filter (valid ref alt) (argsort time))).
Proof.
  intros Hl Hp Hlon Hlat Halt Href Htime. unfold convert.
  rewrite Hl. cbn [mbind result_bind]. rewrite Hp. cbn [mbind result_bind].
  rewrite !take_in_range by assumption. cbn [mbind result_bind].
  rewrite broadcast_same_length
    by (now rewrite !length_map, !length_gather by assumption).
  cbn [mbind result_bind]. rewrite mask_gather by assumption.
  rewrite !compress_gather by assumption. reflexivity.
Qed.

(** Conversely, a returned cloud has that form. *)
Lemma convert_inv (granule : CampaignGranule) (pc : PointCloud) :
  convert argsort granule = Ok pc ->
  exists raw lon lat alt ref time,
    load granule = Ok raw /\
    project raw = Ok (lon, lat, alt, ref, time) /\
    (in_range lon (argsort time) /\ in_range lat (argsort time) /\
     in_range alt (argsort time) /\ in_range ref (argsort time) /\
     in_range time (argsort time)) /\
    pc = cloud granule (lon, lat, alt, ref, time)
           (List.filter (valid ref alt) (argsort time)).
Proof.
  intros H. pose proof H as H0. unfold convert in H.
  destruct (load granule) as [raw|e] eqn:Hl; [|discriminate].
  cbn [mbind result_bind] in H.
  destruct (project raw) as [[[[[lon lat] alt] ref] time]|e] eqn:Hp; [|discriminate].
  cbn [mbind result_bind] in H.
  destruct (take lon _) as [lon'|e] eqn:E1; [|discriminate].
  cbn [mbind result_bind] in H.
  destruct (take lat _) as [lat'|e] eqn:E2; [|discriminate].
  cbn [mbind result_bind] in H.
  destruct (take alt _) as [alt'|e] eqn:E3; [|discriminate].
  cbn [mbind result_bind] in H.
  destruct (take ref _) as [ref'|e] eqn:E4; [|discriminate].
  cbn [mbind result_bind] in H.
  destruct (take time _) as [time'|e] eqn:E5; [|discriminate].
  apply take_inv in E1 as [H1 _], E2 as [H2 _], E3 as [H3 _], E4 as [H4 _],
        E5 as [H5 _].
  exists raw, lon, lat, alt, ref, time. repeat split; try assumption.
  rewrite (convert_eq _ _ _ _ _ _ _ Hl Hp H1 H2 H3 H4 H5) in H0. congruence.
Qed.

End Sorting.

Lemma length_filter_Permutation {A : Type} (f : A -> bool) (l l' : list A) :
  Permutation l l' -> length (List.filter f l) = length (List.filter f l').
Proof.
  induction 1 as [|x l l' _ IH|x y l|l l' l'' _ IH1 _ IH2]; cbn.
  - reflexivity.
  - destruct (f x); cbn; congruence.
  - destruct (f x), (f y); reflexivity.
  - congruence.
Qed.

Lemma filter_all_true {A : Type} (f : A -> bool) (l : list A) :
  (forall x, In x l -> f x = true) -> List.filter f l = l.
Proof.
  induction l as [|x l IH]; intros H; [reflexivity|]. cbn.
  rewrite (H x) by now left. f_equal. apply IH. intros y Hy. apply H. now right.
Qed.

(** One element fails the test, all the others pass it. *)
Lemma length_filter_one_false {A : Type} (f : A -> bool) (l : list A) (k : A) :
  List.NoDup l -> In k l -> f k = false ->
  (forall x, In x l -> x <> k -> f x = true) ->
  length (List.filter f l) = (length l - 1)%nat.
Proof.
  induction 1 as [|x l Hx Hnd IH]; intros Hk Hf Hothers; [destruct Hk|].
  cbn. destruct Hk as [->|Hk].
  - rewrite Hf. rewrite filter_all_true; [lia|].
    intros y Hy. apply Hothers; [now right|]. intros ->. contradiction.
  - rewrite (Hothers x) by first [now left | intros ->; contradiction].
    cbn. rewrite IH; auto.
    + destruct l; [destruct Hk|cbn; lia].
    + intros y Hy. apply Hothers. now right.
Qed.

Lemma in_range_Permutation {A : Type} (a : list A) (idx : list nat) (n : nat) :
  Permutation idx (seq 0 n) -> (n <= length a)%nat -> in_range a idx.
Proof.
  intros Hp Hn. unfold in_range. apply List.Forall_forall. intros i Hi.
  apply (Permutation_in _ Hp), in_seq in Hi. lia.
Qed.

Lemma Rgtb_true (a b : R) : Rgtb a b = true <-> a > b.
Proof. unfold Rgtb. destruct (Rlt_dec b a); split; auto; discriminate. Qed.

Lemma valid_true (ref : list cell) (alt : list R) (i : nat) :
  valid ref alt i = true <->
  exists c a, ref !! i = Some c /\ alt !! i = Some a /\ np_isfinite c = true /\ a > 0.
Proof.
  unfold valid. destruct (ref !! i) as [c|], (alt !! i) as [a|];
    try (split; [discriminate|intros (? & ? & ? & ? & _); discriminate]).
  rewrite andb_true_iff, Rgtb_true. split.
  - intros [? ?]. eauto 6.
  - intros (? & ? & [= <-] & [= <-] & ? & ?). auto.
Qed.

Lemma gather_Forall {A : Type} (P : A -> Prop) (a : list A) (idx : list nat) :
  (forall i x, In i idx -> a !! i = Some x -> P x) -> Forall P (gather a idx).
Proof.
  induction idx as [|i idx IH]; intros H; [constructor|].
  unfold gather in *. cbn. destruct (a !! i) as [x|] eqn:E; cbn.
  - constructor; [apply (H i); auto; now left|]. apply IH. intros j y Hj. apply H. now right.
  - apply IH. intros j y Hj. apply H. now right.
Qed.

Section Invariants.

Variable argsort : list Z -> list nat.

(** C3. Every point cloud that [convert] returns has five sequences of
    one length, only finite reflectivities and only positive altitudes;
    its [n]-th point is, in all five sequences, the projected sample of
    one and the same flattened index, and the indices kept are those of
    [sort_idx] that pass the test, in order: failing samples are left
    out, none is replaced.  When [argsort] returns a permutation of the
    indices, a well-shaped grid with exactly one NaN cell, the other
    cells finite and all corrected altitudes positive gives a cloud with
    one point less than the grid has cells: 3 for a 2 x 2 grid. *)
Theorem convert_invariants :
  (forall granule pc,
      convert argsort granule = Ok pc ->
      (length (pc_lat pc) = length (pc_time pc) /\
       length (pc_lon pc) = length (pc_time pc) /\
       length (pc_alt pc) = length (pc_time pc) /\
       length (pc_ref pc) = length (pc_time pc)) /\
      Forall (fun c => np_isfinite c = true) (pc_ref pc) /\
      Forall (fun a => a > 0) (pc_alt pc) /\
      exists raw lon lat alt ref time,
        load granule = Ok raw /\
        project raw = Ok (lon, lat, alt, ref, time) /\
        let kept := List.filter (valid ref alt) (argsort time) in
        length (pc_time pc) = length kept /\
        forall n i, kept !! n = Some i ->
          pc_lon pc !! n = lon !! i /\ pc_lat pc !! n = lat !! i /\
          pc_alt pc !! n = alt !! i /\ pc_ref pc !! n = ref !! i /\
          pc_time pc !! n = time !! i) /\
  (forall granule raw k,
      load granule = Ok raw ->
      well_shaped raw ->
      Permutation (argsort (np_repeat (raw_time raw) (num_row (raw_ref raw))))
                  (seq 0 (num_col (raw_ref raw) * num_row (raw_ref raw))) ->
      cells (raw_ref raw) !! k = Some NaN ->
      (forall k' c, k' <> k -> cells (raw_ref raw) !! k' = Some c ->
                    np_isfinite c = true) ->
      Forall (fun a => a > 0) (projected_alt raw) ->
      exists pc,
        convert argsort granule = Ok pc /\
        length (pc_ref pc)
        = (num_col (raw_ref raw) * num_row (raw_ref raw) - 1)%nat /\
        (num_col (raw_ref raw) = 2%nat -> num_row (raw_ref raw) = 2%nat ->
         length (pc_ref pc) = 3%nat)).
Proof.
  split.
  - intros granule pc H.
    apply convert_inv in H
      as (raw & lon & lat & alt & ref & time & Hl & Hp
          & (Hlon & Hlat & Halt & Href & Htime) & ->).
    set (kept := List.filter (valid ref alt) (argsort time)).
    assert (Hk : forall A (a : list A), in_range a (argsort time) -> in_range a kept)
      by (intros; now apply in_range_filter).
    cbn [cloud pc_lat pc_lon pc_alt pc_ref pc_time].
    rewrite !length_gather by auto.
    split; [auto|]. split; [|split].
    + apply gather_Forall. intros i c Hi Hc.
      apply List.filter_In in Hi as [_ Hv].
      apply valid_true in Hv as (c' & a & Hc' & _ & Hfin & _). congruence.
    + apply gather_Forall. intros i a Hi Ha.
      apply List.filter_In in Hi as [_ Hv].
      apply valid_true in Hv as (c & a' & _ & Ha' & _ & Hpos). congruence.
    + exists raw, lon, lat, alt, ref, time. split; [assumption|].
      split; [assumption|]. split; [reflexivity|].
      intros n i Hn. repeat split; apply gather_lookup; auto.
  - intros granule raw k Hl Hws Hperm Hnan Hfin Hpos.
    destruct (length_projected raw Hws) as (Llon & Llat & Lalt & Ltime).
    set (n := (num_col (raw_ref raw) * num_row (raw_ref raw))%nat) in *.
    set (time := np_repeat (raw_time raw) (num_row (raw_ref raw))) in *.
    assert (Hr : forall A (a : list A), length a = n -> in_range a (argsort time)).
    { intros A a Ha. apply in_range_Permutation with n; [assumption|lia]. }
    eexists. split.
    { apply (convert_eq argsort granule raw _ _ _ _ _ Hl (project_well_shaped raw Hws));
        apply Hr; auto. apply (ws_cells _ Hws). }
    cbn [cloud pc_ref].
    assert (E : length (gather (cells (raw_ref raw))
                          (List.filter (valid (cells (raw_ref raw)) (projected_alt raw))
                             (argsort time))) = (n - 1)%nat).
    { rewrite length_gather
        by (apply in_range_filter, Hr, (ws_cells _ Hws)).
      rewrite (length_filter_Permutation _ _ _ Hperm).
      rewrite (length_filter_one_false _ _ k).
      - now rewrite length_seq.
      - apply NoDup_ListNoDup, NoDup_seq.
      - apply in_seq. apply lookup_lt_Some in Hnan.
        rewrite (ws_cells _ Hws) in Hnan. fold n in Hnan. lia.
      - unfold valid. rewrite Hnan. now destruct (projected_alt raw !! k).
      - intros i Hi Hne. apply in_seq in Hi. apply valid_true.
        destruct (lookup_lt_is_Some_2 (cells (raw_ref raw)) i) as [c Hc];
          [rewrite (ws_cells _ Hws); fold n; lia|].
        destruct (lookup_lt_is_Some_2 (projected_alt raw) i) as [a Ha]; [lia|].
        exists c, a. repeat split; eauto.
        rewrite Forall_forall in Hpos. apply Hpos.
        apply list_elem_of_lookup. eauto. }
    split; [exact E|]. intros Hc Hw.
    etransitivity; [exact E|]. subst n. now rewrite Hc, Hw.
Qed.

End Invariants.

(** ** What is asked of [argsort] *)

Lemma insert_index_Permutation (before : Z -> Z -> bool) (a : list Z) (i : nat)
    (idx : list nat) :
  Permutation (insert_index before a i idx) (i :: idx).
Proof.
  induction idx as [|j idx IH]; cbn; [reflexivity|].
  destruct (before _ _); [reflexivity|].
  rewrite IH. apply perm_swap.
Qed.

Lemma argsort_by_Permutation (before : Z -> Z -> bool) (a : list Z) :
  Permutation (argsort_by before a) (seq 0 (length a)).
Proof.
  unfold argsort_by. induction (seq 0 (length a)) as [|i l IH]; cbn; [reflexivity|].
  rewrite insert_index_Permutation. now constructor.
Qed.

Lemma gather_total (a : list Z) (idx : list nat) :
  in_range a idx -> gather a idx = map (fun i => a !!! i) idx.
Proof.
  induction 1 as [|i idx Hi _ IH]; [reflexivity|].
  unfold gather in *. cbn. destruct (lookup_lt_is_Some_2 a i Hi) as [x E].
  rewrite E. cbn. rewrite IH. f_equal. symmetry.
  now apply list_lookup_total_correct.
Qed.

Lemma Sorted_map_key (a : list Z) (idx : list nat) :
  Sorted (key_le a) idx -> Sorted Z.le (map (fun i => a !!! i) idx).
Proof.
  induction 1 as [|i idx Hs IH Hd]; cbn; constructor; [assumption|].
  destruct Hd; constructor. assumption.
Qed.

Section Insertion.

Variable before : Z -> Z -> bool.
Hypothesis before_le : forall x y, before x y = true -> (x <= y)%Z.
Hypothesis not_before_ge : forall x y, before x y = false -> (y <= x)%Z.

Lemma insert_index_Sorted (a : list Z) (i : nat) (idx : list nat) :
  Sorted (key_le a) idx -> Sorted (key_le a) (insert_index before a i idx).
Proof.
  induction 1 as [|j idx Hs IH Hd]; cbn; [repeat constructor|].
  destruct (before (a !!! i) (a !!! j)) eqn:E.
  - apply before_le in E. constructor; [now constructor|now constructor].
  - apply not_before_ge in E. constructor; [assumption|].
    destruct idx as [|j' idx]; cbn.
    + constructor. exact E.
    + inversion Hd; subst. destruct (before (a !!! i) (a !!! j'));
        constructor; assumption.
Qed.

Lemma argsort_by_sorts : sorts (argsort_by before).
Proof.
  intros a. split; [apply argsort_by_Permutation|].
  rewrite gather_total
    by (apply in_range_Permutation with (length a);
        [apply argsort_by_Permutation|lia]).
  apply Sorted_map_key. unfold argsort_by.
  induction (seq 0 (length a)) as [|i l IH]; cbn; [constructor|].
  now apply insert_index_Sorted.
Qed.

End Insertion.

Lemma stable_argsort_Permutation (a : list Z) :
  Permutation (stable_argsort a) (seq 0 (length a)).
Proof. apply argsort_by_Permutation. Qed.

Lemma stable_argsort_sorts : sorts stable_argsort.
Proof. apply argsort_by_sorts; intros x y; lia. Qed.

(** Sorting does not say which of two equal values comes first: an
    [argsort] can satisfy [sorts] and reverse them. *)
Lemma reversing_argsort_sorts :
  sorts reversing_argsort /\ reversing_argsort [0; 0]%Z = [1; 0]%nat.
Proof. split; [apply argsort_by_sorts; intros x y; lia|reflexivity]. Qed.

Lemma gather_filter_Forall {A : Type} (P : A -> Prop) (a : list A)
    (f : nat -> bool) (idx : list nat) :
  Forall P (gather a idx) -> Forall P (gather a (List.filter f idx)).
Proof.
  induction idx as [|i idx IH]; [auto|]. unfold gather in *. cbn.
  destruct (a !! i) as [x|] eqn:E.
  - intros H. inversion H; subst.
    destruct (f i); cbn; rewrite ?E; [constructor|]; auto.
  - intros H. destruct (f i); cbn; rewrite ?E; auto.
Qed.

(** Leaving entries out keeps a sequence sorted. *)
Lemma gather_filter_sorted (a : list Z) (f : nat -> bool) (idx : list nat) :
  StronglySorted Z.le (gather a idx) ->
  StronglySorted Z.le (gather a (List.filter f idx)).
Proof.
  induction idx as [|i idx IH]; [auto|].
  change (gather a (i :: idx))
    with (match a !! i with Some x => x :: gather a idx | None => gather a idx end).
  cbn [List.filter]. destruct (a !! i) as [x|] eqn:E.
  - intros H. inversion H as [|? ? Hs Hf]; subst.
    destruct (f i); [|auto].
    change (gather a (i :: List.filter f idx))
      with (match a !! i with
            | Some x => x :: gather a (List.filter f idx)
            | None => gather a (List.filter f idx)
            end).
    rewrite E. constructor; [auto|]. now apply gather_filter_Forall.
  - intros H. destruct (f i); [|auto].
    change (gather a (i :: List.filter f idx))
      with (match a !! i with
            | Some x => x :: gather a (List.filter f idx)
            | None => gather a (List.filter f idx)
            end).
    rewrite E. auto.
Qed.

Lemma convert_time_sorted (argsort : list Z -> list nat) (granule : CampaignGranule)
    (pc : PointCloud) :
  sorts argsort -> convert argsort granule = Ok pc -> StronglySorted Z.le (pc_time pc).
Proof.
  intros Hs H.
  apply convert_inv in H
    as (raw & lon & lat & alt & ref & time & _ & _ & _ & ->).
  cbn [cloud pc_time]. apply gather_filter_sorted.
  apply Sorted_StronglySorted; [intros x y z; apply Z.le_trans|apply Hs].
Qed.

(** ** Missing variables and mismatched shapes *)






Lemma load_Raise_kind (granule : CampaignGranule) (e : exn) :
  (exists u t, values (normal_time granule) = Datetime64 u t) ->
  load granule = Raise e ->
  (exists key, e = KeyError key) \/ (exists msg, e = AttributeError msg).
Proof.
  intros (u & t & Hv). unfold load, getitem, time_unix. rewrite Hv.
  cbn [mbind result_bind].
  repeat (match goal with
          | |- context [match ?x with _ => _ end] => destruct x
          end; cbn [mbind result_bind]);
    intros [= <-]; eauto.
Qed.





Section Errors.

Variable argsort : list Z -> list nat.


End Errors.

(** ** Granules that differ by the order of their samples *)

Lemma length_bind_uniform {A B : Type} (f : A -> list B) (n : nat) (l : list A) :
  Forall (fun x => length (f x) = n) l -> length (l ≫= f) = (length l * n)%nat.
Proof.
  induction 1 as [|x l Hx _ IH]; [reflexivity|].
  rewrite bind_cons, length_app, Hx, IH. cbn. lia.
Qed.

Lemma lookup_bind_uniform {A B : Type} (f : A -> list B) (n : nat) (l : list A)
    (i j : nat) :
  Forall (fun x => length (f x) = n) l -> (j < n)%nat ->
  (l ≫= f) !! (i * n + j)%nat = l !! i ≫= fun x => f x !! j.
Proof.
  intros H Hj. revert i. induction H as [|x l Hx _ IH]; intros i; [reflexivity|].
  rewrite bind_cons. destruct i as [|i].
  - now rewrite lookup_app_l by lia.
  - rewrite lookup_app_r by lia.
    replace (S i * n + j - length (f x))%nat with (i * n + j)%nat by lia.
    apply IH.
Qed.

Lemma raw_of_samples_well_shaped (rng : list R) (ss : list sample) :
  uniform_rows rng ss -> well_shaped (raw_of_samples rng ss).
Proof.
  intros H. constructor; cbn; rewrite ?length_map; try reflexivity.
  now apply length_bind_uniform.
Qed.

(** The flattened points of a granule are the points of its samples, one
    sample after the other. *)
Lemma flat_points_samples (rng : list R) (ss : list sample) :
  uniform_rows rng ss ->
  let raw := raw_of_samples rng ss in
  zip5 (projected_lat raw) (projected_lon raw) (projected_alt raw)
       (cells (raw_ref raw)) (np_repeat (raw_time raw) (num_row (raw_ref raw)))
  = ss ≫= project_sample rng.
Proof.
  intros Hu raw.
  pose proof (raw_of_samples_well_shaped rng ss Hu) as Hws. fold raw in Hws.
  destruct (length_projected raw Hws) as (Llon & Llat & Lalt & Ltime).
  assert (Hb : Forall (fun s => length (project_sample rng s) = length rng) ss).
  { eapply Forall_impl; [exact Hu|]. intros s Hs. unfold project_sample.
    rewrite length_zip_with, Hs. lia. }
  apply (list_eq_same_length _ _ (length ss * length rng)).
  - now apply length_bind_uniform.
  - unfold zip5. rewrite !length_zip_with, Llon, Llat, Lalt, Ltime, (ws_cells _ Hws).
    cbn. lia.
  - intros k x y Hk Hx Hy.
    assert (Hn : (0 < length rng)%nat) by (destruct (length rng); lia).
    pose proof (Nat.div_mod_eq k (length rng)) as Hdm.
    pose proof (Nat.mod_upper_bound k (length rng) ltac:(lia)) as Hj.
    set (i := (k / length rng)%nat) in *. set (j := (k mod length rng)%nat) in *.
    assert (Ek : k = (i * length rng + j)%nat) by lia.
    assert (Hi : (i < length ss)%nat) by nia.
    destruct (lookup_lt_is_Some_2 ss i Hi) as [s Hs].
    destruct (lookup_lt_is_Some_2 rng j Hj) as [r Hr].
    assert (Hlen : length (s_row s) = length rng).
    { unfold uniform_rows in Hu. rewrite Forall_forall in Hu.
      apply Hu. apply list_elem_of_lookup. eauto. }
    destruct (lookup_lt_is_Some_2 (s_row s) j ltac:(lia)) as [c Hc].
    rewrite Ek, (lookup_bind_uniform _ (length rng)), Hs in Hy by assumption.
    cbn in Hy. unfold project_sample in Hy.
    rewrite lookup_zip_with, Hr in Hy. cbn in Hy. rewrite Hc in Hy. cbn in Hy.
    injection Hy as <-.
    destruct (projected_lookup raw i j (s_time s) (s_lon s) (s_lat s) (s_alt s)
                (s_roll s) (s_pitch s) (s_head s) r Hws)
      as (Elon & Elat & Ealt & Etime);
      try (cbn; rewrite lookup_map, Hs; reflexivity); [exact Hr|].
    change (num_row (raw_ref raw)) with (length rng) in *.
    rewrite <- Ek in Elon, Elat, Ealt, Etime.
    assert (Ecell : cells (raw_ref raw) !! k = Some c).
    { cbn. rewrite Ek, (lookup_bind_uniform _ (length rng)) by assumption.
      rewrite Hs. exact Hc. }
    unfold zip5 in Hx. rewrite !lookup_zip_with in Hx.
    rewrite Elat, Elon, Ealt, Ecell, Etime in Hx. cbn in Hx. congruence.
Qed.

Lemma gather_cons {A : Type} (a : list A) (i : nat) (idx : list nat) :
  gather a (i :: idx)
  = match a !! i with Some x => x :: gather a idx | None => gather a idx end.
Proof. reflexivity. Qed.

Lemma gather_zip {A B : Type} (a : list A) (b : list B) (idx : list nat) :
  in_range a idx -> in_range b idx ->
  gather (zip a b) idx = zip (gather a idx) (gather b idx).
Proof.
  intros Ha. induction Ha as [|i idx Hi _ IH]; intros Hb; [reflexivity|].
  inversion Hb as [|? ? Hi' Hb']; subst.
  unfold gather in *. cbn.
  destruct (lookup_lt_is_Some_2 a i Hi) as [x Ex].
  destruct (lookup_lt_is_Some_2 b i Hi') as [y Ey].
  rewrite lookup_zip_with, Ex, Ey. cbn. now rewrite IH.
Qed.

Lemma in_range_zip {A B : Type} (a : list A) (b : list B) (idx : list nat) :
  in_range a idx -> in_range b idx -> in_range (zip a b) idx.
Proof.
  unfold in_range. rewrite !List.Forall_forall. intros Ha Hb i Hi.
  rewrite length_zip_with. specialize (Ha i Hi). specialize (Hb i Hi). lia.
Qed.

Lemma gather_seq {A : Type} (a b : list A) :
  gather (a ++ b) (seq (length a) (length b)) = b.
Proof.
  revert a. induction b as [|x b IH]; intros a; [reflexivity|].
  unfold gather in *. cbn.
  rewrite lookup_app_r, Nat.sub_diag by lia. cbn.
  specialize (IH (a ++ [x])%list).
  rewrite length_app, <- app_assoc in IH. cbn in IH.
  rewrite Nat.add_1_r in IH. now rewrite IH.
Qed.

Lemma gather_Permutation {A : Type} (a : list A) (idx : list nat) :
  Permutation idx (seq 0 (length a)) -> Permutation (gather a idx) a.
Proof.
  intros H. unfold gather. rewrite H. apply (reflexive_eq _ _ (gather_seq [] a)).
Qed.

Lemma List_filter_Permutation {A : Type} (f : A -> bool) (l l' : list A) :
  Permutation l l' -> Permutation (List.filter f l) (List.filter f l').
Proof.
  induction 1 as [|x l l' _ IH|x y l|l l' l'' _ IH1 _ IH2]; cbn.
  - reflexivity.
  - destruct (f x); [now constructor|assumption].
  - destruct (f x), (f y); try reflexivity. apply perm_swap.
  - now transitivity (List.filter f l').
Qed.

(** Filtering the indices by [valid] is filtering the points by
    [valid_point]. *)
Lemma gather_filter_valid (lat lon alt : list R) (ref : list cell) (time : list Z)
    (idx : list nat) :
  in_range lat idx -> in_range lon idx -> in_range alt idx ->
  in_range ref idx -> in_range time idx ->
  gather (zip5 lat lon alt ref time) (List.filter (valid ref alt) idx)
  = List.filter valid_point (gather (zip5 lat lon alt ref time) idx).
Proof.
  induction idx as [|i idx IH]; intros Hlat Hlon Halt Href Htime; [reflexivity|].
  unfold in_range in *.
  apply Forall_cons in Hlat as [H1 Hlat'], Hlon as [H2 Hlon'], Halt as [H3 Halt'],
        Href as [H4 Href'], Htime as [H5 Htime'].
  destruct (lookup_lt_is_Some_2 lat i H1) as [x1 E1].
  destruct (lookup_lt_is_Some_2 lon i H2) as [x2 E2].
  destruct (lookup_lt_is_Some_2 alt i H3) as [x3 E3].
  destruct (lookup_lt_is_Some_2 ref i H4) as [x4 E4].
  destruct (lookup_lt_is_Some_2 time i H5) as [x5 E5].
  assert (E : zip5 lat lon alt ref time !! i = Some ((x1, x2, x3, x4, x5) : point)).
  { unfold zip5. rewrite !lookup_zip_with, E1, E2, E3, E4, E5. reflexivity. }
  assert (Ev : valid ref alt i = valid_point (x1, x2, x3, x4, x5)).
  { unfold valid. now rewrite E4, E3. }
  specialize (IH Hlat' Hlon' Halt' Href' Htime').
  cbn [List.filter]. rewrite Ev.
  destruct (valid_point (x1, x2, x3, x4, x5)) eqn:Hv;
    rewrite !gather_cons, E; cbn [List.filter]; rewrite Hv; now rewrite IH.
Qed.

Lemma points_cloud (granule : CampaignGranule) (lat lon alt : list R)
    (ref : list cell) (time : list Z) (kept : list nat) :
  in_range lat kept -> in_range lon kept -> in_range alt kept ->
  in_range ref kept -> in_range time kept ->
  points (cloud granule (lon, lat, alt, ref, time) kept)
  = gather (zip5 lat lon alt ref time) kept.
Proof.
  intros. unfold points, zip5. cbn [cloud pc_lat pc_lon pc_alt pc_ref pc_time].
  rewrite !gather_zip; auto using in_range_zip.
Qed.

(** On a well-shaped granule [convert] returns, and its points are the
    valid flattened points, each once. *)
Lemma convert_points (argsort : list Z -> list nat) (granule : CampaignGranule)
    (raw : raw_arrays) :
  sorts argsort -> load granule = Ok raw -> well_shaped raw ->
  exists pc,
    convert argsort granule = Ok pc /\
    Permutation (points pc)
      (List.filter valid_point
         (zip5 (projected_lat raw) (projected_lon raw) (projected_alt raw)
            (cells (raw_ref raw))
            (np_repeat (raw_time raw) (num_row (raw_ref raw))))).
Proof.
  intros Hs Hl Hws.
  destruct (length_projected raw Hws) as (Llon & Llat & Lalt & Ltime).
  set (n := (num_col (raw_ref raw) * num_row (raw_ref raw))%nat) in *.
  set (time := np_repeat (raw_time raw) (num_row (raw_ref raw))) in *.
  destruct (Hs time) as [Hperm _]. rewrite Ltime in Hperm.
  assert (Hr : forall A (a : list A), length a = n -> in_range a (argsort time)).
  { intros A a Ha. apply in_range_Permutation with n; [assumption|lia]. }
  pose proof (ws_cells _ Hws) as Lref. fold n in Lref.
  eexists. split.
  { apply (convert_eq argsort granule raw _ _ _ _ _ Hl (project_well_shaped raw Hws));
      apply Hr; auto. }
  rewrite points_cloud by (apply in_range_filter, Hr; auto).
  rewrite gather_filter_valid by (apply Hr; auto).
  apply List_filter_Permutation, gather_Permutation.
  unfold zip5. fold time. rewrite !length_zip_with, Llat, Llon, Lalt, Lref, Ltime.
  now rewrite !Nat.min_id.
Qed.

(** Two orderings by time of the same points, no two of which share a
    time, are equal. *)
Lemma sorted_unique (l1 l2 : list point) :
  Permutation l1 l2 -> StronglySorted time_le l1 -> StronglySorted time_le l2 ->
  NoDup (l1.*2) -> l1 = l2.
Proof.
  revert l2. induction l1 as [|x l1 IH]; intros l2 Hp H1 H2 Hnd.
  - now apply Permutation_nil in Hp.
  - destruct l2 as [|y l2]; [now apply Permutation_sym, Permutation_nil in Hp|].
    inversion H1 as [|? ? Hs1 Hf1]; inversion H2 as [|? ? Hs2 Hf2]; subst.
    rewrite fmap_cons in Hnd. apply NoDup_cons in Hnd as [Hx Hnd].
    assert (Exy : x = y).
    { assert (Hy : y ∈ x :: l1) by (rewrite Hp; left).
      assert (Hx' : x ∈ y :: l2) by (rewrite <- Hp; left).
      apply elem_of_cons in Hy as [->|Hy]; [reflexivity|].
      apply elem_of_cons in Hx' as [->|Hx']; [reflexivity|].
      rewrite Forall_forall in Hf1, Hf2.
      specialize (Hf1 y Hy). specialize (Hf2 x Hx'). unfold time_le in *.
      exfalso. apply Hx. replace (x.2) with (y.2) by lia.
      now apply list_elem_of_fmap_2. }
    subst y. f_equal. apply IH; auto. now apply Permutation_cons_inv in Hp.
Qed.

Lemma NoDup_snd_filter (f : point -> bool) (l : list point) :
  NoDup (l.*2) -> NoDup ((List.filter f l).*2).
Proof.
  induction l as [|x l IH]; [auto|]. rewrite fmap_cons, NoDup_cons.
  intros [Hx Hnd]. cbn. destruct (f x); [|auto].
  rewrite fmap_cons, NoDup_cons. split; [|auto].
  intros Hin. apply Hx. apply list_elem_of_fmap in Hin as (p & -> & Hp).
  apply list_elem_of_fmap_2. apply list_elem_of_In in Hp.
  apply List.filter_In in Hp as [Hp _]. now apply list_elem_of_In.
Qed.

Lemma StronglySorted_points (pc : PointCloud) :
  length (pc_time pc) = length (zip (zip (zip (pc_lat pc) (pc_lon pc)) (pc_alt pc))
                                    (pc_ref pc)) ->
  StronglySorted Z.le (pc_time pc) -> StronglySorted time_le (points pc).
Proof.
  unfold points, zip5.
  generalize (zip (zip (zip (pc_lat pc) (pc_lon pc)) (pc_alt pc)) (pc_ref pc)).
  generalize (pc_time pc). intros t l Hlen Hs. revert l Hlen.
  induction Hs as [|z t Hs IH Hf]; intros [|x l] Hlen; try discriminate; cbn.
  - constructor.
  - constructor; [apply IH; cbn in Hlen; lia|].
    rewrite Forall_forall in Hf. rewrite Forall_forall.
    intros [x' z'] Hin. unfold time_le. cbn.
    apply Hf. apply elem_of_zip_r in Hin. exact Hin.
Qed.

Lemma convert_points_sorted (argsort : list Z -> list nat) (granule : CampaignGranule)
    (pc : PointCloud) :
  sorts argsort -> convert argsort granule = Ok pc ->
  StronglySorted time_le (points pc).
Proof.
  intros Hs H. apply StronglySorted_points; [|eapply convert_time_sorted; eauto].
  apply convert_inv in H
    as (raw & lon & lat & alt & ref & time & _ & _
        & (Hlon & Hlat & Halt & Href & Htime) & ->).
  cbn [cloud pc_lat pc_lon pc_alt pc_ref pc_time].
  rewrite !length_zip_with, !length_gather by now apply in_range_filter.
  lia.
Qed.

Section SortedOutput.

Variable argsort : list Z -> list nat.
Hypothesis argsort_sorts : sorts argsort.

(** C2, as the code has it.  With an [argsort] that returns a sorting
    permutation of the indices, the time sequence of every returned
    point cloud is non-decreasing.  Two granules made of the same
    samples in different along-track orders both convert, and their
    clouds hold the same points, each as often in one as in the other;
    the clouds are equal point for point when no two flattened times
    are equal.  Nothing is said of the order of points of equal time. *)
Theorem sorted_output :
  (forall granule pc,
      convert argsort granule = Ok pc -> StronglySorted Z.le (pc_time pc)) /\
  (forall g1 g2 rng ss1 ss2,
      load g1 = Ok (raw_of_samples rng ss1) ->
      load g2 = Ok (raw_of_samples rng ss2) ->
      uniform_rows rng ss1 ->
      Permutation ss1 ss2 ->
      exists pc1 pc2,
        convert argsort g1 = Ok pc1 /\
        convert argsort g2 = Ok pc2 /\
        Permutation (points pc1) (points pc2) /\
        (NoDup (np_repeat (map s_time ss1) (length rng)) ->
         points pc1 = points pc2)).
Proof.
  split; [intros; eapply convert_time_sorted; eauto|].
  intros g1 g2 rng ss1 ss2 Hl1 Hl2 Hu1 Hp.
  assert (Hu2 : uniform_rows rng ss2).
  { unfold uniform_rows in *. now rewrite <- Hp. }
  destruct (convert_points argsort g1 _ argsort_sorts Hl1
              (raw_of_samples_well_shaped _ _ Hu1)) as (pc1 & Hc1 & Hp1).
  destruct (convert_points argsort g2 _ argsort_sorts Hl2
              (raw_of_samples_well_shaped _ _ Hu2)) as (pc2 & Hc2 & Hp2).
  rewrite flat_points_samples in Hp1, Hp2 by assumption.
  assert (Hpp : Permutation (points pc1) (points pc2)).
  { rewrite Hp1, Hp2. apply List_filter_Permutation. now rewrite Hp. }
  exists pc1, pc2. repeat split; try assumption.
  intros Hnd. apply sorted_unique; try assumption;
    try (eapply convert_points_sorted; eauto).
  rewrite Hp1. apply NoDup_snd_filter.
  rewrite <- (flat_points_samples rng ss1 Hu1). unfold zip5.
  rewrite snd_zip; [exact Hnd|].
  pose proof (raw_of_samples_well_shaped _ _ Hu1) as Hws.
  destruct (length_projected _ Hws) as (Llon & Llat & Lalt & Ltime).
  rewrite !length_zip_with, Llon, Llat, Lalt, Ltime, (ws_cells _ Hws). lia.
Qed.

End SortedOutput.

(** ** Worked granules *)

Lemma nadir_zero : 0 * PI / 180 = 0.
Proof. unfold Rdiv. ring. Qed.

(** Looking straight down from [a] metres over a range of [r] metres. *)
Lemma nadir_alt_positive (r a : R) :
  a - r > 0 ->
  Rgtb (- cos (0 * PI / 180) * cos (0 * PI / 180) * r + a) 0 = true.
Proof. intros H. apply Rgtb_true. rewrite nadir_zero, cos_0. lra. Qed.

Lemma grid_2x2_load : load grid_2x2_granule = Ok grid_2x2_raw.
Proof. reflexivity. Qed.

Lemma grid_2x2_well_shaped : well_shaped grid_2x2_raw.
Proof. constructor; reflexivity. Qed.

Lemma grid_2x2_altitudes : Forall (fun a => a > 0) (projected_alt grid_2x2_raw).
Proof.
  unfold projected_alt, grid_2x2_raw, nadir. cbn.
  repeat constructor; rewrite nadir_zero, cos_0; lra.
Qed.

Lemma convert_invariants_witness :
  exists pc,
    convert stable_argsort grid_2x2_granule = Ok pc /\
    length (pc_ref pc) = 3%nat /\
    (length (pc_lat pc) = length (pc_time pc) /\
     length (pc_lon pc) = length (pc_time pc) /\
     length (pc_alt pc) = length (pc_time pc) /\
     length (pc_ref pc) = length (pc_time pc)) /\
    Forall (fun c => np_isfinite c = true) (pc_ref pc) /\
    Forall (fun a => a > 0) (pc_alt pc).
Proof.
  destruct (proj2 (convert_invariants stable_argsort)
              grid_2x2_granule grid_2x2_raw 1%nat grid_2x2_load grid_2x2_well_shaped
              (stable_argsort_Permutation [0; 0; 60; 60]%Z) eq_refl)
    as (pc & Hc & _ & H3).
  - intros [|[|[|[|k']]]] c Hne; cbn; intros [= <-]; try reflexivity. now destruct Hne.
  - exact grid_2x2_altitudes.
  - exists pc. split; [exact Hc|]. split; [now apply H3|].
    destruct (proj1 (convert_invariants stable_argsort) grid_2x2_granule pc Hc)
      as (Hlen & Hfin & Hpos & _).
    auto.
Defined.

Lemma projection_formulas_witness :
  well_shaped grid_2x2_raw /\
  exists lon' lat' alt' ref' time',
    project grid_2x2_raw = Ok (lon', lat', alt', ref', time') /\
    lon' !! 3%nat
    = Some (21 - 200 * (sin nadir * cos nadir + cos nadir * sin nadir * sin nadir)
                 / (111000 * cos (11 * PI / 180))) /\
    lat' !! 3%nat
    = Some (11 - 200 * (- sin nadir * sin nadir + cos nadir * sin nadir * cos nadir)
                 / 111000) /\
    alt' !! 3%nat = Some (1000 + 200 * (- cos nadir * cos nadir)) /\
    time' !! 3%nat = Some 60%Z.
Proof.
  split; [exact grid_2x2_well_shaped|].
  destruct (projection_formulas grid_2x2_raw grid_2x2_well_shaped)
    as [(lon' & lat' & alt' & ref' & time' & Hp & _ & H) _].
  exists lon', lat', alt', ref', time'. split; [exact Hp|].
  exact (H 1%nat 1%nat 60%Z 21 11 1000 nadir nadir nadir 200
           eq_refl eq_refl eq_refl eq_refl eq_refl eq_refl eq_refl eq_refl).
Defined.





Lemma tied_load_ab :
  load (tied_granule sample_a sample_b) = Ok (raw_of_samples [100] [sample_a; sample_b]).
Proof. reflexivity. Qed.

Lemma tied_load_ba :
  load (tied_granule sample_b sample_a) = Ok (raw_of_samples [100] [sample_b; sample_a]).
Proof. reflexivity. Qed.

(** No [argsort], stable or not, makes the output independent of the
    order of the samples: the two orders of [sample_a] and [sample_b] are
    granules that are permutations of each other in the time axis, and
    their point clouds differ. *)
Lemma tied_samples_differ :
  ~ exists argsort, sorts argsort /\ time_permutation_invariant argsort.
Proof.
  intros (argsort & Hs & Hinv).
  assert (Hu : uniform_rows [100] [sample_a; sample_b]) by (repeat constructor).
  assert (Hu' : uniform_rows [100] [sample_b; sample_a]) by (repeat constructor).
  pose proof (convert_eq argsort _ _ _ _ _ _ _ tied_load_ab
                (project_well_shaped _ (raw_of_samples_well_shaped _ _ Hu))) as Hab.
  pose proof (convert_eq argsort _ _ _ _ _ _ _ tied_load_ba
                (project_well_shaped _ (raw_of_samples_well_shaped _ _ Hu'))) as Hba.
  destruct (Hs [0; 0]%Z) as [Hperm _].
  change (np_repeat (raw_time (raw_of_samples [100] [sample_a; sample_b]))
            (num_row (raw_ref (raw_of_samples [100] [sample_a; sample_b]))))
    with [0; 0]%Z in Hab.
  change (np_repeat (raw_time (raw_of_samples [100] [sample_b; sample_a]))
            (num_row (raw_ref (raw_of_samples [100] [sample_b; sample_a]))))
    with [0; 0]%Z in Hba.
  assert (Hr : forall A (a : list A), length a = 2%nat -> in_range a (argsort [0; 0]%Z)).
  { intros A a Ha. apply in_range_Permutation with 2%nat; [exact Hperm|lia]. }
  specialize (Hab ltac:(now apply Hr) ltac:(now apply Hr) ltac:(now apply Hr)
                  ltac:(now apply Hr) ltac:(now apply Hr)).
  specialize (Hba ltac:(now apply Hr) ltac:(now apply Hr) ltac:(now apply Hr)
                  ltac:(now apply Hr) ltac:(now apply Hr)).
  specialize (Hinv _ _ _ _ _ _ _ tied_load_ab tied_load_ba Hu (perm_swap _ _ _) Hab Hba).
  apply (f_equal (map (fun p : point => p.1.2))) in Hinv.
  cbn in Hperm. apply Permutation_sym, Permutation_length_2_inv in Hperm as [E|E];
    rewrite E in Hinv; unfold points, zip5, sample_a, sample_b, nadir in Hinv;
    cbn in Hinv; rewrite (nadir_alt_positive 100 1000) in Hinv by lra;
    cbn in Hinv; injection Hinv; intros; lra.
Qed.

(** On an empty float sequence without [units] the resolver itself raises,
    with NumPy's error for the maximum of nothing: [normalize_timestamps]
    fails although a date hint is given, and with neither of its two
    errors. *)
Lemma normalize_empty_raises :
  normalize_timestamps (fun _ => None) empty_hours (Some (mkdate 2017 5 17))
  = Raise zero_size_error /\
  detect_time_var_type (fun _ => None) empty_hours = Raise zero_size_error /\
  zero_size_error <> missing_date_hint /\
  (forall t, zero_size_error <> unsupported_format t).
Proof.
  repeat split; try reflexivity; discriminate.
Qed.

Lemma normalize_failures_witness :
  detect_time_var_type (fun _ => None) rollover_hours
  = Ok (mkinfo hours_since_midnight None true) /\
  normalize_timestamps (fun _ => None) rollover_hours None = Raise missing_date_hint /\
  (exists ticks,
    normalize_timestamps (fun _ => None) rollover_hours (Some (mkdate 2017 5 17))
    = Ok (wrap rollover_hours ticks)) /\
  detect_time_var_type (fun _ => None) int8_hours
  = Ok (mkinfo hours_since_midnight None false) /\
  exists msg,
    normalize_timestamps (fun _ => None) int8_hours (Some (mkdate 2017 5 17))
    = Raise (OverflowError msg).
Proof.
  split; [reflexivity|]. split; [|split; [|split; [reflexivity|]]].
  - apply (proj1 (normalize_failures (fun _ => None) rollover_hours None)).
    exists (mkinfo hours_since_midnight None true).
    split; [reflexivity|]. split; [left; reflexivity|reflexivity].
  - apply (proj2 (proj2 (proj2 (normalize_failures (fun _ => None) rollover_hours
                                  (Some (mkdate 2017 5 17)))))
             (mkinfo hours_since_midnight None true) eq_refl).
    + intros [_ H]. discriminate.
    + discriminate.
    + intros [_ [[vals H] _]]. discriminate.
  - apply (proj1 (proj2 (proj2 (normalize_failures (fun _ => None) int8_hours
                                  (Some (mkdate 2017 5 17)))))).
    exists (mkinfo hours_since_midnight None false), [1; 2]%Q.
    split; [reflexivity|]. split; [reflexivity|]. split; [reflexivity|discriminate].
Defined.

Lemma sorted_output_witness :
  sorts stable_argsort /\
  (exists pc,
      convert stable_argsort grid_2x2_granule = Ok pc /\
      StronglySorted Z.le (pc_time pc)) /\
  (exists pc1 pc2,
      convert stable_argsort (tied_granule sample_a sample_b) = Ok pc1 /\
      convert stable_argsort (tied_granule sample_b sample_a) = Ok pc2 /\
      Permutation (points pc1) (points pc2)).
Proof.
  split; [exact stable_argsort_sorts|]. split.
  - destruct (convert_points stable_argsort grid_2x2_granule grid_2x2_raw
                stable_argsort_sorts grid_2x2_load grid_2x2_well_shaped) as (pc & Hc & _).
    exists pc. split; [exact Hc|].
    exact (proj1 (sorted_output stable_argsort stable_argsort_sorts)
             grid_2x2_granule pc Hc).
  - destruct (proj2 (sorted_output stable_argsort stable_argsort_sorts)
                (tied_granule sample_a sample_b) (tied_granule sample_b sample_a)
                [100%R] [sample_a; sample_b] [sample_b; sample_a]
                tied_load_ab tied_load_ba
                ltac:(repeat constructor) (perm_swap _ _ _))
      as (pc1 & pc2 & H1 & H2 & Hp & _).
    exists pc1, pc2. auto.
Defined.

Local Close Scope R_scope.

(** ** The rollover correction of [resolve_time_hours] *)

Lemma Qtrunc_comp (p q : Q) : (p == q)%Q -> Qtrunc p = Qtrunc q.
Proof.
  intros E. unfold Qtrunc.
  destruct (Qle_bool 0 p) eqn:Hp, (Qle_bool 0 q) eqn:Hq.
  - now rewrite E.
  - apply Qle_bool_iff in Hp. rewrite E in Hp. apply Qle_bool_iff in Hp. congruence.
  - apply Qle_bool_iff in Hq. rewrite <- E in Hq. apply Qle_bool_iff in Hq. congruence.
  - now rewrite E.
Qed.

Lemma Qtrunc_inject_Z (z : Z) : Qtrunc (inject_Z z) = z.
Proof.
  unfold Qtrunc. destruct (Qle_bool 0 (inject_Z z)); [apply Qfloor_Z|apply Qceiling_Z].
Qed.

Lemma wrap_int_small (k : num_kind) (s : itemsize) (z : Z) :
  0 <= z < 2 ^ (bits s - 1) -> wrap_int k s z = z.
Proof.
  intros H. destruct k, s; cbv [wrap_int bits] in *;
    first [rewrite Z.mod_small by lia; lia | rewrite Z.mod_small by lia; reflexivity].
Qed.

Lemma Qtrunc_whole_seconds (h : Z) : Qtrunc (inject_Z h * 3600) = h * 3600.
Proof.
  rewrite <- (Qtrunc_inject_Z (h * 3600)). apply Qtrunc_comp.
  now rewrite inject_Z_mult.
Qed.

(** On whole hours between 0 and 24 held in four or eight bytes, the
    product by 3600 is exact in every dtype. *)
Lemma times_3600_whole (k : num_kind) (s : itemsize) (hours : list Z) :
  s = size4 \/ s = size8 ->
  Forall (fun h => 0 <= h < 25) hours ->
  exists products,
    times_3600 k s (map inject_Z hours) = Ok products /\
    map Qtrunc products = map (fun h => h * 3600) hours.
Proof.
  intros Hs Hall.
  assert (Hint : map Qtrunc
                   (map (fun x => inject_Z (wrap_int k s (Qtrunc x * 3600)))
                        (map inject_Z hours))
                 = map (fun h => h * 3600) hours).
  { rewrite !List.map_map. apply List.map_ext_in. intros h Hin.
    rewrite Forall_forall in Hall. apply list_elem_of_In, Hall in Hin.
    rewrite !Qtrunc_inject_Z. apply wrap_int_small.
    destruct Hs; subst s; cbv [bits]; lia. }
  destruct k.
  - eexists. split; [reflexivity|].
    rewrite !List.map_map. apply List.map_ext. intros h. apply Qtrunc_whole_seconds.
  - destruct Hs; subst s; (eexists; split; [reflexivity|exact Hint]).
  - destruct Hs; subst s; (eexists; split; [reflexivity|exact Hint]).
Qed.

Lemma Qtrunc_le (p q : Q) : (p <= q)%Q -> Qtrunc p <= Qtrunc q.
Proof.
  intros H. unfold Qtrunc.
  destruct (Qle_bool 0 p) eqn:Hp, (Qle_bool 0 q) eqn:Hq.
  - now apply Qfloor_resp_le.
  - apply Qle_bool_iff in Hp. assert (Hq' : (0 <= q)%Q) by (eapply Qle_trans; eassumption).
    apply Qle_bool_iff in Hq'. congruence.
  - apply Qle_bool_iff in Hq.
    assert (Hp' : ~ (0 <= p)%Q) by (rewrite <- Qle_bool_iff; congruence).
    apply Qnot_le_lt in Hp'.
    transitivity 0.
    + change 0 with (Qceiling 0). apply Qceiling_resp_le. now apply Qlt_le_weak.
    + change 0 with (Qfloor 0). now apply Qfloor_resp_le.
  - now apply Qceiling_resp_le.
Qed.

Lemma Qfloor_unique (q : Q) (z : Z) :
  (inject_Z z <= q)%Q -> (q < inject_Z (z + 1))%Q -> Qfloor q = z.
Proof.
  intros Hle Hlt.
  pose proof (Qfloor_le q) as H1. pose proof (Qlt_floor q) as H2.
  assert (Ha : (inject_Z z < inject_Z (Qfloor q + 1))%Q)
    by (eapply Qle_lt_trans; eassumption).
  assert (Hb : (inject_Z (Qfloor q) < inject_Z (z + 1))%Q)
    by (eapply Qle_lt_trans; eassumption).
  rewrite <- Zlt_Qlt in Ha, Hb. lia.
Qed.

(** Cutting off the fraction commutes with adding whole seconds to a
    non-negative number. *)
Lemma Qtrunc_add_Z (q : Q) (n : Z) :
  (0 <= q)%Q -> 0 <= n -> Qtrunc (q + inject_Z n) = Qtrunc q + n.
Proof.
  intros Hq Hn.
  assert (Hn' : (0 <= inject_Z n)%Q) by (now rewrite Zle_Qle in Hn).
  assert (Hs : (0 <= q + inject_Z n)%Q)
    by exact (Qplus_le_compat 0 q 0 (inject_Z n) Hq Hn').
  unfold Qtrunc.
  apply Qle_bool_iff in Hs as ->. apply Qle_bool_iff in Hq as ->.
  apply Qfloor_unique.
  - rewrite inject_Z_plus. apply Qplus_le_compat; [apply Qfloor_le|apply Qle_refl].
  - rewrite <- Z.add_assoc, (Z.add_comm n 1), Z.add_assoc, inject_Z_plus.
    apply Qplus_lt_le_compat; [apply Qlt_floor|apply Qle_refl].
Qed.

Lemma lookup_repeat {A : Type} (x : A) (n i : nat) :
  (i < n)%nat -> repeat x n !! i = Some x.
Proof.
  revert i. induction n as [|n IH]; intros i Hi; [lia|].
  destruct i; [reflexivity|]. cbn. apply IH. lia.
Qed.

Lemma lookup_incr_from (k : nat) (a : list Z) (i : nat) :
  incr_from k a !! i = (fun x => if (k <=? i)%nat then x + 1 else x) <$> a !! i.
Proof. unfold incr_from. apply list_lookup_imap. Qed.

Lemma lookup_day_shifts (wrap_points : list nat) (init : list Z) (i : nat) :
  fold_left (fun ds wrap_index => incr_from (wrap_index + 1) ds) wrap_points init !! i
  = (fun x => x + Z.of_nat (length (List.filter (fun w => (w + 1 <=? i)%nat) wrap_points)))
    <$> init !! i.
Proof.
  revert init. induction wrap_points as [|w ws IH]; intros init; cbn [fold_left List.filter].
  - destruct (init !! i); cbn; f_equal; lia.
  - rewrite IH, lookup_incr_from.
    destruct (init !! i) as [x|]; cbn; [|reflexivity].
    f_equal. destruct (w + 1 <=? i)%nat; cbn [length]; lia.
Qed.

Lemma np_where_from_cons (k : nat) (b : bool) (m : list bool) :
  np_where_from k (b :: m) = ((if b then [k] else []) ++ np_where_from (S k) m)%list.
Proof. now destruct b. Qed.

Lemma np_where_from_ge (k : nat) (mask : list bool) :
  Forall (fun w => (k <= w)%nat) (np_where_from k mask).
Proof.
  revert k. induction mask as [|b m IH]; intros k; [constructor|].
  rewrite np_where_from_cons. apply Forall_app. split.
  - destruct b; repeat constructor.
  - eapply Forall_impl; [apply IH|]. cbn. lia.
Qed.

Lemma filter_none_below (k : nat) (l : list nat) :
  Forall (fun w => (k <= w)%nat) l -> List.filter (fun w => (w + 1 <=? k)%nat) l = [].
Proof.
  induction 1 as [|w l Hw _ IH]; [reflexivity|].
  cbn [List.filter]. destruct (Nat.leb_spec (w + 1) k); [lia|exact IH].
Qed.

Lemma count_np_where_from (k : nat) (mask : list bool) (i : nat) :
  length (List.filter (fun w => (w + 1 <=? k + i)%nat) (np_where_from k mask))
  = length (List.filter (fun b => b) (firstn i mask)).
Proof.
  revert k i. induction mask as [|b m IH]; intros k i.
  - now destruct i.
  - destruct i as [|i].
    + rewrite (filter_none_below (k + 0)); [reflexivity|].
      eapply Forall_impl; [apply (np_where_from_ge k (b :: m))|]. cbn. lia.
    + rewrite np_where_from_cons, List.filter_app, length_app.
      specialize (IH (S k) i). replace (S k + i)%nat with (k + S i)%nat in IH by lia.
      rewrite IH. cbn [firstn List.filter].
      destruct b; cbn [List.filter length]; [|reflexivity].
      now destruct (Nat.leb_spec (k + 1) (k + S i)); [|lia].
Qed.

Lemma count_np_where (mask : list bool) (i : nat) :
  length (List.filter (fun w => (w + 1 <=? i)%nat) (np_where mask))
  = length (List.filter (fun b => b) (firstn i mask)).
Proof. exact (count_np_where_from 0 mask i). Qed.

Lemma length_filter_map {A : Type} (f : A -> bool) (l : list A) :
  length (List.filter (fun b => b) (map f l)) = length (List.filter f l).
Proof. induction l as [|x l IH]; cbn; [reflexivity|]. destruct (f x); cbn; now rewrite IH. Qed.

Lemma steps_before_count (a : list Q) (i : nat) :
  length (List.filter (fun w => (w + 1 <=? i)%nat)
            (np_where (map (fun d => Qlt_bool d 0) (np_diff a))))
  = steps_before a i.
Proof.
  unfold steps_before. rewrite count_np_where, firstn_map. apply length_filter_map.
Qed.

Lemma steps_before_none (a : list Q) (i : nat) :
  np_where (map (fun d => Qlt_bool d 0) (np_diff a)) = [] -> steps_before a i = O.
Proof. intros E. now rewrite <- steps_before_count, E. Qed.

(** Sample [i] of the result of [resolve_time_hours] is the hour of the
    day moved forward by one day for every backward step met up to it. *)
Lemma resolve_time_hours_lookup (hr : list Q) (base_date : date) (i : nat) :
  resolve_time_hours hr base_date !! i
  = (fun h => midnight base_date
              + Qtrunc ((h + inject_Z (Z.of_nat (steps_before hr i) * 24)) * 3600))
    <$> hr !! i.
Proof.
  unfold resolve_time_hours.
  set (wrap_points := np_where (map (fun d => Qlt_bool d 0) (np_diff hr))).
  rewrite !list_lookup_fmap.
  destruct (0 <? length wrap_points)%nat eqn:Hw.
  - rewrite lookup_zip_with, lookup_day_shifts.
    destruct (hr !! i) as [h|] eqn:Hh; cbn; [|reflexivity].
    assert (Hi : (i < length hr)%nat) by (now apply lookup_lt_Some in Hh).
    rewrite lookup_repeat by exact Hi. cbn.
    subst wrap_points. now rewrite steps_before_count.
  - apply Nat.ltb_ge in Hw.
    assert (E : wrap_points = []) by (destruct wrap_points; [reflexivity|cbn in Hw; lia]).
    rewrite (steps_before_none hr i E).
    destruct (hr !! i) as [h|]; cbn; [|reflexivity].
    do 2 f_equal. apply Qtrunc_comp.
    change (inject_Z (Z.of_nat 0 * 24)) with 0%Q. ring.
Qed.

(** X1. [resolve_time_hours] keeps one timestamp per input hour, and
    timestamp [i] is midnight of the base date plus the hour of the day
    in whole seconds, moved forward by 24 hours for every backward step
    among the samples [0] to [i]. *)
Theorem resolve_time_hours_shifts (hr : list Q) (base_date : date) :
  length (resolve_time_hours hr base_date) = length hr /\
  forall i,
    resolve_time_hours hr base_date !! i
    = (fun h => midnight base_date
                + Qtrunc ((h + inject_Z (Z.of_nat (steps_before hr i) * 24)) * 3600))
      <$> hr !! i.
Proof.
  split; [|intros i; apply resolve_time_hours_lookup].
  apply Nat.le_antisymm.
  - destruct (Nat.le_gt_cases (length (resolve_time_hours hr base_date)) (length hr))
      as [H|H]; [exact H|].
    destruct (lookup_lt_is_Some_2 _ _ H) as [x Hx].
    rewrite resolve_time_hours_lookup, (lookup_ge_None_2 hr) in Hx by lia. discriminate.
  - destruct (Nat.le_gt_cases (length hr) (length (resolve_time_hours hr base_date)))
      as [H|H]; [exact H|].
    destruct (lookup_lt_is_Some_2 _ _ H) as [x Hx].
    pose proof (resolve_time_hours_lookup hr base_date
                  (length (resolve_time_hours hr base_date))) as E.
    rewrite Hx, lookup_ge_None_2 in E by lia. discriminate.
Qed.

Lemma lookup_np_diff (a : list Q) (i : nat) (x y : Q) :
  a !! i = Some x -> a !! S i = Some y -> np_diff a !! i = Some (y - x)%Q.
Proof.
  intros Hx Hy. destruct a as [|x0 t]; [discriminate|].
  unfold np_diff. rewrite lookup_zip_with.
  change ((x0 :: t) !! S i) with (t !! i) in Hy. rewrite Hy. cbn [mbind option_bind].
  now rewrite Hx.
Qed.

Lemma steps_before_S (a : list Q) (i : nat) (x y : Q) :
  a !! i = Some x -> a !! S i = Some y ->
  steps_before a (S i)
  = (steps_before a i + if Qlt_bool (y - x) 0 then 1 else 0)%nat.
Proof.
  intros Hx Hy. unfold steps_before.
  rewrite (take_S_r _ _ _ (lookup_np_diff a i x y Hx Hy)), List.filter_app, length_app.
  cbn [List.filter]. now destruct (Qlt_bool (y - x) 0).
Qed.

Lemma steps_before_no_wraparound (a : list Q) (i : nat) :
  has_wraparound a = false -> steps_before a i = O.
Proof.
  unfold has_wraparound, steps_before. intros Hw.
  assert (Hall : Forall (fun d => Qlt_bool d 0 = false) (np_diff a)).
  { apply Forall_forall. intros d Hin. apply list_elem_of_In in Hin.
    destruct (Qlt_bool d 0) eqn:E; [|reflexivity].
    assert (existsb (fun d => Qlt_bool d 0) (np_diff a) = true)
      by (apply existsb_exists; eauto).
    congruence. }
  apply (Forall_take _ i) in Hall.
  induction Hall as [|d l Hd _ IH]; [reflexivity|].
  cbn [List.filter]. now rewrite Hd.
Qed.

Lemma corrected_hours_step (x y : Q) (k : nat) :
  (0 <= y)%Q -> (x < 24)%Q ->
  ((x + inject_Z (Z.of_nat k * 24)) * 3600
   <= (y + inject_Z (Z.of_nat (k + if Qlt_bool (y - x) 0 then 1 else 0) * 24)) * 3600)%Q.
Proof.
  intros Hy Hx.
  destruct (Qlt_bool (y - x) 0) eqn:E.
  - replace (Z.of_nat (k + 1) * 24) with (Z.of_nat k * 24 + 24) by lia.
    rewrite inject_Z_plus. change (inject_Z 24) with 24%Q.
    generalize (inject_Z (Z.of_nat k * 24)). intros q. lra.
  - apply Qlt_bool_false in E. rewrite Nat.add_0_r.
    generalize (inject_Z (Z.of_nat k * 24)). intros q. lra.
Qed.

Lemma resolve_time_hours_step (hr : list Q) (base_date : date) (i : nat) (s t : Z) :
  hours_of_day hr ->
  resolve_time_hours hr base_date !! i = Some s ->
  resolve_time_hours hr base_date !! S i = Some t ->
  s <= t.
Proof.
  intros Hday Hs Ht. rewrite resolve_time_hours_lookup in Hs, Ht.
  destruct (hr !! i) as [x|] eqn:Hx; [|discriminate].
  destruct (hr !! S i) as [y|] eqn:Hy; [|discriminate].
  injection Hs as <-. injection Ht as <-.
  rewrite (steps_before_S hr i x y Hx Hy).
  unfold hours_of_day in Hday. rewrite Forall_lookup in Hday.
  destruct (Hday _ _ Hx) as [_ Hx24]. destruct (Hday _ _ Hy) as [Hy0 _].
  apply Z.add_le_mono_l, Qtrunc_le, corrected_hours_step; assumption.
Qed.

(** X2. On hours of the day, each in [[0, 24)], the timestamps returned
    by [resolve_time_hours] never step backward. *)
Theorem resolve_time_hours_monotone (hr : list Q) (base_date : date) :
  hours_of_day hr ->
  forall i j s t,
    (i <= j)%nat ->
    resolve_time_hours hr base_date !! i = Some s ->
    resolve_time_hours hr base_date !! j = Some t ->
    s <= t.
Proof.
  intros Hday i j s t Hij Hs. revert t.
  induction Hij as [|j Hij IH]; intros t Ht.
  - rewrite Hs in Ht. injection Ht as <-. lia.
  - destruct (lookup_lt_is_Some_2 (resolve_time_hours hr base_date) j) as [u Hu].
    { apply lookup_lt_Some in Ht. lia. }
    specialize (IH u Hu).
    pose proof (resolve_time_hours_step hr base_date j u t Hday Hu Ht). lia.
Qed.

Section Rollover.

Variable units_reference : string -> option (since_unit * Z).

(** X3. On a 1-D sequence of whole hours between 0 and 24, held as
    floats or signed integers of four or eight bytes and without a units
    reference, [normalize_timestamps] with a date hint returns midnight
    of the hint plus 3600 seconds per hour, and timestamp [i] is earlier
    than the one [resolve_time_hours] computes by exactly one day for
    every backward step among the samples [0] to [i]; the two agree on a
    sequence that never steps backward. *)
Theorem normalize_lags_resolve (time_array : DataArray) (k : num_kind) (s : itemsize)
    (hours : list Z) (units : string) (m : Q) (d : date) :
  values time_array = Numeric k s (map inject_Z hours) ->
  k = kind_f \/ k = kind_i ->
  s = size4 \/ s = size8 ->
  length (dims time_array) = 1%nat ->
  units_attr time_array = Ok units ->
  units_reference units = None ->
  np_max (map inject_Z hours) = Ok m ->
  (m < 25)%Q ->
  Forall (fun h => 0 <= h) hours ->
  normalize_timestamps units_reference time_array (Some d)
  = Ok (wrap time_array (map (fun h => midnight d + h * 3600) hours)) /\
  (forall i h,
     hours !! i = Some h ->
     resolve_time_hours (map inject_Z hours) d !! i
     = Some (midnight d + h * 3600
             + 86400 * Z.of_nat (steps_before (map inject_Z hours) i))) /\
  (has_wraparound (map inject_Z hours) = false ->
   resolve_time_hours (map inject_Z hours) d
   = map (fun h => midnight d + h * 3600) hours).
Proof.
  intros Hv Hk Hs Hdim Hu Hr Hm Hlt Hpos.
  assert (Hday : Forall (fun h => 0 <= h < 25) hours).
  { rewrite Forall_forall in Hpos. apply Forall_forall. intros h Hin.
    split; [now apply Hpos|].
    assert (Hle : (inject_Z h <= m)%Q).
    { apply (proj2 (np_max_spec _ _ Hm)), in_map, list_elem_of_In, Hin. }
    assert (Hh : (inject_Z h < 25)%Q) by (eapply Qle_lt_trans; eassumption).
    unfold Qlt in Hh. cbn in Hh. lia. }
  destruct (times_3600_whole k s hours Hs Hday) as (products & Hp & Hq).
  assert (Hlookup : forall i h,
            hours !! i = Some h ->
            resolve_time_hours (map inject_Z hours) d !! i
            = Some (midnight d + h * 3600
                    + 86400 * Z.of_nat (steps_before (map inject_Z hours) i))).
  { intros i h Hh. rewrite resolve_time_hours_lookup.
    rewrite list_lookup_fmap, Hh. cbn. f_equal. rewrite <- Z.add_assoc. f_equal.
    set (n := Z.of_nat (steps_before (map inject_Z hours) i)).
    rewrite <- (Qtrunc_inject_Z (h * 3600 + 86400 * n)). apply Qtrunc_comp.
    rewrite inject_Z_plus, !inject_Z_mult.
    change (inject_Z 86400) with 86400%Q. change (inject_Z 24) with 24%Q.
    change (inject_Z 3600) with 3600%Q.
    generalize (inject_Z n), (inject_Z h). intros q1 q2. ring. }
  split; [|split; [exact Hlookup|]].
  - rewrite (normalize_hours_pointwise units_reference time_array k s
               (map inject_Z hours) products units m d) by assumption.
    do 2 f_equal.
    rewrite <- (List.map_map Qtrunc (fun x => midnight d + x)), Hq.
    now rewrite List.map_map.
  - intros Hw. apply list_eq. intros i. rewrite list_lookup_fmap.
    destruct (hours !! i) as [h|] eqn:Hh.
    + rewrite (Hlookup i h Hh), steps_before_no_wraparound by exact Hw.
      cbn. f_equal. lia.
    + rewrite resolve_time_hours_lookup.
      now rewrite list_lookup_fmap, Hh.
Qed.

(** What [normalize_timestamps] returns is its input re-wrapped around
    one timestamp per value. *)
Lemma normalize_Ok_wrap (time_array out : DataArray) (date_hint : option date) :
  normalize_timestamps units_reference time_array date_hint = Ok out ->
  exists ticks, out = wrap time_array ticks /\
                length ticks = array_length (values time_array).
Proof.
  intros H. unfold normalize_timestamps in H.
  destruct (detect_time_var_type units_reference time_array) as [info|e];
    [|discriminate].
  cbn [mbind result_bind] in H.
  destruct (values time_array) as [u t|kd sz vals|].
  - injection H as <-. eexists. split; [reflexivity|]. apply length_map.
  - assert (Hlen : forall t delta,
              delta_seconds t (Numeric kd sz vals) = Ok delta ->
              length delta = length vals).
    { intros t delta Hd. unfold delta_seconds in Hd. destruct (mentions_hour t).
      - destruct (times_3600_result kd sz vals) as [[(p & Hp & Hl) _]|[Hp _]];
          rewrite Hp in Hd; [|discriminate].
        injection Hd as <-. now rewrite length_map.
      - injection Hd as <-. apply length_map. }
    destruct (type info), (base_time info), date_hint; try discriminate;
      (destruct (delta_seconds _ (Numeric kd sz vals)) as [delta|e] eqn:Hd;
       [|discriminate]);
      cbn [mbind result_bind] in H; injection H as <-;
      (eexists; split; [reflexivity|]);
      cbn [array_length]; rewrite length_map; eapply Hlen; exact Hd.
  - unfold delta_seconds in H.
    destruct (type info), (base_time info), date_hint; cbn in H; discriminate.
Qed.

(** X4. Whatever [normalize_timestamps] returns has the dimensions of
    its input, the attributes of its input with [normalized] set, and
    holds one [datetime64[s]] value per input value. *)
Theorem normalize_keeps_shape (time_array out : DataArray) (date_hint : option date) :
  normalize_timestamps units_reference time_array date_hint = Ok out ->
  dims out = dims time_array /\
  attrs out = <["normalized" := AttrBool true]> (attrs time_array) /\
  (forall key, key <> "normalized" -> attrs out !! key = attrs time_array !! key) /\
  exists ticks,
    values out = Datetime64 unit_s ticks /\
    length ticks = array_length (values time_array).
Proof.
  intros H. apply normalize_Ok_wrap in H as (ticks & -> & Hlen).
  cbn [wrap dims attrs values].
  repeat split; [|eauto].
  intros key Hkey. now rewrite lookup_insert_ne.
Qed.





End Rollover.

Lemma resolve_time_hours_monotone_witness :
  1494979200 + 86040 <= 1494979200 + 86400 + 360.
Proof.
  apply (resolve_time_hours_monotone [23.9; 0.1; 0.5]%Q (mkdate 2017 5 17)
           ltac:(repeat constructor; vm_compute; congruence) 0%nat 1%nat);
    [lia|reflexivity|reflexivity].
Defined.

Lemma normalize_lags_resolve_witness :
  normalize_timestamps (fun _ => None) whole_hours (Some (mkdate 2017 5 17))
  = Ok (wrap whole_hours
          (map (fun h => midnight (mkdate 2017 5 17) + h * 3600) [23; 0; 1])) /\
  (forall i h,
     [23; 0; 1] !! i = Some h ->
     resolve_time_hours (map inject_Z [23; 0; 1]) (mkdate 2017 5 17) !! i
     = Some (midnight (mkdate 2017 5 17) + h * 3600
             + 86400 * Z.of_nat (steps_before (map inject_Z [23; 0; 1]) i))) /\
  (has_wraparound (map inject_Z [23; 0; 1]) = false ->
   resolve_time_hours (map inject_Z [23; 0; 1]) (mkdate 2017 5 17)
   = map (fun h => midnight (mkdate 2017 5 17) + h * 3600) [23; 0; 1]).
Proof.
  apply (normalize_lags_resolve (fun _ => None) whole_hours kind_i size4
           [23; 0; 1] "" 23%Q (mkdate 2017 5 17));
    first [reflexivity | right; reflexivity | left; reflexivity
          | repeat constructor; lia].
Defined.

Lemma normalize_keeps_shape_witness :
  dims (wrap rollover_hours [1495065240; 1494979560; 1494981000]) = ["time"] /\
  attrs (wrap rollover_hours [1495065240; 1494979560; 1494981000])
  = <["normalized" := AttrBool true]> ∅ /\
  (forall key, key <> "normalized" ->
     attrs (wrap rollover_hours [1495065240; 1494979560; 1494981000]) !! key
     = (∅ : gmap string attr) !! key) /\
  exists ticks,
    values (wrap rollover_hours [1495065240; 1494979560; 1494981000])
    = Datetime64 unit_s ticks /\
    length ticks = 3%nat.
Proof.
  apply (normalize_keeps_shape (fun _ => None) rollover_hours
           (wrap rollover_hours [1495065240; 1494979560; 1494981000])
           (Some (mkdate 2017 5 17))).
  vm_compute. reflexivity.
Defined.



(** ** Dates that the hint extractor accepts *)

Lemma is_digit_val (c : ascii) : is_digit c = true -> 0 <= digit_val c <= 9.
Proof.
  unfold is_digit, digit_val. intros H. apply andb_true_iff in H as [H1 H2].
  apply N.leb_le in H1, H2. lia.
Qed.

(** [np.datetime64] on the dashed form of eight digits. *)
Lemma np_datetime64_digits8 (a b c d e f g h : ascii) :
  is_digit a = true -> is_digit b = true -> is_digit c = true -> is_digit d = true ->
  is_digit e = true -> is_digit f = true -> is_digit g = true -> is_digit h = true ->
  let r := date_of_digits a b c d e f g h in
  np_datetime64 (dash_ymd (string8 a b c d e f g h))
  = if (month r <? 1) || (12 <? month r) then
      Raise (ValueError "Month out of range in datetime string")
    else if (day r <? 1) || (days_per_month (is_leapyear (year r)) (month r) <? day r) then
      Raise (ValueError "Day out of range in datetime string")
    else Ok r.
Proof.
  intros Ha Hb Hc Hd He Hf Hg Hh r. subst r.
  unfold dash_ymd, slice, slice_from, string8, np_datetime64, date_of_digits.
  cbn [substring String.length Nat.sub]. cbv [String.append].
  cbn [negb read_number year month day].
  rewrite Ha. cbn [negb]. rewrite Hb, Hc, Hd.
  change (is_digit "-") with false. cbv iota.
  cbn [expect_char]. change (Ascii.eqb "-" "-") with true. cbv iota.
  cbv [mbind option_bind]. cbn [read_two_digits]. rewrite He, Hf. cbn [andb].
  destruct (_ || _); [reflexivity|].
  cbn [expect_char]. change (Ascii.eqb "-" "-") with true. cbv iota.
  cbv [mbind option_bind]. cbn [read_two_digits]. rewrite Hg, Hh. cbn [andb].
  destruct (_ || _); reflexivity.
Qed.

Lemma valid_date_digits8 (a b c d e f g h : ascii) (r : date) :
  is_digit a = true -> is_digit b = true -> is_digit c = true -> is_digit d = true ->
  is_digit e = true -> is_digit f = true -> is_digit g = true -> is_digit h = true ->
  valid_date (string8 a b c d e f g h) = Some r <->
  r = date_of_digits a b c d e f g h /\ calendar_date r.
Proof.
  intros Ha Hb Hc Hd He Hf Hg Hh. unfold valid_date.
  rewrite np_datetime64_digits8 by assumption. unfold calendar_date.
  set (r0 := date_of_digits a b c d e f g h).
  destruct ((month r0 <? 1) || _) eqn:Em.
  - split; [discriminate|]. intros [-> H].
    apply orb_true_iff in Em as [Em|Em]; [apply Z.ltb_lt in Em|apply Z.ltb_lt in Em]; lia.
  - destruct ((day r0 <? 1) || _) eqn:Ed.
    + split; [discriminate|]. intros [-> H].
      apply orb_true_iff in Ed as [Ed|Ed]; [apply Z.ltb_lt in Ed|apply Z.ltb_lt in Ed]; lia.
    + apply orb_false_iff in Em as [Em1 Em2]. apply orb_false_iff in Ed as [Ed1 Ed2].
      apply Z.ltb_ge in Em1, Em2, Ed1, Ed2.
      split; [intros [= <-]; split; [reflexivity|lia]|intros [-> _]; reflexivity].
Qed.

Lemma string_length8 (s : string) :
  String.length s = 8%nat -> all_digits s = true ->
  exists a b c d e f g h,
    s = string8 a b c d e f g h /\
    is_digit a = true /\ is_digit b = true /\ is_digit c = true /\ is_digit d = true /\
    is_digit e = true /\ is_digit f = true /\ is_digit g = true /\ is_digit h = true.
Proof.
  intros Hl Hd.
  do 8 (destruct s as [|? s]; [discriminate|]).
  destruct s; [|discriminate].
  cbn [all_digits] in Hd. repeat (apply andb_true_iff in Hd as [? Hd]).
  repeat eexists; eassumption.
Qed.

Lemma year_of_digits_range (a b c d e f g h : ascii) :
  is_digit a = true -> is_digit b = true -> is_digit c = true -> is_digit d = true ->
  0 <= year (date_of_digits a b c d e f g h) <= 9999.
Proof.
  intros Ha%is_digit_val Hb%is_digit_val Hc%is_digit_val Hd%is_digit_val.
  cbn [year date_of_digits]. lia.
Qed.

Lemma date_of_attrs_Some (attrs : gmap string string) (r : date) :
  date_of_attrs attrs = Some r -> calendar_date r /\ 0 <= year r <= 9999.
Proof.
  unfold date_of_attrs. intros H.
  apply bind_Some in H as (v & _ & H).
  destruct (Nat.eqb _ 8) eqn:El; [|discriminate]. apply Nat.eqb_eq in El.
  destruct (string_length8 _ El (re_sub_nondigits_digits v))
    as (a & b & c & d & e & f & g & h & E & Ha & Hb & Hc & Hd & He & Hf & Hg & Hh).
  rewrite E in H. apply valid_date_digits8 in H as [-> H]; try assumption.
  split; [exact H|]. now apply year_of_digits_range.
Qed.

Lemma substring_0_0 (s : string) : substring 0 0 s = "".
Proof. now destruct s. Qed.

(** A match of the eight-digit pattern: eight digits that start with
    [19] or [20]. *)
Lemma ymd8_here_inv (s : string) :
  ymd8_here s = true ->
  exists a b c d e f g h,
    substring 0 8 s = string8 a b c d e f g h /\
    (a = "2"%char /\ b = "0"%char \/ a = "1"%char /\ b = "9"%char) /\
    is_digit a = true /\ is_digit b = true /\ is_digit c = true /\ is_digit d = true /\
    is_digit e = true /\ is_digit f = true /\ is_digit g = true /\ is_digit h = true.
Proof.
  unfold ymd8_here. intros H. apply andb_true_iff in H as [Hc H].
  destruct (digits_prefix 8 s) as [rest|] eqn:E; [|discriminate]. clear H.
  apply digits_prefix_S in E as (a & ? & -> & Ha & E).
  apply digits_prefix_S in E as (b & ? & -> & Hb & E).
  apply digits_prefix_S in E as (c & ? & -> & Hc' & E).
  apply digits_prefix_S in E as (d & ? & -> & Hd & E).
  apply digits_prefix_S in E as (e & ? & -> & He & E).
  apply digits_prefix_S in E as (f & ? & -> & Hf & E).
  apply digits_prefix_S in E as (g & ? & -> & Hg & E).
  apply digits_prefix_S in E as (h & ? & -> & Hh & E).
  cbn in E. injection E as ->.
  exists a, b, c, d, e, f, g, h. cbn [substring]. rewrite substring_0_0.
  split; [reflexivity|]. split; [|auto 10].
  cbn [century_here] in Hc. apply orb_true_iff in Hc as [Hc|Hc];
    apply andb_true_iff in Hc as [H1 H2]; apply Ascii.eqb_eq in H1, H2; auto.
Qed.

Lemma re_search_ymd8_inv (s r : string) :
  re_search_ymd8 s = Some r -> exists s', ymd8_here s' = true /\ r = substring 0 8 s'.
Proof.
  induction s as [|c s IH]; cbn [re_search_ymd8].
  - change (ymd8_here "") with false. discriminate.
  - destruct (ymd8_here (String c s)) eqn:E; [intros [= <-]; eauto|exact IH].
Qed.

Lemma date_of_filename_Some (filename : string) (r : date) :
  date_of_filename filename = Some r -> calendar_date r /\ 1900 <= year r <= 2099.
Proof.
  unfold date_of_filename. intros H.
  apply bind_Some in H as (s & Hs & H).
  apply re_search_ymd8_inv in Hs as (s' & Hs' & ->).
  apply ymd8_here_inv in Hs'
    as (a & b & c & d & e & f & g & h & E & Hab & Ha & Hb & Hc & Hd & He & Hf & Hg & Hh).
  rewrite E in H. apply valid_date_digits8 in H as [-> H]; try assumption.
  split; [exact H|].
  apply is_digit_val in Hc, Hd. cbn [year date_of_digits].
  destruct Hab as [[-> ->]|[-> ->]];
    [change (digit_val "2"%char) with 2; change (digit_val "0"%char) with 0
    |change (digit_val "1"%char) with 1; change (digit_val "9"%char) with 9]; lia.
Qed.

(** X7. A date returned by [get_date_hint] is a date of the calendar in
    the years 0 to 9999, and one read from the file name lies in the
    years 1900 to 2099. *)
Theorem get_date_hint_valid (attrs : gmap string string) (filename : string) (r : date) :
  get_date_hint attrs filename = Ok (Some r) ->
  calendar_date r /\ 0 <= year r <= 9999 /\
  (date_of_attrs attrs = None -> 1900 <= year r <= 2099).
Proof.
  rewrite get_date_hint_eq. intros [= H].
  destruct (date_of_attrs attrs) as [r'|] eqn:E.
  - assert (r' = r) as -> by congruence. apply date_of_attrs_Some in E as [H1 H2].
    split; [exact H1|]. split; [exact H2|discriminate].
  - apply date_of_filename_Some in H as [H1 H2].
    split; [exact H1|]. split; [|intros _; exact H2]. lia.
Qed.

Lemma get_date_hint_valid_witness :
  calendar_date (mkdate 2017 5 17) /\ 0 <= 2017 <= 9999 /\
  (date_of_attrs ∅ = None -> 1900 <= 2017 <= 2099).
Proof.
  apply (get_date_hint_valid ∅ "20170517_flight.nc" (mkdate 2017 5 17)).
  vm_compute. reflexivity.
Defined.

(** The full shape of a match of [\d{4}-\d{2}-\d{2}$]. *)
Lemma dashed_date_here_shape (s : string) :
  dashed_date_here s = true ->
  exists a b c d e f g h rest,
    s = String a (String b (String c (String d (String "-" (String e (String f
          (String "-" (String g (String h rest))))))))) /\
    (is_digit a = true /\ is_digit b = true /\ is_digit c = true /\ is_digit d = true /\
     is_digit e = true /\ is_digit f = true /\ is_digit g = true /\ is_digit h = true) /\
    (rest = "" \/ rest = String "010" "").
Proof.
  unfold dashed_date_here. intros H.
  destruct (_ ≫= _) as [rest|] eqn:E in H; [|discriminate].
  apply bind_Some in E as (s1 & E1 & E).
  apply bind_Some in E as (s2 & E2 & E).
  apply bind_Some in E as (s3 & E3 & E).
  apply bind_Some in E as (s4 & E4 & E5).
  apply expect_char_Some in E2, E4. subst s1 s3.
  apply digits_prefix_S in E1 as (a & ? & -> & Ha & E1).
  apply digits_prefix_S in E1 as (b & ? & -> & Hb & E1).
  apply digits_prefix_S in E1 as (c & ? & -> & Hc & E1).
  apply digits_prefix_S in E1 as (d & ? & -> & Hd & E1).
  cbn in E1. injection E1 as ->.
  apply digits_prefix_S in E3 as (e & ? & -> & He & E3).
  apply digits_prefix_S in E3 as (f & ? & -> & Hf & E3).
  cbn in E3. injection E3 as ->.
  apply digits_prefix_S in E5 as (g & ? & -> & Hg & E5).
  apply digits_prefix_S in E5 as (h & ? & -> & Hh & E5).
  cbn in E5. injection E5 as ->.
  exists a, b, c, d, e, f, g, h, rest. split; [reflexivity|]. split; [auto 10|].
  destruct rest as [|x [|]]; cbn [at_dollar] in H; [now left| |discriminate].
  apply Ascii.eqb_eq in H as ->. now right.
Qed.

(** A file name of the form [YYYY-MM-DD] holds no run of eight digits. *)
Lemma dashed_no_ymd8 (s : string) :
  dashed_date_here s = true -> re_search_ymd8 s = None.
Proof.
  intros H. apply dashed_date_here_shape in H
    as (a & b & c & d & e & f & g & h & rest & ->
        & (Ha & Hb & Hc & Hd & He & Hf & Hg & Hh) & [ -> | -> ]);
    cbn [re_search_ymd8]; unfold ymd8_here; cbn [digits_prefix];
    rewrite ?Ha, ?Hb, ?Hc, ?Hd, ?He, ?Hf, ?Hg, ?Hh;
    change (is_digit "-") with false; change (is_digit "010") with false;
    cbv iota; rewrite ?andb_false_r; reflexivity.
Qed.

(** X8. A file name that is a date written [YYYY-MM-DD], which the
    second file-name pattern matches, never gives a date: the result is
    the date of the [date] attribute, if that one is usable, and [None]
    otherwise. *)
Theorem dashed_filename_no_hint (attrs : gmap string string)
    (filename date_str : string) :
  re_search_dashed filename = Some date_str ->
  get_date_hint attrs filename = Ok (date_of_attrs attrs).
Proof.
  intros H. rewrite get_date_hint_eq. f_equal.
  destruct (date_of_attrs attrs); [reflexivity|].
  unfold re_search_dashed in H.
  destruct (century_here filename); [|discriminate]. cbn [andb] in H.
  destruct (dashed_date_here filename) eqn:E; [|discriminate].
  unfold date_of_filename. now rewrite (dashed_no_ymd8 _ E).
Qed.

Lemma dashed_filename_no_hint_witness :
  get_date_hint ∅ "2017-05-17" = Ok (date_of_attrs ∅).
Proof.
  apply (dashed_filename_no_hint ∅ "2017-05-17" "2017-05-17"). reflexivity.
Defined.

(** ** Writing a date and reading it back *)

Lemma N_of_digit_char (k : Z) : N_of_ascii (digit_char k) = Z.to_N (48 + k mod 10).
Proof.
  unfold digit_char. apply N_ascii_embedding.
  pose proof (Z.mod_pos_bound k 10). lia.
Qed.

Lemma is_digit_digit_char (k : Z) : is_digit (digit_char k) = true.
Proof.
  unfold is_digit. rewrite N_of_digit_char. pose proof (Z.mod_pos_bound k 10).
  apply andb_true_iff. split; apply N.leb_le; lia.
Qed.

Lemma digit_val_digit_char (k : Z) : digit_val (digit_char k) = k mod 10.
Proof.
  unfold digit_val. rewrite N_of_digit_char. pose proof (Z.mod_pos_bound k 10). lia.
Qed.

Lemma num_digits_le (fuel : nat) (n : Z) (w : nat) :
  n < 10 ^ Z.of_nat (S w) -> (num_digits fuel n <= S w)%nat.
Proof.
  revert n w. induction fuel as [|fuel IH]; intros n w Hn; cbn [num_digits]; [lia|].
  destruct (Z.ltb_spec n 10); [lia|].
  destruct w as [|w]; [cbn in Hn; lia|].
  apply le_n_S, IH.
  rewrite Nat2Z.inj_succ, Z.pow_succ_r in Hn by lia.
  apply Z.div_lt_upper_bound; lia.
Qed.

Lemma zero_padded_width (w : nat) (n : Z) :
  n < 10 ^ Z.of_nat (S w) -> zero_padded (S w) n = digits_acc (S w) n "".
Proof.
  intros Hn. unfold zero_padded.
  now rewrite Nat.max_l by (now apply num_digits_le).
Qed.

Lemma strftime_ymd_digits (r : date) :
  0 <= year r <= 9999 -> 1 <= month r <= 12 -> 1 <= day r <= 31 ->
  strftime_ymd r
  = string8 (digit_char (year r / 10 / 10 / 10)) (digit_char (year r / 10 / 10))
            (digit_char (year r / 10)) (digit_char (year r))
            (digit_char (month r / 10)) (digit_char (month r))
            (digit_char (day r / 10)) (digit_char (day r)).
Proof.
  intros Hy Hm Hd. unfold strftime_ymd.
  rewrite !zero_padded_width by (cbn; lia). reflexivity.
Qed.

Lemma days_per_month_le (leap : bool) (m : Z) : days_per_month leap m <= 31.
Proof.
  unfold days_per_month.
  destruct (m =? 2); [destruct leap; lia|]. destruct (_ || _); lia.
Qed.

Lemma valid_date_strftime (r : date) :
  calendar_date r -> 0 <= year r <= 9999 -> valid_date (strftime_ymd r) = Some r.
Proof.
  intros Hc Hy. pose proof Hc as [Hm Hd].
  pose proof (days_per_month_le (is_leapyear (year r)) (month r)).
  rewrite strftime_ymd_digits by lia.
  apply valid_date_digits8; try apply is_digit_digit_char.
  split; [|exact Hc].
  unfold date_of_digits. rewrite !digit_val_digit_char.
  destruct r as [y m d]. cbn [year month day] in *.
  f_equal; Z.div_mod_to_equations; lia.
Qed.

(** X9. A calendar date of the years 0 to 9999 written as [YYYYMMDD]
    in the [date] attribute, with or without other characters between
    the digits, is the date that [get_date_hint] returns, whatever the
    file name. *)
Theorem date_attribute_round_trip (attrs : gmap string string) (v filename : string)
    (r : date) :
  calendar_date r -> 0 <= year r <= 9999 ->
  re_sub_nondigits v = strftime_ymd r ->
  get_date_hint (<["date" := v]> attrs) filename = Ok (Some r).
Proof.
  intros Hc Hy Hv. rewrite get_date_hint_eq. unfold date_of_attrs.
  rewrite lookup_insert_eq. cbv [mbind option_bind]. rewrite Hv.
  pose proof Hc as [Hm Hd].
  pose proof (days_per_month_le (is_leapyear (year r)) (month r)).
  replace (String.length (strftime_ymd r) =? 8)%nat with true
    by (now rewrite strftime_ymd_digits by lia).
  now rewrite valid_date_strftime.
Qed.

Lemma date_attribute_round_trip_witness :
  get_date_hint (<["date" := "2017/05/17"]> ∅) "flight.nc" = Ok (Some (mkdate 2017 5 17)).
Proof.
  apply (date_attribute_round_trip ∅ "2017/05/17" "flight.nc" (mkdate 2017 5 17));
    [vm_compute; intuition discriminate|cbn; lia|reflexivity].
Defined.

Lemma string_app_assoc (a b c : string) : (a ++ b) ++ c = a ++ (b ++ c).
Proof.
  induction a as [|x a IH]; [reflexivity|].
  change (String x ((a ++ b) ++ c) = String x (a ++ (b ++ c))). now rewrite IH.
Qed.

Lemma string_app_cons (x : ascii) (a b : string) : String x a ++ b = String x (a ++ b).
Proof. reflexivity. Qed.

(** The search for eight digits passes over text without digits. *)
Lemma re_search_ymd8_skip (p s : string) :
  re_sub_nondigits p = "" -> re_search_ymd8 (p ++ s) = re_search_ymd8 s.
Proof.
  induction p as [|c p IH]; intros Hp; [reflexivity|].
  cbn [re_sub_nondigits] in Hp.
  destruct (is_digit c) eqn:Hc; [discriminate|].
  rewrite string_app_cons. cbn [re_search_ymd8]. unfold ymd8_here at 1.
  cbn [digits_prefix]. rewrite Hc, andb_false_r. now apply IH.
Qed.

(** The names that [generate_timestamped_filename] builds. *)
Lemma generate_timestamped_filename_shape (now : datetime) (uid : Z)
    (prefix extension : string) :
  exists tail,
    generate_timestamped_filename now uid prefix extension
    = prefix ++ String "_" (strftime_ymd (dt_date now) ++ tail).
Proof.
  unfold generate_timestamped_filename, strftime.
  destruct extension as [|x ext].
  - eexists. rewrite !string_app_assoc. reflexivity.
  - eexists. rewrite !string_app_assoc. reflexivity.
Qed.

Lemma digit_char_mod (k v : Z) : k mod 10 = v mod 10 -> digit_char k = digit_char v.
Proof. unfold digit_char. now intros ->. Qed.

Lemma century_here_year (y : Z) (s : string) :
  1900 <= y <= 2099 ->
  century_here (String (digit_char (y / 10 / 10 / 10))
                  (String (digit_char (y / 10 / 10)) s)) = true.
Proof.
  intros Hy. destruct (Z.le_gt_cases 2000 y).
  - rewrite (digit_char_mod (y / 10 / 10 / 10) 2), (digit_char_mod (y / 10 / 10) 0)
      by (Z.div_mod_to_equations; lia).
    reflexivity.
  - rewrite (digit_char_mod (y / 10 / 10 / 10) 1), (digit_char_mod (y / 10 / 10) 9)
      by (Z.div_mod_to_equations; lia).
    reflexivity.
Qed.

Lemma re_search_ymd8_strftime (r : date) (tail : string) :
  calendar_date r -> 1900 <= year r <= 2099 ->
  re_search_ymd8 (strftime_ymd r ++ tail) = Some (strftime_ymd r).
Proof.
  intros [Hm Hd] Hy.
  pose proof (days_per_month_le (is_leapyear (year r)) (month r)).
  rewrite strftime_ymd_digits by lia. unfold string8.
  rewrite !string_app_cons. change ("" ++ tail) with tail.
  cbn [re_search_ymd8]. unfold ymd8_here.
  rewrite century_here_year by exact Hy.
  cbn [digits_prefix]. rewrite !is_digit_digit_char. cbn [andb].
  cbn [substring]. now rewrite substring_0_0.
Qed.

(** X10. A name built by [generate_timestamped_filename] from a prefix
    without digits carries the date of its time stamp: for a date of the
    years 1900 to 2099, [get_date_hint] reads that date back from the
    name when the attributes hold no usable date. *)
Theorem generated_filename_hint (attrs : gmap string string) (now : datetime)
    (uid : Z) (prefix extension : string) :
  calendar_date (dt_date now) -> 1900 <= year (dt_date now) <= 2099 ->
  re_sub_nondigits prefix = "" ->
  date_of_attrs attrs = None ->
  get_date_hint attrs (generate_timestamped_filename now uid prefix extension)
  = Ok (Some (dt_date now)).
Proof.
  intros Hc Hy Hp Ha. rewrite get_date_hint_eq, Ha. f_equal.
  destruct (generate_timestamped_filename_shape now uid prefix extension) as [tail ->].
  unfold date_of_filename.
  rewrite re_search_ymd8_skip by exact Hp.
  cbn [re_search_ymd8]. unfold ymd8_here at 1. cbn [digits_prefix].
  change (is_digit "_") with false. rewrite andb_false_r.
  rewrite re_search_ymd8_strftime by assumption.
  cbv [mbind option_bind]. apply valid_date_strftime; [exact Hc|lia].
Qed.

Lemma generated_filename_hint_witness :
  get_date_hint ∅
    (generate_timestamped_filename (mkdatetime (mkdate 2025 1 2) 3 4 5) 42
       "czml_output" "czml")
  = Ok (Some (mkdate 2025 1 2)).
Proof.
  apply (generated_filename_hint ∅ (mkdatetime (mkdate 2025 1 2) 3 4 5) 42
           "czml_output" "czml");
    [vm_compute; intuition discriminate|cbn; lia|reflexivity|reflexivity].
Defined.

(** ** Building a granule *)

Lemma substring_full (s : string) : substring 0 (String.length s) s = s.
Proof. induction s as [|c s IH]; [reflexivity|]. cbn. now rewrite IH. Qed.

Lemma rfind_slash_join (dir name : string) :
  rfind_slash name = None ->
  rfind_slash (dir ++ String "/" name) = Some (String.length dir).
Proof.
  intros Hn. induction dir as [|c dir IH].
  - change ("" ++ String "/" name) with (String "/" name).
    cbn [rfind_slash]. now rewrite Hn.
  - rewrite string_app_cons. cbn [rfind_slash String.length]. now rewrite IH.
Qed.

Lemma slice_from_join (dir name : string) :
  slice_from (S (String.length dir)) (dir ++ String "/" name) = name.
Proof.
  unfold slice_from. induction dir as [|c dir IH].
  - change ("" ++ String "/" name) with (String "/" name).
    cbn [String.length substring Nat.sub]. rewrite Nat.sub_0_r. apply substring_full.
  - rewrite string_app_cons. cbn [String.length substring Nat.sub]. exact IH.
Qed.

Lemma basename_join (dir name : string) :
  rfind_slash name = None -> basename (dir ++ String "/" name) = name.
Proof.
  intros Hn. unfold basename. rewrite (rfind_slash_join dir name Hn).
  apply slice_from_join.
Qed.

Lemma rfind_slash_lt (s : string) (i : nat) :
  rfind_slash s = Some i -> (i < String.length s)%nat.
Proof.
  revert i. induction s as [|c s IH]; intros i; cbn [rfind_slash String.length];
    [discriminate|].
  destruct (rfind_slash s) as [j|].
  - intros [= <-]. specialize (IH j eq_refl). lia.
  - destruct (Ascii.eqb c "/"); [intros [= <-]; lia|discriminate].
Qed.

Lemma rfind_slash_slice (s : string) (i : nat) :
  rfind_slash s = Some i -> rfind_slash (slice_from (S i) s) = None.
Proof.
  unfold slice_from. revert i.
  induction s as [|c s IH]; intros i; cbn [rfind_slash]; [discriminate|].
  destruct (rfind_slash s) as [j|] eqn:E.
  - intros [= <-]. cbn [String.length substring Nat.sub]. now apply IH.
  - destruct (Ascii.eqb c "/"); [|discriminate]. intros [= <-].
    cbn [String.length substring Nat.sub]. rewrite Nat.sub_0_r, substring_full. exact E.
Qed.

(** X11. The file name in which [__init__] looks for a date is the last
    component of the path: it holds no slash, and for a path
    [dir/name] it is [name], so that digits in directory names never
    count.  The [filename] attribute, when there is one, takes the place
    of the path. *)
Theorem hint_filename_last_component (attrs : gmap string string)
    (file_path dir name : string) :
  rfind_slash name = None ->
  rfind_slash (hint_filename attrs file_path) = None /\
  hint_filename (<["filename" := dir ++ String "/" name]> attrs) file_path = name /\
  (attrs !! "filename" = None ->
   hint_filename attrs (dir ++ String "/" name) = name).
Proof.
  intros Hn. split; [|split].
  - unfold hint_filename, basename.
    destruct (attrs !! "filename") as [f|].
    + destruct (rfind_slash f) as [i|] eqn:E; [now apply rfind_slash_slice|exact E].
    + destruct (rfind_slash file_path) as [i|] eqn:E;
        [now apply rfind_slash_slice|exact E].
  - unfold hint_filename. rewrite lookup_insert_eq. now apply basename_join.
  - intros Ha. unfold hint_filename. rewrite Ha. now apply basename_join.
Qed.

Lemma hint_filename_last_component_witness :
  rfind_slash (hint_filename ∅ "/data/20170517/flight.nc") = None /\
  hint_filename (<["filename" := "/archive/20160101" ++ String "/" "leg1.nc"]> ∅)
    "/data/20170517/flight.nc" = "leg1.nc" /\
  ((∅ : gmap string string) !! "filename" = None ->
   hint_filename ∅ ("/archive/20160101" ++ String "/" "leg1.nc") = "leg1.nc").
Proof.
  apply (hint_filename_last_component ∅ "/data/20170517/flight.nc"
           "/archive/20160101" "leg1.nc").
  reflexivity.
Defined.

Section GranuleProperties.

Variable units_reference : string -> option (since_unit * Z).



End GranuleProperties.



(** ** The geometry of the projection *)

Local Open Scope R_scope.

Lemma down_unit (r p h : R) :
  down_x r p h * down_x r p h + down_y r p h * down_y r p h
  + down_z r p h * down_z r p h = 1.
Proof.
  unfold down_x, down_y, down_z.
  pose proof (sin2_cos2 r) as Hr. pose proof (sin2_cos2 p) as Hp.
  pose proof (sin2_cos2 h) as Hh. unfold Rsqr in *.
  replace (_ + _ + _)
    with (sin r * sin r * (sin h * sin h + cos h * cos h)
          + cos r * cos r * (sin p * sin p * (sin h * sin h + cos h * cos h)
                             + cos p * cos p)) by ring.
  rewrite Hh, !Rmult_1_r, Hp, Rmult_1_r. exact Hr.
Qed.

Lemma down_vector_same_length (roll pitch head : list R) :
  length roll = length pitch -> length pitch = length head ->
  down_vector roll pitch head
  = Ok (zip_with Rplus (zip_with Rmult (map sin roll) (map cos head))
          (zip_with Rmult (zip_with Rmult (map cos roll) (map sin pitch))
             (map sin head)),
        zip_with Rplus (zip_with Rmult (map Ropp (map sin roll)) (map sin head))
          (zip_with Rmult (zip_with Rmult (map cos roll) (map sin pitch))
             (map cos head)),
        zip_with Rmult (map Ropp (map cos roll)) (map cos pitch)).
Proof.
  intros H1 H2. unfold down_vector, np_multiply, np_add.
  repeat (rewrite broadcast_same_length
            by (repeat first [rewrite length_zip_with | rewrite length_map]; lia);
          cbn [mbind result_bind]).
  reflexivity.
Qed.

(** X14. On three attitude vectors of one length [down_vector] returns
    three vectors of that length, and each triple is the down-vector of
    the formulas of lines 13 to 15 and has length 1. *)
Theorem down_vector_unit (roll pitch head : list R) :
  length roll = length pitch -> length pitch = length head ->
  exists x y z,
    down_vector roll pitch head = Ok (x, y, z) /\
    length x = length roll /\ length y = length roll /\ length z = length roll /\
    forall i r p h,
      roll !! i = Some r -> pitch !! i = Some p -> head !! i = Some h ->
      exists xi yi zi,
        x !! i = Some xi /\ y !! i = Some yi /\ z !! i = Some zi /\
        xi = sin r * cos h + cos r * sin p * sin h /\
        yi = - sin r * sin h + cos r * sin p * cos h /\
        zi = - cos r * cos p /\
        xi * xi + yi * yi + zi * zi = 1.
Proof.
  intros H1 H2. do 3 eexists.
  split; [apply down_vector_same_length; assumption|].
  repeat split;
    try (repeat first [rewrite length_zip_with | rewrite length_map]; lia).
  intros i r p h Hr Hp Hh.
  exists (down_x r p h), (down_y r p h), (down_z r p h).
  repeat first [rewrite lookup_zip_with | rewrite lookup_map].
  rewrite Hr, Hp, Hh. cbn.
  repeat split; try reflexivity. apply down_unit.
Qed.

Lemma down_vector_unit_witness :
  exists x y z,
    down_vector [0; PI] [0; 0] [0; PI / 2] = Ok (x, y, z) /\
    length x = 2%nat /\ length y = 2%nat /\ length z = 2%nat /\
    forall i r p h,
      [0; PI] !! i = Some r -> [0; 0] !! i = Some p -> [0; PI / 2] !! i = Some h ->
      exists xi yi zi,
        x !! i = Some xi /\ y !! i = Some yi /\ z !! i = Some zi /\
        xi = sin r * cos h + cos r * sin p * sin h /\
        yi = - sin r * sin h + cos r * sin p * cos h /\
        zi = - cos r * cos p /\
        xi * xi + yi * yi + zi * zi = 1.
Proof.
  apply (down_vector_unit [0; PI] [0; 0] [0; PI / 2]); reflexivity.
Defined.

(** X15. The projection keeps the slant range: on well-shaped arrays,
    for a sample whose latitude has a non-zero cosine, the projected
    point of a range bin lies at that range from the aircraft, the
    latitude and longitude differences being turned into metres by the
    factors 111000 and [111000 * cos lat] of the projection. *)
Theorem slant_range_preserved (raw : raw_arrays) (i j : nat)
    (lon lat alt r p h rng : R) :
  well_shaped raw ->
  raw_lon raw !! i = Some lon -> raw_lat raw !! i = Some lat ->
  raw_alt raw !! i = Some alt ->
  raw_roll raw !! i = Some r -> raw_pitch raw !! i = Some p ->
  raw_head raw !! i = Some h -> raw_range raw !! j = Some rng ->
  cos (lat * PI / 180) <> 0 ->
  exists lons lats alts ref time lon' lat' alt',
    project raw = Ok (lons, lats, alts, ref, time) /\
    let k := (i * num_row (raw_ref raw) + j)%nat in
    lons !! k = Some lon' /\ lats !! k = Some lat' /\ alts !! k = Some alt' /\
    let east := (lon' - lon) * (111000 * cos (lat * PI / 180)) in
    let north := (lat' - lat) * 111000 in
    let up := alt' - alt in
    east * east + north * north + up * up = rng * rng.
Proof.
  intros Hws Hlon Hlat Halt Hr Hp Hh Hrng Hcos.
  destruct (lookup_lt_is_Some_2 (raw_time raw) i) as [t Ht].
  { rewrite (ws_time _ Hws), <- (ws_lon _ Hws). eauto using lookup_lt_Some. }
  destruct (projected_lookup raw i j t lon lat alt r p h rng Hws Ht Hlon Hlat Halt
              Hr Hp Hh Hrng) as (Elon & Elat & Ealt & _).
  do 8 eexists. split; [apply project_well_shaped; exact Hws|].
  cbv zeta. split; [exact Elon|]. split; [exact Elat|]. split; [exact Ealt|].
  pose proof (down_unit r p h) as Hu.
  replace ((lon - rng * down_x r p h / (111000 * cos (lat * PI / 180)) - lon)
           * (111000 * cos (lat * PI / 180)))
    with (- rng * down_x r p h) by (field; exact Hcos).
  replace ((lat - rng * down_y r p h / 111000 - lat) * 111000)
    with (- rng * down_y r p h) by field.
  replace (alt + rng * down_z r p h - alt) with (rng * down_z r p h) by ring.
  replace (_ + _ + _)
    with (rng * rng * (down_x r p h * down_x r p h + down_y r p h * down_y r p h
                       + down_z r p h * down_z r p h)) by ring.
  rewrite Hu. ring.
Qed.

Lemma cos_10_degrees : cos (10 * PI / 180) <> 0.
Proof.
  apply Rgt_not_eq, cos_gt_0; pose proof PI_RGT_0; lra.
Qed.

Lemma slant_range_preserved_witness :
  exists lons lats alts ref time lon' lat' alt',
    project grid_2x2_raw = Ok (lons, lats, alts, ref, time) /\
    let k := (0 * num_row (raw_ref grid_2x2_raw) + 1)%nat in
    lons !! k = Some lon' /\ lats !! k = Some lat' /\ alts !! k = Some alt' /\
    let east := (lon' - 20) * (111000 * cos (10 * PI / 180)) in
    let north := (lat' - 10) * 111000 in
    let up := alt' - 1000 in
    east * east + north * north + up * up = 200 * 200.
Proof.
  apply (slant_range_preserved grid_2x2_raw 0 1 20 10 1000 nadir nadir nadir 200);
    first [exact grid_2x2_well_shaped | reflexivity | exact cos_10_degrees].
Defined.

(** ** More on the converter *)

Lemma load_with_alt (granule : CampaignGranule) (h v : list R) :
  variables (ds granule) !! "height" = Some h ->
  load (with_variable "alt" v granule) = load granule.
Proof.
  intros Hh. unfold load, with_variable, getitem.
  cbn [ds variables ref normal_time].
  rewrite (lookup_insert_ne _ "alt" "height") by discriminate. rewrite Hh.
  rewrite (lookup_insert_ne _ "alt" "lat"), (lookup_insert_ne _ "alt" "lon"),
    (lookup_insert_ne _ "alt" "roll"), (lookup_insert_ne _ "alt" "pitch"),
    (lookup_insert_ne _ "alt" "head"), (lookup_insert_ne _ "alt" "range")
    by discriminate.
  reflexivity.
Qed.

Lemma load_height (granule : CampaignGranule) (h : list R) (raw : raw_arrays) :
  variables (ds granule) !! "height" = Some h ->
  load granule = Ok raw -> raw_alt raw = h.
Proof.
  intros Hh. unfold load. rewrite Hh.
  repeat match goal with
         | |- context [mbind _ ?x] => destruct x; cbn [mbind result_bind];
                                      try discriminate
         end.
  now intros [= <-].
Qed.

Section ConverterProperties.

Variable argsort : list Z -> list nat.

(** X16. When the dataset has a [height] variable, that one is the
    altitude of the aircraft and [alt] is not read: a cloud converted
    from a granule and one converted from the same granule with any
    other [alt] variable have the same points. *)
Theorem convert_prefers_height (granule : CampaignGranule) (h v : list R)
    (pc : PointCloud) :
  variables (ds granule) !! "height" = Some h ->
  convert argsort granule = Ok pc ->
  (exists raw, load granule = Ok raw /\ raw_alt raw = h) /\
  exists pc',
    convert argsort (with_variable "alt" v granule) = Ok pc' /\
    pc_lat pc' = pc_lat pc /\ pc_lon pc' = pc_lon pc /\ pc_alt pc' = pc_alt pc /\
    pc_ref pc' = pc_ref pc /\ pc_time pc' = pc_time pc.
Proof.
  intros Hh Hc.
  destruct (convert_inv argsort granule pc Hc)
    as (raw & lon & lat & alt & ref & time & Hl & Hp
        & (Hlon & Hlat & Halt & Href & Htime) & ->).
  split; [exists raw; split; [exact Hl|now apply (load_height granule)]|].
  eexists. split.
  - apply (convert_eq argsort _ raw lon lat alt ref time); try assumption.
    now rewrite (load_with_alt granule h v Hh).
  - repeat split.
Qed.

Lemma project_time (raw : raw_arrays) (lon lat alt : list R) (ref : list cell)
    (time : list Z) :
  project raw = Ok (lon, lat, alt, ref, time) ->
  ref = cells (raw_ref raw) /\
  time = np_repeat (raw_time raw) (num_row (raw_ref raw)).
Proof.
  unfold project.
  repeat match goal with
         | |- context [mbind _ ?x] =>
             destruct x as [?|?]; cbn [mbind result_bind]; try discriminate
         | |- context [let '(_, _) := ?x in _] => destruct x as [[? ?] ?]
         end.
  all: first [discriminate | now intros [= <- <- <- <- <-]].
Qed.

Lemma elem_of_np_repeat {A : Type} (a : list A) (n : nat) (x : A) :
  x ∈ np_repeat a n -> x ∈ a.
Proof.
  unfold np_repeat. intros H. apply list_elem_of_bind in H as (y & Hx & Hy).
  apply elem_of_replicate in Hx as [-> _]. exact Hy.
Qed.

Lemma elem_of_gather {A : Type} (a : list A) (idx : list nat) (x : A) :
  x ∈ gather a idx -> x ∈ a.
Proof.
  unfold gather. intros H. apply list_elem_of_omap in H as (i & _ & Hi).
  now apply list_elem_of_lookup_2 in Hi.
Qed.

(** X17. A cloud returned by [convert] numbers its points from 0,
    refers back to its granule and names its converter and projection;
    every time in it is the time of a sample of the granule, and it has
    at most as many points as [argsort] returned indices. *)
Theorem convert_provenance (granule : CampaignGranule) (pc : PointCloud) :
  convert argsort granule = Ok pc ->
  pc_point pc = seq 0 (length (pc_time pc)) /\
  pc_granule pc = Some granule /\
  pc_attrs pc !! "converted_by" = Some "PointCloudConverter" /\
  pc_attrs pc !! "projection" = Some "slant-range" /\
  exists raw,
    load granule = Ok raw /\
    Forall (fun t => t ∈ raw_time raw) (pc_time pc) /\
    (length (pc_time pc)
     <= length (argsort (np_repeat (raw_time raw) (num_row (raw_ref raw)))))%nat.
Proof.
  intros Hc.
  destruct (convert_inv argsort granule pc Hc)
    as (raw & lon & lat & alt & ref & time & Hl & Hp
        & (Hlon & Hlat & Halt & Href & Htime) & ->).
  destruct (project_time _ _ _ _ _ _ Hp) as [-> ->].
  cbn [cloud pc_point pc_granule pc_attrs pc_time].
  repeat split; try reflexivity.
  exists raw. split; [exact Hl|]. split.
  - apply Forall_forall. intros t Ht.
    eapply elem_of_np_repeat, elem_of_gather, Ht.
  - rewrite length_gather by (now apply in_range_filter).
    apply List.filter_length_le.
Qed.

(** X18. A well-shaped granule without a finite reflectivity cell is
    converted to the empty cloud, not to an error. *)
Theorem convert_no_finite_cell (granule : CampaignGranule) (raw : raw_arrays) :
  sorts argsort -> load granule = Ok raw -> well_shaped raw ->
  Forall (fun c => np_isfinite c = false) (cells (raw_ref raw)) ->
  exists pc,
    convert argsort granule = Ok pc /\
    pc_lat pc = [] /\ pc_lon pc = [] /\ pc_alt pc = [] /\ pc_ref pc = [] /\
    pc_time pc = [] /\ pc_point pc = [].
Proof.
  intros Hs Hl Hws Hnan.
  destruct (convert_points argsort granule raw Hs Hl Hws) as (pc & Hc & _).
  exists pc. split; [exact Hc|].
  destruct (convert_inv argsort granule pc Hc)
    as (raw' & lon & lat & alt & ref & time & Hl' & Hp & _ & ->).
  assert (raw' = raw) as -> by congruence.
  destruct (project_time _ _ _ _ _ _ Hp) as [-> ->].
  assert (E : List.filter (valid (cells (raw_ref raw)) alt)
                (argsort (np_repeat (raw_time raw) (num_row (raw_ref raw)))) = []).
  { generalize (argsort (np_repeat (raw_time raw) (num_row (raw_ref raw)))).
    intros idx. induction idx as [|i idx IH]; [reflexivity|].
    cbn [List.filter]. rewrite IH.
    replace (valid (cells (raw_ref raw)) alt i) with false; [reflexivity|].
    unfold valid. destruct (cells (raw_ref raw) !! i) as [c|] eqn:Ec; [|reflexivity].
    rewrite Forall_lookup in Hnan. rewrite (Hnan _ _ Ec).
    now destruct (alt !! i). }
  unfold cloud. rewrite E. repeat split.
Qed.

End ConverterProperties.

Lemma blank_load : load blank_granule = Ok blank_raw.
Proof. reflexivity. Qed.

Lemma blank_well_shaped : well_shaped blank_raw.
Proof. now constructor. Qed.

Lemma convert_no_finite_cell_witness :
  exists pc,
    convert stable_argsort blank_granule = Ok pc /\
    pc_lat pc = [] /\ pc_lon pc = [] /\ pc_alt pc = [] /\ pc_ref pc = [] /\
    pc_time pc = [] /\ pc_point pc = [].
Proof.
  apply (convert_no_finite_cell stable_argsort blank_granule blank_raw
           stable_argsort_sorts blank_load blank_well_shaped).
  repeat constructor.
Defined.

Lemma convert_prefers_height_witness :
  exists pc pc',
    convert stable_argsort grid_2x2_granule = Ok pc /\
    convert stable_argsort (with_variable "alt" [5; 6] grid_2x2_granule) = Ok pc' /\
    pc_alt pc' = pc_alt pc /\ pc_time pc' = pc_time pc.
Proof.
  destruct (convert_points stable_argsort grid_2x2_granule grid_2x2_raw
              stable_argsort_sorts grid_2x2_load grid_2x2_well_shaped) as (pc & Hc & _).
  destruct (convert_prefers_height stable_argsort grid_2x2_granule [1000; 1000] [5; 6]
              pc eq_refl Hc) as (_ & pc' & Hc' & _ & _ & Ha & _ & Ht).
  exists pc, pc'. auto.
Defined.

Lemma convert_provenance_witness :
  exists pc,
    convert stable_argsort grid_2x2_granule = Ok pc /\
    pc_point pc = seq 0 (length (pc_time pc)) /\
    pc_granule pc = Some grid_2x2_granule /\
    pc_attrs pc !! "converted_by" = Some "PointCloudConverter".
Proof.
  destruct (convert_points stable_argsort grid_2x2_granule grid_2x2_raw
              stable_argsort_sorts grid_2x2_load grid_2x2_well_shaped) as (pc & Hc & _).
  destruct (convert_provenance stable_argsort grid_2x2_granule pc Hc)
    as (H1 & H2 & H3 & _).
  exists pc. auto.
Defined.

Local Close Scope R_scope.

(** ** The CZML writer *)

Lemma fold_min_le (t : list Z) (x : Z) :
  fold_left Z.min t x <= x /\ Forall (fun y => fold_left Z.min t x <= y) t /\
  (fold_left Z.min t x = x \/ fold_left Z.min t x ∈ t).
Proof.
  revert x. induction t as [|y t IH]; intros x; cbn [fold_left].
  - split; [lia|]. split; [constructor|now left].
  - destruct (IH (Z.min x y)) as (H1 & H2 & H3). split; [lia|]. split.
    + constructor; [lia|exact H2].
    + destruct H3 as [H3|H3].
      * rewrite H3. destruct (Z.min_spec x y) as [[_ ->]|[_ ->]];
          [now left|right; now left].
      * right. now right.
Qed.

(** [np.min] returns an element that is below all the others. *)
Lemma np_min_spec (a : list Z) (m : Z) :
  np_min a = Ok m -> m ∈ a /\ Forall (fun x => m <= x) a.
Proof.
  destruct a as [|x t]; [discriminate|]. intros [= <-].
  destruct (fold_min_le t x) as (H1 & H2 & H3). split.
  - destruct H3 as [->|H3]; [now left|now right].
  - constructor; assumption.
Qed.

Lemma np_min_nonempty (a : list Z) : a <> [] -> exists m, np_min a = Ok m.
Proof. destruct a; [congruence|]. cbn. eauto. Qed.

Lemma np_min_sorted (x : Z) (t : list Z) :
  StronglySorted Z.le (x :: t) -> np_min (x :: t) = Ok x.
Proof.
  intros Hs. apply StronglySorted_inv in Hs as [_ Hall]. cbn. f_equal.
  revert Hall. induction t as [|y t IH]; intros Hall; [reflexivity|].
  apply Forall_cons in Hall as [Hy Hall]. cbn [fold_left].
  rewrite Z.min_l by exact Hy. now apply IH.
Qed.

Lemma lookup_zip4 {A B C D : Type} (a : list A) (b : list B) (c : list C) (d : list D)
    (i : nat) (x : A) (y : B) (z : C) (w : D) :
  a !! i = Some x -> b !! i = Some y -> c !! i = Some z -> d !! i = Some w ->
  zip4 a b c d !! i = Some (x, y, z, w).
Proof.
  intros Ha Hb Hc Hd. unfold zip4. rewrite !lookup_zip_with, Ha, Hb, Hc, Hd.
  reflexivity.
Qed.

Lemma length_zip4 {A B C D : Type} (a : list A) (b : list B) (c : list C) (d : list D) :
  length b = length a -> length c = length a -> length d = length a ->
  length (zip4 a b c d) = length a.
Proof. intros Hb Hc Hd. unfold zip4. rewrite !length_zip_with. lia. Qed.

Lemma path_entry_length (l : list (Z * R * R * R)) :
  Forall (fun p => length (path_entry p) = 4%nat) l.
Proof. apply Forall_forall. now intros [[[t lo] la] al] _. Qed.

Section CzmlProperties.

Variable datetime_as_string : Z -> string.

(** What [convert_to_czml] returns on a cloud with points. *)
Lemma convert_to_czml_eq (cloud : PointCloud) (mode : string) (first : Z) :
  np_min (pc_time cloud) = Ok first ->
  convert_to_czml datetime_as_string cloud mode
  = if String.eqb mode "path" then
      Ok [document_packet;
          path_packet (datetime_as_string first)
            (zip4 (map (fun t => t - first) (pc_time cloud)) (pc_lon cloud)
                  (pc_lat cloud) (pc_alt cloud) ≫= path_entry)]
    else if String.eqb mode "points" then
      Ok (document_packet
          :: imap (fun i '(t, lo, la, al) =>
                     point_packet i (datetime_as_string t) lo la al)
                  (zip4 (pc_time cloud) (pc_lon cloud) (pc_lat cloud) (pc_alt cloud)))
    else Ok [document_packet].
Proof.
  intros Hm. unfold convert_to_czml. rewrite Hm. cbn [mbind result_bind].
  destruct (String.eqb mode "path"); reflexivity.
Qed.

(** X19. In the mode [path] a cloud with points whose sequences have
    one length gives two packets, the document packet and the path.  The
    epoch of the path is the earliest time of the cloud; the path has
    four coordinates per point, in the order of the cloud: the whole
    seconds from the epoch, never negative, then longitude, latitude and
    altitude. *)
Theorem czml_path (cloud : PointCloud) :
  pc_time cloud <> [] -> aligned cloud ->
  exists first coords,
    np_min (pc_time cloud) = Ok first /\
    first ∈ pc_time cloud /\
    convert_to_czml datetime_as_string cloud "path"
    = Ok [document_packet; path_packet (datetime_as_string first) coords] /\
    length coords = (length (pc_time cloud) * 4)%nat /\
    forall i t lo la al,
      pc_time cloud !! i = Some t -> pc_lon cloud !! i = Some lo ->
      pc_lat cloud !! i = Some la -> pc_alt cloud !! i = Some al ->
      0 <= t - first /\
      coords !! (i * 4 + 0)%nat = Some (JInt (t - first)) /\
      coords !! (i * 4 + 1)%nat = Some (JFloat lo) /\
      coords !! (i * 4 + 2)%nat = Some (JFloat la) /\
      coords !! (i * 4 + 3)%nat = Some (JFloat al).
Proof.
  intros Hne (Llon & Llat & Lalt).
  destruct (np_min_nonempty _ Hne) as [first Hm].
  destruct (np_min_spec _ _ Hm) as [Hin Hle].
  exists first. eexists. split; [exact Hm|]. split; [exact Hin|].
  split; [now rewrite (convert_to_czml_eq cloud "path" first Hm)|].
  split.
  - rewrite (length_bind_uniform _ 4) by apply path_entry_length.
    rewrite length_zip4; rewrite ?length_map; auto.
  - intros i t lo la al Ht Hlo Hla Hal.
    rewrite Forall_lookup in Hle. specialize (Hle _ _ Ht).
    split; [lia|].
    rewrite !(lookup_bind_uniform _ 4) by (try apply path_entry_length; lia).
    rewrite (lookup_zip4 _ _ _ _ i (t - first) lo la al); auto.
    now rewrite list_lookup_fmap, Ht.
Qed.

Lemma map_packet_id_imap {A : Type} (g : nat -> A -> json) (f : nat -> option string)
    (l : list A) :
  (forall i x, packet_id (g i x) = f i) ->
  map packet_id (imap g l) = map f (seq 0 (length l)).
Proof.
  revert g f. induction l as [|x l IH]; intros g f H; [reflexivity|].
  cbn [imap map length seq]. rewrite H. f_equal.
  rewrite (IH (g ∘ S) (f ∘ S)) by (intros; apply H).
  now rewrite <- fmap_S_seq, <- list_fmap_compose.
Qed.

Lemma read_number_digits_acc (w : nat) (n acc : Z) (s : string) :
  read_number acc (digits_acc w n s)
  = read_number (acc * 10 ^ Z.of_nat w + n mod 10 ^ Z.of_nat w) s.
Proof.
  revert n s. induction w as [|w IH]; intros n s.
  - cbn [digits_acc]. f_equal. change (10 ^ Z.of_nat 0) with 1.
    rewrite Z.mod_1_r. lia.
  - cbn [digits_acc]. rewrite IH. cbn [read_number].
    rewrite is_digit_digit_char, digit_val_digit_char. f_equal.
    rewrite Nat2Z.inj_succ, Z.pow_succ_r by lia.
    rewrite (Z.rem_mul_r n 10 (10 ^ Z.of_nat w)) by lia. lia.
Qed.

Lemma length_digits_acc (w : nat) (n : Z) (s : string) :
  String.length (digits_acc w n s) = (w + String.length s)%nat.
Proof.
  revert n s. induction w as [|w IH]; intros n s; [reflexivity|].
  cbn [digits_acc]. rewrite IH. cbn [String.length]. lia.
Qed.

Lemma num_digits_bound (fuel : nat) (n : Z) :
  0 <= n <= Z.of_nat fuel -> n < 10 ^ Z.of_nat (num_digits fuel n).
Proof.
  revert n. induction fuel as [|fuel IH]; intros n Hn; cbn [num_digits].
  - change (10 ^ Z.of_nat 1) with 10. lia.
  - destruct (Z.ltb_spec n 10); [change (10 ^ Z.of_nat 1) with 10; lia|].
    rewrite Nat2Z.inj_succ, Z.pow_succ_r by lia.
    assert (Hd : n / 10 < 10 ^ Z.of_nat (num_digits fuel (n / 10))).
    { apply IH. split; [apply Z.div_pos; lia|].
      assert (n / 10 < n) by (apply Z.div_lt; lia). lia. }
    pose proof (Z.mul_succ_div_gt n 10 ltac:(lia)). lia.
Qed.

(** Zero-padded decimal numerals of different numbers are different. *)
Lemma zero_padded_inj (w : nat) (m n : Z) :
  0 <= m -> 0 <= n -> zero_padded w m = zero_padded w n -> m = n.
Proof.
  intros Hm Hn E. unfold zero_padded in E.
  set (wm := Nat.max w (num_digits (Z.to_nat m) m)) in *.
  set (wn := Nat.max w (num_digits (Z.to_nat n) n)) in *.
  assert (Hw : wm = wn).
  { apply (f_equal String.length) in E. rewrite !length_digits_acc in E. lia. }
  assert (Hbm : m < 10 ^ Z.of_nat wm).
  { eapply Z.lt_le_trans; [apply (num_digits_bound (Z.to_nat m)); lia|].
    apply Z.pow_le_mono_r; lia. }
  assert (Hbn : n < 10 ^ Z.of_nat wn).
  { eapply Z.lt_le_trans; [apply (num_digits_bound (Z.to_nat n)); lia|].
    apply Z.pow_le_mono_r; lia. }
  apply (f_equal (read_number 0)) in E. rewrite !read_number_digits_acc in E.
  cbn [read_number] in E. injection E as E. rewrite <- Hw in *.
  rewrite !Z.mod_small in E by lia. lia.
Qed.

(** X20. In the mode [points] a cloud with points whose sequences have
    one length gives the document packet followed by one packet per
    point, in the order of the cloud; packet [i] carries the time and the
    coordinates of point [i] and the identifier [point-] followed by [i]
    in at least six digits, and no two packets share an identifier. *)
Theorem czml_points (cloud : PointCloud) :
  pc_time cloud <> [] -> aligned cloud ->
  exists packets,
    convert_to_czml datetime_as_string cloud "points" = Ok (document_packet :: packets) /\
    length packets = length (pc_time cloud) /\
    (forall i t lo la al,
       pc_time cloud !! i = Some t -> pc_lon cloud !! i = Some lo ->
       pc_lat cloud !! i = Some la -> pc_alt cloud !! i = Some al ->
       packets !! i = Some (point_packet i (datetime_as_string t) lo la al) /\
       packet_id (point_packet i (datetime_as_string t) lo la al)
       = Some ("point-" ++ zero_padded 6 (Z.of_nat i))) /\
    NoDup (map packet_id (document_packet :: packets)).
Proof.
  intros Hne (Llon & Llat & Lalt).
  destruct (np_min_nonempty _ Hne) as [first Hm].
  eexists. split; [now rewrite (convert_to_czml_eq cloud "points" first Hm)|].
  split; [rewrite length_imap; now apply length_zip4|]. split.
  - intros i t lo la al Ht Hlo Hla Hal. split; [|reflexivity].
    now rewrite list_lookup_imap, (lookup_zip4 _ _ _ _ i t lo la al).
  - cbn [map].
    rewrite (map_packet_id_imap _
               (fun i => Some ("point-" ++ zero_padded 6 (Z.of_nat i))))
      by (now intros i [[[t lo] la] al]).
    apply NoDup_cons. split.
    + intros Hin. apply list_elem_of_fmap in Hin as (i & Hi & _). discriminate.
    + apply NoDup_fmap_2; [|apply NoDup_seq].
      intros i j [= E]. apply zero_padded_inj in E; lia.
Qed.

(** X21. Whatever the mode, [convert_to_czml] raises the zero-size
    error of [np.min] on a cloud without points; on a cloud with points
    a mode other than [path] and [points] gives the document packet
    alone. *)
Theorem czml_other_cases (cloud : PointCloud) (mode : string) :
  (pc_time cloud = [] ->
   convert_to_czml datetime_as_string cloud mode = Raise zero_size_min) /\
  (pc_time cloud <> [] -> mode <> "path" -> mode <> "points" ->
   convert_to_czml datetime_as_string cloud mode = Ok [document_packet]).
Proof.
  split.
  - intros E. unfold convert_to_czml. now rewrite E.
  - intros Hne Hp Hq. destruct (np_min_nonempty _ Hne) as [first Hm].
    rewrite (convert_to_czml_eq cloud mode first Hm).
    apply String.eqb_neq in Hp, Hq. now rewrite Hp, Hq.
Qed.


Lemma StronglySorted_lookup_le (l : list Z) (i j : nat) (a b : Z) :
  StronglySorted Z.le l -> (i <= j)%nat -> l !! i = Some a -> l !! j = Some b -> a <= b.
Proof.
  intros Hs. revert i j. induction Hs as [|x l Hs IH Hall]; intros i j Hij Ha Hb;
    [discriminate|].
  destruct i as [|i], j as [|j]; try lia.
  - injection Ha as <-. injection Hb as <-. lia.
  - injection Ha as <-. cbn in Hb. rewrite Forall_lookup in Hall. eauto.
  - cbn in Ha, Hb. apply (IH i j); auto. lia.
Qed.

Lemma path_coords_time (cloud : PointCloud) (first : Z) (i : nat) :
  aligned cloud ->
  (zip4 (map (fun t => t - first) (pc_time cloud)) (pc_lon cloud) (pc_lat cloud)
        (pc_alt cloud) ≫= path_entry) !! (i * 4 + 0)%nat
  = (fun t => JInt (t - first)) <$> pc_time cloud !! i.
Proof.
  intros (Llon & Llat & Lalt).
  rewrite (lookup_bind_uniform _ 4) by (try apply path_entry_length; lia).
  destruct (pc_time cloud !! i) as [t|] eqn:Ht.
  - destruct (lookup_lt_is_Some_2 (pc_lon cloud) i) as [lo Hlo];
      [rewrite Llon; eauto using lookup_lt_Some|].
    destruct (lookup_lt_is_Some_2 (pc_lat cloud) i) as [la Hla];
      [rewrite Llat; eauto using lookup_lt_Some|].
    destruct (lookup_lt_is_Some_2 (pc_alt cloud) i) as [al Hal];
      [rewrite Lalt; eauto using lookup_lt_Some|].
    rewrite (lookup_zip4 _ _ _ _ i (t - first) lo la al); auto.
    now rewrite list_lookup_fmap, Ht.
  - rewrite lookup_ge_None_2; [reflexivity|].
    apply lookup_ge_None_1 in Ht.
    rewrite length_zip4; rewrite ?length_map; auto.
Qed.

Lemma converted_aligned (argsort : list Z -> list nat) (granule : CampaignGranule)
    (pc : PointCloud) :
  convert argsort granule = Ok pc -> aligned pc.
Proof.
  intros Hc.
  destruct (convert_inv argsort granule pc Hc)
    as (raw & lon & lat & alt & ref & time & _ & _
        & (Hlon & Hlat & Halt & Href & Htime) & ->).
  unfold aligned, cloud. cbn [pc_lon pc_lat pc_alt pc_time].
  rewrite !length_gather by (now apply in_range_filter). auto.
Qed.

(** X22. Writing the path of a converted cloud: with an [argsort] that
    sorts, a cloud returned by [convert] without points makes the writer
    raise the zero-size error; otherwise the epoch of the path is the
    time of the first point, whose offset is 0, and the offsets never
    step backward along the path. *)
Theorem write_converted_path (argsort : list Z -> list nat)
    (granule : CampaignGranule) (pc : PointCloud) :
  sorts argsort -> convert argsort granule = Ok pc ->
  let writer := mkCZMLWriter (convert_to_czml datetime_as_string) in
  match pc_time pc with
  | [] => write writer pc "path" = Raise zero_size_min
  | first :: _ =>
      exists coords,
        write writer pc "path"
        = Ok [document_packet; path_packet (datetime_as_string first) coords] /\
        length coords = (length (pc_time pc) * 4)%nat /\
        coords !! O = Some (JInt 0) /\
        forall i j a b,
          (i <= j)%nat ->
          coords !! (i * 4 + 0)%nat = Some (JInt a) ->
          coords !! (j * 4 + 0)%nat = Some (JInt b) ->
          0 <= a <= b
  end.
Proof.
  intros Hs Hc writer. subst writer. unfold write. cbn [strategy].
  pose proof (convert_time_sorted argsort granule pc Hs Hc) as Hsorted.
  pose proof (converted_aligned argsort granule pc Hc) as Hal.
  destruct (pc_time pc) as [|first rest] eqn:Et.
  - unfold convert_to_czml. now rewrite Et.
  - assert (Hm : np_min (pc_time pc) = Ok first)
      by (rewrite Et; now apply np_min_sorted).
    eexists. split; [now rewrite (convert_to_czml_eq pc "path" first Hm)|].
    split.
    { rewrite (length_bind_uniform _ 4) by apply path_entry_length.
      destruct Hal as (? & ? & ?).
      rewrite length_zip4; rewrite ?length_map; auto. now rewrite Et. }
    split.
    { change O with (0 * 4 + 0)%nat. rewrite (path_coords_time pc first 0 Hal), Et.
      cbn. do 2 f_equal. lia. }
    intros i j a b Hij Ha Hb.
    rewrite (path_coords_time pc first i Hal) in Ha.
    rewrite (path_coords_time pc first j Hal) in Hb.
    destruct (pc_time pc !! i) as [ti|] eqn:Hi; [|discriminate].
    destruct (pc_time pc !! j) as [tj|] eqn:Hj; [|discriminate].
    injection Ha as <-. injection Hb as <-.
    rewrite <- Et in Hsorted.
    assert (H0 : pc_time pc !! O = Some first) by now rewrite Et.
    pose proof (StronglySorted_lookup_le _ 0 i first ti Hsorted ltac:(lia) H0 Hi).
    pose proof (StronglySorted_lookup_le _ i j ti tj Hsorted Hij Hi Hj).
    lia.
Qed.

End CzmlProperties.

Lemma czml_path_witness :
  exists first coords,
    np_min [60; 0] = Ok first /\
    first ∈ [60; 0] /\
    convert_to_czml seconds_text two_points "path"
    = Ok [document_packet; path_packet (seconds_text first) coords] /\
    length coords = 8%nat /\
    coords !! 0%nat = Some (JInt (60 - first)) /\
    coords !! 4%nat = Some (JInt (0 - first)).
Proof.
  destruct (czml_path seconds_text two_points ltac:(discriminate)
              ltac:(repeat split; reflexivity))
    as (first & coords & Hm & Hin & Hc & Hl & H).
  exists first, coords. repeat split; auto.
  - exact (proj1 (proj2 (H 0%nat 60 20%R 10%R 900%R eq_refl eq_refl eq_refl eq_refl))).
  - exact (proj1 (proj2 (H 1%nat 0 21%R 11%R 800%R eq_refl eq_refl eq_refl eq_refl))).
Defined.

Lemma czml_points_witness :
  exists packets,
    convert_to_czml seconds_text two_points "points" = Ok (document_packet :: packets) /\
    length packets = 2%nat /\
    packets !! 1%nat = Some (point_packet 1 (seconds_text 0) 21%R 11%R 800%R) /\
    NoDup (map packet_id (document_packet :: packets)).
Proof.
  destruct (czml_points seconds_text two_points ltac:(discriminate)
              ltac:(repeat split; reflexivity))
    as (packets & Hc & Hl & H & Hn).
  exists packets. repeat split; auto.
  exact (proj1 (H 1%nat 0 21%R 11%R 800%R eq_refl eq_refl eq_refl eq_refl)).
Defined.

Lemma czml_other_cases_witness :
  convert_to_czml seconds_text no_points "path" = Raise zero_size_min /\
  convert_to_czml seconds_text two_points "Path" = Ok [document_packet].
Proof.
  split.
  - now apply (proj1 (czml_other_cases seconds_text no_points "path")).
  - apply (proj2 (czml_other_cases seconds_text two_points "Path")); discriminate.
Defined.

Lemma write_converted_path_witness :
  (exists pc,
      convert stable_argsort grid_2x2_granule = Ok pc /\
      match pc_time pc with
      | [] => True
      | first :: _ =>
          exists coords,
            write (mkCZMLWriter (convert_to_czml seconds_text)) pc "path"
            = Ok [document_packet; path_packet (seconds_text first) coords] /\
            coords !! O = Some (JInt 0)
      end) /\
  (exists pc,
      convert stable_argsort blank_granule = Ok pc /\
      write (mkCZMLWriter (convert_to_czml seconds_text)) pc "path"
      = Raise zero_size_min).
Proof.
  split.
  - destruct (convert_points stable_argsort grid_2x2_granule grid_2x2_raw
                stable_argsort_sorts grid_2x2_load grid_2x2_well_shaped) as (pc & Hc & _).
    exists pc. split; [exact Hc|].
    pose proof (write_converted_path seconds_text stable_argsort grid_2x2_granule pc
                  stable_argsort_sorts Hc) as H.
    cbv zeta in H. destruct (pc_time pc); [exact I|].
    destruct H as (coords & H1 & _ & H2 & _). eauto.
  - destruct (convert_points stable_argsort blank_granule blank_raw
                stable_argsort_sorts blank_load blank_well_shaped) as (pc & Hc & _).
    exists pc. split; [exact Hc|].
    pose proof (write_converted_path seconds_text stable_argsort blank_granule pc
                  stable_argsort_sorts Hc) as H.
    cbv zeta in H.
    destruct (convert_inv stable_argsort blank_granule pc Hc)
      as (raw & lon & lat & alt & ref & time & Hl & Hp & _ & E).
    rewrite blank_load in Hl. injection Hl as <-.
    rewrite (project_well_shaped _ blank_well_shaped) in Hp.
    injection Hp as <- <- <- <- <-. subst pc. exact H.
Defined.

(** ** The Zarr writer *)

Lemma int32_small (z : Z) : -2147483648 <= z < 2147483648 -> int32 z = z.
Proof. intros H. unfold int32. rewrite Z.mod_small; lia. Qed.

Lemma np_nanmin_np_min (a : list Z) (m : Z) : np_min a = Ok m -> np_nanmin a = Ok m.
Proof. destruct a; [discriminate|]. auto. Qed.

Lemma length_np_arange (stop step : nat) :
  length (np_arange stop step) = ((stop + step - 1) / step)%nat.
Proof. unfold np_arange. now rewrite length_map, length_seq. Qed.

Lemma np_arange_in_range {A : Type} (a : list A) (step : nat) :
  (0 < step)%nat -> in_range a (np_arange (length a) step).
Proof.
  intros Hs. unfold in_range, np_arange. apply Forall_forall. intros i Hi.
  apply list_elem_of_fmap in Hi as (k & -> & Hk). apply elem_of_seq in Hk.
  assert (Hlt : (k < (length a + step - 1) / step)%nat) by lia.
  pose proof (Nat.div_mod_eq (length a + step - 1) step).
  pose proof (Nat.mod_upper_bound (length a + step - 1) step ltac:(lia)).
  nia.
Qed.

Section ZarrProperties.

Variable float32 : R -> cell.

(** What [convert_to_zarr] leaves in the group on a cloud with points
    whose sequences have one length. *)
Lemma convert_to_zarr_eq (cloud : PointCloud) (chunk : positive) (first : Z) :
  fully_aligned cloud -> np_min (pc_time cloud) = Ok first ->
  let n := length (pc_time cloud) in
  let c := Pos.to_nat chunk in
  convert_to_zarr float32 cloud chunk
  = mkoutcome
      (mkzgroup
         (<["ref" := mkzarray [n] (Some [c]) "float32" ["point"]
                       (Some (Float32s (map (cast_float32 float32) (pc_ref cloud))))]>
            (<["time" := mkzarray [n] (Some [c]) "int32" ["point"]
                           (Some (Int32s (map int32 (map (fun t => t - first)
                                                       (pc_time cloud)))))]>
               (<["location" := mkzarray [n; 3%nat] (Some [c; 3%nat]) "float32"
                                  ["point"; "xyz"]
                                  (Some (Locations
                                           (zip (zip (map float32 (pc_lon cloud))
                                                     (map float32 (pc_lat cloud)))
                                                (map float32 (pc_alt cloud)))))]>
                  {[ "location" := mkzarray [n; 3%nat] (Some [c; 3%nat]) "float32"
                                     ["point"; "xyz"] None;
                     "time" := mkzarray [n] (Some [c]) "int32" ["point"] None;
                     "ref" := mkzarray [n] (Some [c]) "float32" ["point"] None ]})))
         (Some {[ "chunk_id" := mkzarray [num_chunks n chunk; 2%nat] None "int64"
                                  ["chunk"; "meta"] None ]})
         {[ "format" := JStr "point-cloud";
            "converted_by" := JStr (get_or_unknown (pc_attrs cloud) "converted_by");
            "projection" := JStr (get_or_unknown (pc_attrs cloud) "projection");
            "epoch" := JInt first ]})
      None.
Proof.
  intros [(Llon & Llat & Lalt) Lref] Hm n c. subst n c.
  unfold convert_to_zarr, np_stack3, assign.
  rewrite !length_map, Llon, Llat, Lalt, Lref, !Nat.eqb_refl.
  cbn [andb mbind result_bind].
  rewrite !length_zip_with, !length_map, Llon, Llat, Lalt, !Nat.min_id, Nat.eqb_refl.
  rewrite (np_nanmin_np_min _ _ Hm), Hm.
  rewrite take_in_range.
  2:{ replace (length (pc_time cloud))
        with (length (map int32 (map (fun t => t - first) (pc_time cloud)))) at 1
        by now rewrite !length_map.
      apply np_arange_in_range. lia. }
  rewrite length_zip_with, length_gather.
  2:{ replace (length (pc_time cloud))
        with (length (map int32 (map (fun t => t - first) (pc_time cloud)))) at 1
        by now rewrite !length_map.
      apply np_arange_in_range. lia. }
  rewrite Nat.min_id, length_np_arange. reflexivity.
Qed.

(** X23. On a cloud with points whose sequences have one length,
    [convert_to_zarr] ends without an exception; the [epoch] attribute
    is the earliest time of the cloud, the [time] array holds one offset
    per point, and for every point less than 2^31 seconds after the
    epoch the offset is not negative and leads from the epoch back to
    the time of the point. *)
Theorem zarr_time_round_trip (cloud : PointCloud) (chunk : positive) :
  pc_time cloud <> [] -> fully_aligned cloud ->
  exists first offsets,
    np_min (pc_time cloud) = Ok first /\
    first ∈ pc_time cloud /\
    raised (convert_to_zarr float32 cloud chunk) = None /\
    z_attrs (store (convert_to_zarr float32 cloud chunk)) !! "epoch" = Some (JInt first) /\
    array_data (store (convert_to_zarr float32 cloud chunk)) "time"
    = Some (Some (Int32s offsets)) /\
    length offsets = length (pc_time cloud) /\
    forall i t,
      pc_time cloud !! i = Some t -> t - first < 2147483648 ->
      exists offset,
        offsets !! i = Some offset /\ 0 <= offset /\ first + offset = t.
Proof.
  intros Hne Hal.
  destruct (np_min_nonempty _ Hne) as [first Hm].
  destruct (np_min_spec _ _ Hm) as [Hin Hle].
  exists first. eexists. split; [exact Hm|]. split; [exact Hin|].
  rewrite (convert_to_zarr_eq cloud chunk first Hal Hm).
  cbn [raised store z_attrs]. unfold array_data. cbn [z_arrays].
  split; [reflexivity|]. split; [reflexivity|].
  rewrite lookup_insert_ne, lookup_insert_eq by discriminate. cbn [fmap option_fmap option_map z_data].
  split; [reflexivity|]. split; [now rewrite !length_map|].
  intros i t Ht Hlt. rewrite Forall_lookup in Hle. specialize (Hle _ _ Ht).
  exists (t - first). rewrite !list_lookup_fmap, Ht. cbn.
  rewrite int32_small by lia. repeat split; lia.
Qed.

(** X24. On the same clouds the three arrays [location], [time] and
    [ref] are created with one row per point and receive their data: row
    [i] of [location] is the longitude, the latitude and the altitude of
    point [i], in that order, and entry [i] of [ref] its reflectivity,
    each rounded to [float32].  The array [chunk_id] of the subgroup
    [internal] is created with one row per chunk, that is the number of
    points divided by the chunk size and rounded up, and two columns,
    and no data is ever assigned to it. *)
Theorem zarr_chunk_index (cloud : PointCloud) (chunk : positive) :
  pc_time cloud <> [] -> fully_aligned cloud ->
  let g := store (convert_to_zarr float32 cloud chunk) in
  let n := length (pc_time cloud) in
  (exists rows offsets refs,
     array_data g "location" = Some (Some (Locations rows)) /\
     array_data g "time" = Some (Some (Int32s offsets)) /\
     array_data g "ref" = Some (Some (Float32s refs)) /\
     length rows = n /\ length offsets = n /\ length refs = n /\
     (forall i lo la al,
        pc_lon cloud !! i = Some lo -> pc_lat cloud !! i = Some la ->
        pc_alt cloud !! i = Some al ->
        rows !! i = Some (float32 lo, float32 la, float32 al)) /\
     (forall i c,
        pc_ref cloud !! i = Some c -> refs !! i = Some (cast_float32 float32 c))) /\
  z_shape <$> z_arrays g !! "location" = Some [n; 3%nat] /\
  z_shape <$> z_arrays g !! "time" = Some [n] /\
  z_shape <$> z_arrays g !! "ref" = Some [n] /\
  exists internal chunk_id,
    z_internal g = Some internal /\
    internal !! "chunk_id" = Some chunk_id /\
    z_shape chunk_id = [num_chunks n chunk; 2%nat] /\
    z_data chunk_id = None.
Proof.
  intros Hne Hal g n. subst g n.
  destruct (np_min_nonempty _ Hne) as [first Hm].
  rewrite (convert_to_zarr_eq cloud chunk first Hal Hm).
  destruct Hal as [(Llon & Llat & Lalt) Lref].
  unfold array_data. cbn [store z_arrays z_internal].
  rewrite lookup_insert_eq.
  rewrite (lookup_insert_ne _ "ref" "time"), lookup_insert_eq by discriminate.
  rewrite (lookup_insert_ne _ "ref" "location"), (lookup_insert_ne _ "time" "location"),
    lookup_insert_eq by discriminate.
  cbn [fmap option_fmap option_map z_data z_shape].
  split; [|repeat split].
  - do 3 eexists. repeat split.
    + rewrite !length_zip_with, !length_map. lia.
    + now rewrite !length_map.
    + now rewrite length_map.
    + intros i lo la al Hlo Hla Hal.
      now rewrite !lookup_zip_with, !list_lookup_fmap, Hlo, Hla, Hal.
    + intros i c Hc. now rewrite list_lookup_fmap, Hc.
  - do 2 eexists. split; [reflexivity|]. split; [apply lookup_singleton_eq|].
    split; reflexivity.
Qed.

Lemma converted_fully_aligned (argsort : list Z -> list nat) (granule : CampaignGranule)
    (pc : PointCloud) :
  convert argsort granule = Ok pc -> fully_aligned pc.
Proof.
  intros Hc. split; [now apply (converted_aligned argsort granule)|].
  destruct (convert_inv argsort granule pc Hc)
    as (raw & lon & lat & alt & ref & time & _ & _
        & (Hlon & Hlat & Halt & Href & Htime) & ->).
  unfold cloud. cbn [pc_ref pc_time].
  now rewrite !length_gather by (now apply in_range_filter).
Qed.

(** X25. Writing a converted cloud to Zarr: with an [argsort] that
    sorts, a cloud returned by [convert] without points makes
    [convert_to_zarr] raise the zero-size error of [np.nanmin] after the
    three arrays are created, before any attribute is set; otherwise it
    ends without an exception, the attributes name the format, the
    converter and the projection of the cloud, the epoch is the time of
    the first point and the stored offset of the first point is 0. *)
Theorem zarr_converted (argsort : list Z -> list nat) (granule : CampaignGranule)
    (pc : PointCloud) (chunk : positive) :
  sorts argsort -> convert argsort granule = Ok pc ->
  let out := convert_to_zarr float32 pc chunk in
  match pc_time pc with
  | [] =>
      raised out = Some zero_size_fmin /\
      z_attrs (store out) = ∅ /\ z_internal (store out) = None /\
      array_data (store out) "location" = Some (Some (Locations [])) /\
      array_data (store out) "time" = Some None /\
      array_data (store out) "ref" = Some None
  | first :: _ =>
      raised out = None /\
      z_attrs (store out) !! "format" = Some (JStr "point-cloud") /\
      z_attrs (store out) !! "converted_by" = Some (JStr "PointCloudConverter") /\
      z_attrs (store out) !! "projection" = Some (JStr "slant-range") /\
      z_attrs (store out) !! "epoch" = Some (JInt first) /\
      exists offsets,
        array_data (store out) "time" = Some (Some (Int32s (0 :: offsets)))
  end.
Proof.
  intros Hs Hc out. subst out.
  pose proof (convert_time_sorted argsort granule pc Hs Hc) as Hsorted.
  pose proof (converted_fully_aligned argsort granule pc Hc) as Hal.
  assert (Hattrs : pc_attrs pc
                   = {[ "converted_by" := "PointCloudConverter";
                        "projection" := "slant-range" ]}).
  { destruct (convert_inv argsort granule pc Hc)
      as (raw & lon & lat & alt & ref & time & _ & _ & _ & ->). reflexivity. }
  destruct (pc_time pc) as [|first rest] eqn:Et.
  - destruct Hal as [(Llon & Llat & Lalt) Lref]. rewrite Et in *.
    cbn [length] in Llon, Llat, Lalt.
    apply length_zero_iff_nil in Llon, Llat, Lalt.
    unfold convert_to_zarr, np_stack3, assign. rewrite Et, Llon, Llat, Lalt.
    cbn [map length Nat.eqb andb mbind result_bind zip zip_with np_nanmin].
    cbn [raised store z_attrs z_internal]. unfold array_data. cbn [z_arrays].
    rewrite lookup_insert_eq.
    rewrite (lookup_insert_ne _ "location" "time"), (lookup_insert_ne _ "location" "ref")
      by discriminate.
    repeat split; reflexivity.
  - assert (Hm : np_min (pc_time pc) = Ok first)
      by (rewrite Et; now apply np_min_sorted).
    rewrite (convert_to_zarr_eq pc chunk first Hal Hm).
    cbn [raised store z_attrs]. unfold array_data. cbn [z_arrays].
    rewrite Hattrs. repeat split; try reflexivity.
    rewrite lookup_insert_ne, lookup_insert_eq by discriminate.
    cbn [fmap option_fmap option_map z_data]. rewrite Et. cbn [map].
    eexists. do 3 f_equal. f_equal. rewrite int32_small by lia. lia.
Qed.

End ZarrProperties.

Lemma two_points_fully_aligned : fully_aligned two_points.
Proof. repeat split. Qed.

Lemma zarr_time_round_trip_witness :
  exists first offsets,
    np_min (pc_time two_points) = Ok first /\
    raised (convert_to_zarr exact_float32 two_points 10000) = None /\
    z_attrs (store (convert_to_zarr exact_float32 two_points 10000)) !! "epoch"
    = Some (JInt first) /\
    array_data (store (convert_to_zarr exact_float32 two_points 10000)) "time"
    = Some (Some (Int32s offsets)) /\
    (60 - first < 2147483648 ->
     exists offset, offsets !! 0%nat = Some offset /\ 0 <= offset /\ first + offset = 60).
Proof.
  destruct (zarr_time_round_trip exact_float32 two_points 10000 ltac:(discriminate)
              two_points_fully_aligned)
    as (first & offsets & Hm & _ & Hr & He & Hd & _ & H).
  exists first, offsets.
  split; [exact Hm|]. split; [exact Hr|]. split; [exact He|]. split; [exact Hd|].
  exact (H 0%nat 60 eq_refl).
Defined.

Lemma zarr_chunk_index_witness :
  exists internal chunk_id,
    z_internal (store (convert_to_zarr exact_float32 two_points 1)) = Some internal /\
    internal !! "chunk_id" = Some chunk_id /\
    z_shape chunk_id = [2%nat; 2%nat] /\
    z_data chunk_id = None.
Proof.
  destruct (zarr_chunk_index exact_float32 two_points 1 ltac:(discriminate)
              two_points_fully_aligned)
    as (_ & _ & _ & _ & internal & chunk_id & H1 & H2 & H3 & H4).
  exists internal, chunk_id. auto.
Defined.

Lemma zarr_converted_witness :
  (exists pc,
      convert stable_argsort grid_2x2_granule = Ok pc /\
      match pc_time pc with
      | [] => True
      | first :: _ =>
          raised (convert_to_zarr exact_float32 pc 10000) = None /\
          z_attrs (store (convert_to_zarr exact_float32 pc 10000)) !! "epoch"
          = Some (JInt first)
      end) /\
  (exists pc,
      convert stable_argsort blank_granule = Ok pc /\
      raised (convert_to_zarr exact_float32 pc 10000) = Some zero_size_fmin).
Proof.
  split.
  - destruct (convert_points stable_argsort grid_2x2_granule grid_2x2_raw
                stable_argsort_sorts grid_2x2_load grid_2x2_well_shaped) as (pc & Hc & _).
    exists pc. split; [exact Hc|].
    pose proof (zarr_converted exact_float32 stable_argsort grid_2x2_granule pc 10000
                  stable_argsort_sorts Hc) as H.
    cbv zeta in H. destruct (pc_time pc); [exact I|].
    destruct H as (H1 & _ & _ & _ & H2 & _). auto.
  - destruct (convert_points stable_argsort blank_granule blank_raw
                stable_argsort_sorts blank_load blank_well_shaped) as (pc & Hc & _).
    exists pc. split; [exact Hc|].
    pose proof (zarr_converted exact_float32 stable_argsort blank_granule pc 10000
                  stable_argsort_sorts Hc) as H.
    cbv zeta in H.
    destruct (convert_inv stable_argsort blank_granule pc Hc)
      as (raw & lon & lat & alt & ref & time & Hl & Hp & _ & E).
    rewrite blank_load in Hl. injection Hl as <-.
    rewrite (project_well_shaped _ blank_well_shaped) in Hp.
    injection Hp as <- <- <- <- <-. subst pc. exact (proj1 H).
Defined.

Local Close Scope R_scope.

(** ** Names that do not collide, sequences that do not wrap *)

Lemma string_length_app (a b : string) :
  String.length (a ++ b) = (String.length a + String.length b)%nat.
Proof.
  induction a as [|x a IH]; [reflexivity|].
  rewrite string_app_cons. cbn [String.length]. now rewrite IH.
Qed.

Lemma string_app_inv_l (p a b : string) : p ++ a = p ++ b -> a = b.
Proof.
  induction p as [|x p IH]; [auto|].
  rewrite !string_app_cons. intros [= H]. auto.
Qed.

Lemma string_app_inv_r (a b t : string) : a ++ t = b ++ t -> a = b.
Proof.
  intros E.
  assert (Hl : String.length a = String.length b).
  { apply (f_equal String.length) in E. rewrite !string_length_app in E. lia. }
  revert b E Hl. induction a as [|x a IH]; intros [|y b] E Hl; try discriminate.
  - reflexivity.
  - rewrite !string_app_cons in E. injection E as -> E. f_equal. apply IH; auto.
Qed.

(** X26. At one value of the clock and with the same prefix and
    extension, [generate_timestamped_filename] gives different names for
    different numbers drawn; a number of the range 0 to 99999999 takes
    exactly eight characters, so that a name without extension is 10
    characters longer than the prefix and the time stamp together. *)
Theorem generated_filename_uid (now : datetime) (prefix extension : string)
    (uid1 uid2 : Z) :
  0 <= uid1 <= 99999999 -> 0 <= uid2 ->
  (generate_timestamped_filename now uid1 prefix extension
   = generate_timestamped_filename now uid2 prefix extension -> uid1 = uid2) /\
  String.length (generate_timestamped_filename now uid1 prefix "")
  = (String.length prefix + String.length (strftime now) + 10)%nat.
Proof.
  intros H1 H2. split.
  - unfold generate_timestamped_filename. intros E.
    assert (E' : zero_padded 8 uid1 = zero_padded 8 uid2).
    { destruct extension as [|x ext].
      - now do 4 apply string_app_inv_l in E.
      - rewrite !string_app_assoc in E. do 4 apply string_app_inv_l in E.
        now apply string_app_inv_r in E. }
    apply zero_padded_inj in E'; lia.
  - unfold generate_timestamped_filename.
    rewrite !string_length_app, zero_padded_width by (cbn; lia).
    rewrite length_digits_acc. cbn [String.length]. lia.
Qed.

Lemma generated_filename_uid_witness :
  (generate_timestamped_filename (mkdatetime (mkdate 2025 1 2) 3 4 5) 42 "czml_output" "czml"
   = generate_timestamped_filename (mkdatetime (mkdate 2025 1 2) 3 4 5) 42 "czml_output"
       "czml" -> 42 = 42) /\
  String.length
    (generate_timestamped_filename (mkdatetime (mkdate 2025 1 2) 3 4 5) 42 "czml_output" "")
  = (String.length "czml_output"
     + String.length (strftime (mkdatetime (mkdate 2025 1 2) 3 4 5)) + 10)%nat.
Proof.
  apply (generated_filename_uid (mkdatetime (mkdate 2025 1 2) 3 4 5) "czml_output" "czml"
           42 42); lia.
Defined.



(** ** Seconds of the day *)

(** X28. A float or signed-integer 1-D sequence without a units
    reference whose maximum is at least 25 and below 86400 is read as
    seconds of the day: with a date hint, [normalize_timestamps] returns
    midnight of that date plus each value cut to whole seconds, and a
    whole number of seconds is kept exactly. *)
Theorem normalize_seconds_of_day (units_reference : string -> option (since_unit * Z))
    (time_array : DataArray) (k : num_kind) (s : itemsize) (vals : list Q)
    (units : string) (m : Q) (d : date) :
  values time_array = Numeric k s vals ->
  k = kind_f \/ k = kind_i ->
  length (dims time_array) = 1%nat ->
  units_attr time_array = Ok units ->
  units_reference units = None ->
  np_max vals = Ok m ->
  ~ (m < 25)%Q -> (m < 86400)%Q ->
  exists ticks,
    normalize_timestamps units_reference time_array (Some d)
    = Ok (wrap time_array ticks) /\
    ticks = map (fun v => midnight d + Qtrunc v) vals /\
    forall i z, vals !! i = Some (inject_Z z) -> ticks !! i = Some (midnight d + z).
Proof.
  intros Hv Hk Hd Hu Hr Hm H25 H86400.
  eexists. split; [|split; [reflexivity|]].
  - unfold normalize_timestamps, detect_time_var_type, detect_numeric.
    rewrite Hv, Hu. cbn [mbind result_bind]. rewrite Hr, Hd.
    assert (Hk' : match k with kind_f | kind_i => true | kind_u => false end = true)
      by (destruct Hk; subst; reflexivity).
    rewrite Hk', Hm. cbn [andb Nat.eqb mbind result_bind].
    apply Qlt_bool_false in H25. apply Qlt_bool_iff in H86400.
    rewrite H25, H86400.
    cbn [type base_time mbind result_bind delta_seconds mentions_hour].
    rewrite List.map_map. now destruct Hk; subst k.
  - intros i z Hi. rewrite list_lookup_fmap, Hi. cbn. now rewrite Qtrunc_inject_Z.
Qed.

Lemma normalize_seconds_of_day_witness :
  exists ticks,
    normalize_timestamps (fun _ => None) morning_seconds (Some (mkdate 2017 5 17))
    = Ok (wrap morning_seconds ticks) /\
    ticks = map (fun v => midnight (mkdate 2017 5 17) + Qtrunc v) [3600; 7200; 60]%Q /\
    forall i z,
      [3600; 7200; 60]%Q !! i = Some (inject_Z z) ->
      ticks !! i = Some (midnight (mkdate 2017 5 17) + z).
Proof.
  apply (normalize_seconds_of_day (fun _ => None) morning_seconds kind_i size8
           [3600; 7200; 60]%Q "s" 7200%Q (mkdate 2017 5 17));
    first [reflexivity | right; reflexivity | vm_compute; congruence].
Defined.

(** ** Several runs of digits in a file name *)

(** X29. In a file name only the leftmost run of eight digits that
    starts with [19] or [20] is tried: when the text in front of it holds
    no digit and the run is not a date of the calendar, [get_date_hint]
    finds no date in the file name, whatever follows the run, a valid
    date included. *)
Theorem leftmost_run_decides (attrs : gmap string string) (front rest : string) :
  re_sub_nondigits front = "" ->
  ymd8_here rest = true ->
  valid_date (substring 0 8 rest) = None ->
  get_date_hint attrs (front ++ rest) = Ok (date_of_attrs attrs).
Proof.
  intros Hf Hm Hv. rewrite get_date_hint_eq. f_equal.
  destruct (date_of_attrs attrs); [reflexivity|].
  unfold date_of_filename. rewrite re_search_ymd8_skip by exact Hf.
  destruct rest as [|c rest]; cbn [re_search_ymd8]; rewrite Hm; exact Hv.
Qed.

Lemma leftmost_run_decides_witness :
  get_date_hint ∅ ("flight_" ++ "20179999_20170517.nc") = Ok (date_of_attrs ∅).
Proof.
  apply (leftmost_run_decides ∅ "flight_" "20179999_20170517.nc"); reflexivity.
Defined.

(** ** Hours of the day in two bytes *)

(** X30. Whole hours of the day held as two-byte signed integers are
    multiplied by 3600 in that dtype.  On such a 1-D sequence without a
    units reference and with a maximum below 25, [normalize_timestamps]
    with a date hint returns midnight of the hint plus the product
    wrapped around to 16 bits: 3600 seconds per hour for the hours 0 to
    9, and 65536 seconds less than that for the hours 10 to 24. *)
Theorem normalize_int16_wraps (units_reference : string -> option (since_unit * Z))
    (time_array : DataArray) (hours : list Z) (units : string) (m : Q) (d : date) :
  values time_array = Numeric kind_i size2 (map inject_Z hours) ->
  length (dims time_array) = 1%nat ->
  units_attr time_array = Ok units ->
  units_reference units = None ->
  np_max (map inject_Z hours) = Ok m ->
  (m < 25)%Q ->
  normalize_timestamps units_reference time_array (Some d)
  = Ok (wrap time_array
          (map (fun h => midnight d + wrap_int kind_i size2 (h * 3600)) hours)) /\
  (forall h, 0 <= h <= 9 -> wrap_int kind_i size2 (h * 3600) = h * 3600) /\
  (forall h, 10 <= h <= 24 -> wrap_int kind_i size2 (h * 3600) = h * 3600 - 65536).
Proof.
  intros Hv Hdim Hu Hr Hm Hlt. split; [|split].
  - rewrite (normalize_hours_pointwise units_reference time_array kind_i size2
               (map inject_Z hours)
               (map (fun x => inject_Z (wrap_int kind_i size2 (Qtrunc x * 3600)))
                    (map inject_Z hours)) units m d);
      [|assumption|now right|assumption..|reflexivity].
    do 2 f_equal. rewrite !List.map_map. apply List.map_ext. intros h.
    now rewrite !Qtrunc_inject_Z.
  - intros h Hh. apply wrap_int_small. cbv [bits]. lia.
  - intros h Hh. cbv [wrap_int bits].
    replace (h * 3600 + 2 ^ (16 - 1)) with (h * 3600 - 32768 + 1 * 2 ^ 16) by lia.
    rewrite Z_mod_plus_full, Z.mod_small by lia. lia.
Qed.

Lemma normalize_int16_wraps_witness :
  normalize_timestamps (fun _ => None) int16_hours (Some (mkdate 2017 5 17))
  = Ok (wrap int16_hours
          (map (fun h => midnight (mkdate 2017 5 17) + wrap_int kind_i size2 (h * 3600))
               [9; 20])) /\
  (forall h, 0 <= h <= 9 -> wrap_int kind_i size2 (h * 3600) = h * 3600) /\
  (forall h, 10 <= h <= 24 -> wrap_int kind_i size2 (h * 3600) = h * 3600 - 65536).
Proof.
  apply (normalize_int16_wraps (fun _ => None) int16_hours [9; 20] "" 20%Q
           (mkdate 2017 5 17));
    reflexivity.
Defined.
